(* ===== verification/_CoqProject ===== *)
-Q . S2P
Prelude.v
JsString.v
JsNumber.v
NumberFormat.v
FormData.v
CostEditor.v
ListEditor.v
Json.v
JsonCodec.v
TextSteps.v
Wizard.v
JsonExtract.v
Relay.v
Submit.v
ActionPlan.v
Session.v
Async.v
Pipeline.v
Liveness.v
