(* ===== verification/Prelude.v ===== *)
(** * Dream Life Planner: a verification development

    The program (repository sabri-dream-life-planner) is a five-step
    questionnaire written in React/TypeScript ([src/src/App.tsx] and the
    five editors [src/src/components/FormStep1..5.tsx]) that collects an
    answer set, persists it through Supabase ([src/src/lib/supabase.ts]),
    and sends it to a Deno edge function
    ([src/supabase/functions/analyze-plan/index.ts], the relay) which
    builds a prompt, calls the text-generation API once, extracts the first
    brace-delimited block of the reply with the regular expression
    [/\{[\s\S]*\}/], parses it as JSON and returns it.  [ActionPlan.tsx]
    only renders the result.

    How the parts interact: the editors write the answer set through
    [handleChange]; the wizard's buttons move between the steps when the
    current one is valid; the submit button runs [handleSubmit], which
    writes a plan row, calls the relay over HTTP, writes an analysis row
    and marks the plan completed; the relay is a stateless handler that
    makes at most one call to the external service.

    ** Files, in dependency order

    - [Prelude] (this file): the [dlp_scope] notations, a state/exception
      monad [Eff] whose exceptions do not roll the state back (the
      behaviour of [try]/[catch] around awaited database writes), the
      shared tactics, the hint databases [dlp] and [dlp_rw], and generic
      lemmas on lists ([filteri]/[remove_at], the model of
      [arr.filter((_, i) => i !== n)]).
    - [JsString] (Module [JsString]): [String.prototype.trim] with the
      ECMAScript white space of the Latin-1 range, truthiness,
      [Array.prototype.join].
    - [JsNumber] (Module [JsNumber]): JavaScript numbers [JsNum] (finite,
      signed infinities, NaN), [+], [-], truthiness, [x || 0], and
      [parseFloat] following the [StrDecimalLiteral] grammar.
    - [NumberFormat] (Module [NumberFormat]): [Number::toString] of
      ECMAScript (positional or exponent notation, exact for finite
      decimals), the engine's printing of the numbers of the answer set.
    - [FormData] (Module [FormData]): the record [FormData] of App.tsx,
      its initial value, [handleChange] (one [FieldUpdate] constructor
      per field) and the financial gap.
    - [CostEditor] (Module [CostEditor]): FormStep3.tsx: the drafts,
      [addCostItem], [removeCostItem], [handleCurrentExpensesChange], the
      [reduce] total over [Object.values], and the event handler
      [step3_handle]; [monthly_costs] is a [gmap string JsNum].
    - [ListEditor] (Module [ListEditor]): FormStep4.tsx and FormStep5.tsx:
      trimmed append with a blank guard and removal by index.
    - [Json] (Module [Json]): JSON values, property reads, the
      exceptions the code can raise, and the interface [JsRuntime]
      ([JSON.parse], number formatting, exception messages) under which
      the relay and the submission are verified.
    - [JsonCodec] (Module [JsonCodec]): [JSON.stringify] without
      indentation and [JSON.parse] as a recursive-descent parser with
      fuel; objects are rebuilt as [CreateDataProperty] does, integer
      keys first in ascending order.
    - [TextSteps] (Modules [FormStep1], [FormStep2]): the text, checkbox
      and radio editors of steps 1 and 2.
    - [Wizard] (Module [Wizard]): App.tsx's UI state [AppState], the
      step functions [handleNext]/[handlePrevious], the guards of the
      buttons, editor dispatch with unmount of the editors' drafts, the
      step function [ui_handle] and the reachable states [reachable].
    - [JsonExtract] (Module [JsonExtract]): the matcher of
      [/\{[\s\S]*\}/] with JavaScript's leftmost, greedy, backtracking
      semantics, and "first [{] to last [}]".
    - [Relay] (Module [Relay]): the whole edge function [handler] with
      its prompt template, the outbound call traced as a list, and its
      error paths; the service is a function [Outbound -> FetchResult].
    - [Submit] (Module [Submit]): [handleSubmit] in the [Eff] monad over
      the UI state and a [Store] of the two tables ([user_plans],
      [ai_analyses]) and of the relay requests; what the database and
      the relay answer is the record [Outcomes].
    - [ActionPlan] (Module [ActionPlan]): the results page: its sixteen
      sections in source order ([layout]), the evaluation of the JSX
      (the unguarded [.map] calls) and React's rendering of the children
      ([render]).
    - [Session] (Module [Session]): the application's events ([step]:
      the wizard's controls and the submit button) on the pair of the UI
      state and the [Store], the states a session reaches
      ([session_reachable]), and the invariant [store_inv] of the
      database.
    - [Async] (Module [Async]): [handleSubmit] as the async function it
      is: the click runs its synchronous part, each of its five awaits is
      a [Stage] of a [Pending] submission holding the closure's answers
      and key, and [astep] interleaves UI events, clicks and the
      resolution of awaits ([resume]) with the [Answer] of the database
      or of the network.
    - [Pipeline] (Module [Pipeline], Section [Wire]): the client's
      [fetch] of the relay ([relay_request]) and the relay's JSON
      response ([response_text]) joined through the codec, under the
      concrete runtime [std_runtime] (the codec's [JSON.parse] and
      [Number::toString]).
    - [Liveness] (Module [Liveness]): the events that complete each
      step ([fill], [finish]) and open the key input ([key_events]),
      and the runs of the wizard and of the session they produce.

    ** What is proved

    - Relay: one [{...}] block in the reply gives 200 with its parsed
      value ([relay_single_block]); the error taxonomy: missing key 400
      with no call, upstream status forwarded with a prefixed message,
      no block 500, invalid body 500, preflight 200
      ([relay_missing_key], [relay_upstream_error], [relay_no_block],
      [relay_invalid_body], [relay_options], [relay_status_taxonomy]);
      at most one outbound call ([relay_at_most_one_call]).
    - Extraction: the backtracking matcher equals "first [{] to last
      [}]" ([regex_match_first_last]).
    - Wizard: invariants of every reachable state by rule induction:
      steps before the current one are valid, the step stays in 1..5,
      [dream_expenses] is the total of [monthly_costs], the list items
      are trimmed and non-empty; so the submit button is enabled only on
      a fully valid answer set ([submit_enabled_all_steps_valid]).
    - Editors: functional behaviour of each operation on every branch
      (add/remove cost items and list items, their guards, the drafts,
      [parseFloat(v) || 0] never NaN).
    - Submission: the refinement of the spec's three-write contract
      ([submit_refines_contract], relation [contract]) when the status
      update reports no error; the success, no-key and failure paths;
      at most one relay call per submission; the button enabled again
      after a submission; and the two divergences: the unchecked status
      update ([status_update_error_ignored]) and the stale rows left by
      retries ([retry_leaves_stale_drafts]).
    - Session: in every state reached by any sequence of events and
      any answers of the database and the relay, every stored plan is a
      complete answer set with its gap ([session_plans_complete]), every
      analysis row links to one plan and no plan has two
      ([session_analysis_linked]), a completed plan has its analysis
      ([session_completed_has_analysis]), the relay was called once per
      stored plan ([session_relay_calls]), and the wizard's invariants
      still hold ([session_wizard_inv]).
    - Results page: it throws exactly when a list section is not an
      array ([render_throws_iff]), e.g. without [focus_areas]
      ([render_missing_focus_areas]); an object in a prose section is
      refused by React ([render_object_roadmap]); an analysis of the
      requested shape shows every section with its strings
      ([render_well_shaped]).
    - Over HTTP: the relay reads the client's request back with the
      key and the answers unchanged ([relay_reads_request]), calls the
      service once with the prompt of the client's own form
      ([pipeline_prompt]); the client's [aiAnalysis] is the block of the
      service's reply ([pipeline_analysis]) and every relay answer is
      read as the analysis or the relay's message ([pipeline_reply]).
      Underneath (lemmas on the models of the builtins, not claims about
      the code): [parseFloat] reads back what [Number::toString] printed,
      [JSON.parse] reads back
      what [JSON.stringify] printed ([parse_stringify]) and never runs
      out of fuel ([parse_json_fuel]).
    - Submissions in flight: the atomic [Submit.handleSubmit] is the
      async function with no event between its awaits
      ([async_refines_handleSubmit]), so the theorems on the session
      model hold of the async code run in that order; at most one
      submission is in flight, exactly while [isAnalyzing]
      ([async_single_inflight]); the row and the request carry the
      answers and key of the click whatever the user does meanwhile
      ([submission_uses_click_answers]); no interleaving resolves awaits
      forever ([submission_terminates], a well-founded relation with the
      measure [work], the awaits left) and resolving the awaits ends
      every submission within five steps ([submission_completes]); the
      database invariant [store_inv] and the wizard's invariants hold
      over every interleaving ([async_store_invariants]), each pending
      submission carrying what the store holds for its await
      ([stage_ok]).
    - Declared types: TypeScript's [interface PlanData] of the relay
      and [type ActionPlanProps] of the page, which the compiler erases,
      are predicates on JSON values ([plan_data_typed], [props_typed]):
      the relay's [planData] has its declared type exactly when every
      number the client sent is finite ([relay_plan_data_typed]; a cost
      typed as "Infinity" arrives as [null]), and an analysis of the
      page's declared type renders every section ([render_props_typed]).
    - Liveness: from every state a session reaches, the results page is
      shown or is reached by UI events and one submission that the
      database and the relay answer with success
      ([results_page_reachable]).

    ** Modelling choices, bounds and fuel

    Numbers are exact: a finite JavaScript number is a canonical rational
    ([Qc]); IEEE-754 rounding and overflow to infinity are not modelled.
    The theorems are chosen so that this does not decide them: none
    compares two totals or differences computed in different ways (where
    rounding and the enumeration order of [monthly_costs] would matter:
    the model enumerates the [gmap] in its order, an engine an object in
    its property order), and the one that reads numbers from an external
    text ([pipeline_analysis]) assumes they are below the overflow
    threshold [double_overflow], where an engine's
    parse-print-parse trip returns the same doubles.
    Strings are Stdlib [string]s whose characters are the UTF-16 code
    units 0-255.  Every function is structurally recursive except
    [JSON.parse]: [parse_json] gives its parser the fuel
    [2 * length + 1], enough because each nested call consumes a
    character or descends one level under a consumed bracket;
    [parse_json_fuel] proves that this fuel never runs out and that more
    fuel changes nothing.  Database
    identifiers are a counter [next_id] shared by the two tables.

    ** Not modelled

    The markup of the views (styles, icons, headings other than the
    section titles); [createClient] and the columns the database fills
    in itself.  Network and database failures other than the answers of
    [Outcomes]/[Answer] (timeouts, a hung call: the spec defines none, and
    [submission_completes] assumes the awaits resolve).  The HTTP
    composition ([Pipeline.relay_outcome]) assumes that the Supabase
    gateway lets the client's request through: the client sends no
    Authorization header, and with the default JWT verification of edge
    functions (no supabase/config.toml in the repository turns it off)
    the gateway would answer 401 first.
    IEEE rounding and overflow (a literal such as [1e309] parses to a
    finite rational here, to Infinity and then [null] in an engine); the
    shortest round-trip digits of [Number::toString] for numbers that
    are not finite decimals (17 significant digits are printed instead);
    [\u] escapes above 255. *)

From stdpp Require Export base list.

Declare Scope dlp_scope.
Delimit Scope dlp_scope with dlp.
Open Scope dlp_scope.

Create HintDb dlp.
Create Rewrite HintDb dlp_rw.

(** ** A state monad whose exceptions keep the state

    [Eff S E A] is a computation over a state [S] that returns an [A] or
    throws an [E]; a throw keeps the state reached so far, as a JavaScript
    [throw] keeps the rows already written to the database. *)

Definition Eff (S E A : Type) : Type := S -> (E + A) * S.

Section Eff.
Context {S E : Type}.

Definition eff_ret {A} (a : A) : Eff S E A := fun s => (inr a, s).
Definition eff_bind {A B} (m : Eff S E A) (k : A -> Eff S E B) : Eff S E B :=
  fun s => match m s with
           | (inl e, s') => (inl e, s')
           | (inr a, s') => k a s'
           end.
Definition eff_throw {A} (e : E) : Eff S E A := fun s => (inl e, s).
Definition eff_get : Eff S E S := fun s => (inr s, s).
Definition eff_put (s : S) : Eff S E unit := fun _ => (inr tt, s).
Definition eff_modify (f : S -> S) : Eff S E unit := fun s => (inr tt, f s).
(** [try { m } catch (e) { h(e) }] *)
Definition eff_catch {A} (m : Eff S E A) (h : E -> Eff S E A) : Eff S E A :=
  fun s => match m s with
           | (inl e, s') => h e s'
           | r => r
           end.

Lemma eff_bind_ret_l {A B} (a : A) (k : A -> Eff S E B) s :
  eff_bind (eff_ret a) k s = k a s.
Proof. reflexivity. Qed.

Lemma eff_bind_throw {A B} (e : E) (k : A -> Eff S E B) s :
  eff_bind (eff_throw e) k s = (inl e, s).
Proof. reflexivity. Qed.

Lemma eff_bind_assoc {A B C} (m : Eff S E A) (k : A -> Eff S E B)
      (h : B -> Eff S E C) s :
  eff_bind (eff_bind m k) h s = eff_bind m (fun a => eff_bind (k a) h) s.
Proof. unfold eff_bind. by destruct (m s) as [[e|a] s']. Qed.
End Eff.

Notation "'do' x <- m ; k" := (eff_bind m (fun x => k))
  (at level 10, x name, m at level 100, k at level 200) : dlp_scope.

#[export] Hint Rewrite @eff_bind_ret_l @eff_bind_throw : dlp_rw.

(** ** Tactics *)

(** [invc H]: invert, substitute, and drop the hypothesis. *)
Ltac invc H := inversion H; subst; clear H.

(** Split every boolean test of the goal and close what is trivial. *)
Ltac case_bools :=
  repeat match goal with
         | |- context [if ?b then _ else _] =>
             let E := fresh "E" in destruct b eqn:E
         end.

(** Close a decidable goal by evaluating its decision procedure. *)
Ltac decide_goal := apply (bool_decide_unpack _); vm_compute; exact I.

(** ** [filteri]: [arr.filter((x, i) => p i x)] *)

Fixpoint filteri_from {A} (p : nat -> A -> bool) (i : nat) (l : list A) : list A :=
  match l with
  | [] => []
  | x :: r => if p i x then x :: filteri_from p (S i) r else filteri_from p (S i) r
  end.

Definition filteri {A} (p : nat -> A -> bool) (l : list A) : list A :=
  filteri_from p 0 l.

(** The list without its element at index [n]:
    [l.filter((_, i) => i !== n)]. *)
Definition remove_at {A} (n : nat) (l : list A) : list A :=
  filteri (fun i _ => negb (Nat.eqb i n)) l.

Lemma filteri_from_sublist {A} (p : nat -> A -> bool) i (l : list A) x :
  x ∈ filteri_from p i l -> x ∈ l.
Proof.
  revert i. induction l as [|y r IH]; intros i; simpl; [done|].
  rewrite elem_of_cons.
  destruct (p i y); [rewrite elem_of_cons; intros [->|H]|intros H]; eauto.
Qed.

Lemma remove_at_elem {A} n (l : list A) x : x ∈ remove_at n l -> x ∈ l.
Proof. apply filteri_from_sublist. Qed.

Lemma filteri_from_all {A} (p : nat -> A -> bool) i (l : list A) :
  (forall j x, i <= j -> p j x = true) -> filteri_from p i l = l.
Proof.
  revert i. induction l as [|x r IH]; intros i Hp; simpl; [done|].
  rewrite Hp by lia. f_equal. apply IH. intros; apply Hp; lia.
Qed.

(** Removing at index [n] drops exactly the [n]-th element. *)
Lemma remove_at_spec {A} n (l : list A) :
  remove_at n l = take n l ++ drop (S n) l.
Proof.
  unfold remove_at, filteri.
  enough (forall i, i <= n ->
            filteri_from (fun j _ => negb (Nat.eqb j n)) i l
            = take (n - i) l ++ drop (S (n - i)) l) as H
    by (rewrite (H 0); [by rewrite Nat.sub_0_r|lia]).
  induction l as [|x r IH]; intros i Hi; simpl; [by rewrite take_nil|].
  destruct (Nat.eqb_spec i n) as [->|Hne]; simpl.
  - rewrite Nat.sub_diag. simpl. apply filteri_from_all.
    intros j y Hj. apply negb_true_iff, Nat.eqb_neq. lia.
  - replace (n - i) with (S (n - S i)) by lia. simpl. f_equal. apply IH. lia.
Qed.

Lemma length_remove_at {A} n (l : list A) :
  n < length l -> length (remove_at n l) = pred (length l).
Proof.
  intros H. rewrite remove_at_spec, length_app, length_take, length_drop. lia.
Qed.

Lemma remove_at_ge {A} n (l : list A) : length l <= n -> remove_at n l = l.
Proof.
  intros H. rewrite remove_at_spec, take_ge, drop_ge by lia. apply app_nil_r.
Qed.

#[export] Hint Resolve remove_at_elem : dlp.
