(* ===== verification/JsString.v ===== *)
(** * JavaScript string primitives

    The string operations the planner calls: [String.prototype.trim]
    (FormStep4/5 [addFocusItem], [addCutItem], [addWinItem]), the
    truthiness of a string (every [&&] of [App.tsx]'s [isStepValid]) and
    [Array.prototype.join] (the prompt of the relay).  Characters are the
    UTF-16 code units 0-255; the white space of [trim] is the ECMAScript
    WhiteSpace and LineTerminator set restricted to that range:
    TAB, LF, VT, FF, CR, SPACE and NO-BREAK SPACE (0xA0). *)

From stdpp Require Import strings.
From S2P Require Import Prelude.

Open Scope string_scope.

Module JsString.

(** The code units [trim] removes. *)
Definition ws_codes : list nat := [9; 10; 11; 12; 13; 32; 160].

Definition is_ws (c : Ascii.ascii) : bool :=
  existsb (Nat.eqb (Ascii.nat_of_ascii c)) ws_codes.

(** [String.prototype.trimStart] *)
Fixpoint trim_start (s : string) : string :=
  match s with
  | EmptyString => EmptyString
  | String c r => if is_ws c then trim_start r else s
  end.

(** [String.prototype.trimEnd]: a character is kept when it is not white
    space or when something non-blank follows it. *)
Fixpoint trim_end (s : string) : string :=
  match s with
  | EmptyString => EmptyString
  | String c r =>
      match trim_end r with
      | EmptyString => if is_ws c then EmptyString else String c EmptyString
      | r' => String c r'
      end
  end.

(** [String.prototype.trim] *)
Definition trim (s : string) : string := trim_end (trim_start s).

(** JavaScript truthiness of a string: only [""] is falsy. *)
Definition truthy (s : string) : bool :=
  match s with EmptyString => false | _ => true end.

(** [Array.prototype.join] on an array of strings. *)
Definition join (sep : string) (l : list string) : string := String.concat sep l.

(** A string is blank when every character is white space. *)
Fixpoint blank (s : string) : bool :=
  match s with
  | EmptyString => true
  | String c r => is_ws c && blank r
  end.

(** First and last characters are not white space. *)
Definition no_lead_ws (s : string) : bool :=
  match s with EmptyString => true | String c _ => negb (is_ws c) end.

(** ** Lemmas *)

Lemma truthy_spec s : truthy s = true <-> s <> "".
Proof. destruct s; simpl; split; congruence. Qed.

Lemma trim_start_no_lead s : no_lead_ws (trim_start s) = true.
Proof.
  induction s as [|c r IH]; simpl; [done|].
  destruct (is_ws c) eqn:E; [done|]. simpl. by rewrite E.
Qed.

Lemma trim_start_idem s : trim_start (trim_start s) = trim_start s.
Proof.
  induction s as [|c r IH]; simpl; [done|].
  destruct (is_ws c) eqn:E; [done|]. simpl. by rewrite E.
Qed.

Lemma trim_end_nil_blank s : trim_end s = "" <-> blank s = true.
Proof.
  induction s as [|c r IH]; simpl; [done|].
  destruct (trim_end r) as [|c' r'] eqn:E.
  - destruct (is_ws c); simpl; [by rewrite <- IH|split; congruence].
  - rewrite andb_true_iff, <- IH. split; [congruence|intros [_ ?]; congruence].
Qed.

(** [trim_end] keeps the first character of a string it does not empty. *)
Lemma trim_end_head c r :
  trim_end (String c r) = "" \/ exists r', trim_end (String c r) = String c r'.
Proof.
  simpl. destruct (trim_end r); [destruct (is_ws c)|]; eauto.
Qed.

Lemma trim_start_trim_end s :
  no_lead_ws s = true -> trim_start (trim_end s) = trim_end s.
Proof.
  destruct s as [|c r]; simpl; [done|]. intros Hc.
  destruct (trim_end_head c r) as [E|[r' E]]; simpl in E; rewrite E; [done|].
  simpl. apply negb_true_iff in Hc. by rewrite Hc.
Qed.

Lemma trim_end_idem s : trim_end (trim_end s) = trim_end s.
Proof.
  induction s as [|c r IH]; simpl; [done|].
  destruct (trim_end r) as [|c' r'] eqn:E.
  - destruct (is_ws c) eqn:W; simpl; [done|]. by rewrite W.
  - try rewrite E in IH.
    change (trim_end (String c (String c' r'))) with
      (match trim_end (String c' r') with
       | EmptyString => if is_ws c then EmptyString else String c EmptyString
       | r'' => String c r'' end).
    by rewrite IH.
Qed.

#[export] Hint Rewrite trim_start_idem trim_end_idem : dlp_rw.

(** [trim] is idempotent. *)
Lemma trim_idem s : trim (trim s) = trim s.
Proof.
  unfold trim. rewrite trim_start_trim_end by apply trim_start_no_lead.
  apply trim_end_idem.
Qed.

Lemma trim_start_blank s : blank (trim_start s) = blank s.
Proof.
  induction s as [|c r IH]; simpl; [done|].
  destruct (is_ws c) eqn:E; simpl; by rewrite ?E.
Qed.

(** [trim s] is empty exactly when [s] is blank. *)
Lemma trim_empty_iff s : trim s = "" <-> blank s = true.
Proof. unfold trim. rewrite trim_end_nil_blank. by rewrite trim_start_blank. Qed.

Lemma list_ascii_of_string_app s1 s2 :
  String.list_ascii_of_string (String.append s1 s2)
  = (String.list_ascii_of_string s1 ++ String.list_ascii_of_string s2)%list.
Proof. induction s1 as [|c r IH]; simpl; [done|by rewrite IH]. Qed.

End JsString.
