(* ===== verification/JsNumber.v ===== *)
(** * JavaScript numbers

    The number values the planner computes with: the expense totals of
    [FormStep3.tsx] ([Object.values(..).reduce((sum, val) => sum + val, 0)],
    [parseFloat(value) || 0]) and the financial gap of [App.tsx]
    ([(dream_expenses || 0) - (current_expenses || 0)]).

    A finite number is an exact canonical rational [Qc]; the signed
    infinities and NaN are kept, with the propagation rules of
    ECMAScript's [Number::add] and [Number::unaryMinus] ([x - y] is
    [x + (-y)], as the ECMAScript specification defines it).  IEEE-754
    rounding, overflow to infinity and the sign of zero are not modelled:
    [-0] is [0], which has the same truthiness.  [parseFloat] follows the
    [StrDecimalLiteral] grammar of ECMAScript section 19.2.4. *)

From Stdlib Require Import Ascii QArith Qcanon.
From stdpp Require Import strings.
From S2P Require Import Prelude JsString.

Open Scope string_scope.

Module JsNumber.
Import JsString.

Inductive JsNum : Type :=
| JNum (q : Qc)
| JInf (negative : bool)
| JNaN.

#[export] Instance Qc_eq_decision : EqDecision Qc := Qc_eq_dec.
#[export] Instance JsNum_eq_dec : EqDecision JsNum.
Proof. solve_decision. Defined.

Definition zero : JsNum := JNum 0%Qc.

(** [Number::unaryMinus] *)
Definition neg (x : JsNum) : JsNum :=
  match x with
  | JNum q => JNum (- q)%Qc
  | JInf s => JInf (negb s)
  | JNaN => JNaN
  end.

(** [Number::add] *)
Definition add (x y : JsNum) : JsNum :=
  match x, y with
  | JNaN, _ | _, JNaN => JNaN
  | JNum a, JNum b => JNum (a + b)%Qc
  | JInf s, JNum _ | JNum _, JInf s => JInf s
  | JInf s, JInf t => if Bool.eqb s t then JInf s else JNaN
  end.

(** [Number::subtract]: [x - y] is [x + (-y)]. *)
Definition sub (x y : JsNum) : JsNum := add x (neg y).

(** [ToBoolean]: [0] and [NaN] are falsy. *)
Definition truthy (x : JsNum) : bool :=
  match x with
  | JNum q => if Qc_eq_dec q 0%Qc then false else true
  | JInf _ => true
  | JNaN => false
  end.

(** [x || 0] *)
Definition or_zero (x : JsNum) : JsNum := if truthy x then x else zero.

(** [x > 0] *)
Definition gt_zero (x : JsNum) : bool :=
  match x with
  | JNum q => negb (Qle_bool q 0)
  | JInf s => negb s
  | JNaN => false
  end.

(** ** [parseFloat] *)

Definition digit (c : Ascii.ascii) : option Z :=
  let n := Ascii.nat_of_ascii c in
  if (48 <=? n)%nat && (n <=? 57)%nat then Some (Z.of_nat (n - 48)) else None.

(** The longest run of decimal digits at the front of a string. *)
Fixpoint scan_digits (s : string) : list Z * string :=
  match s with
  | EmptyString => ([], EmptyString)
  | String c r =>
      match digit c with
      | Some d => let '(ds, rest) := scan_digits r in (d :: ds, rest)
      | None => ([], s)
      end
  end.

Definition digits_value (ds : list Z) : Z :=
  fold_left (fun acc d => 10 * acc + d)%Z ds 0%Z.

(** An optional sign; [true] for [-]. *)
Definition scan_sign (s : string) : bool * string :=
  match s with
  | String c r =>
      if Ascii.eqb c "-"%char then (true, r)
      else if Ascii.eqb c "+"%char then (false, r)
      else (false, s)
  | EmptyString => (false, s)
  end.

(** [ExponentPart]: taken only when at least one digit follows the sign;
    otherwise the longest valid prefix stops before the [e]. *)
Definition scan_exponent (s : string) : Z :=
  match s with
  | String c r =>
      if Ascii.eqb c "e"%char || Ascii.eqb c "E"%char then
        let '(negative, r') := scan_sign r in
        match scan_digits r' with
        | ([], _) => 0%Z
        | (ds, _) => if negative then (- digits_value ds)%Z else digits_value ds
        end
      else 0%Z
  | EmptyString => 0%Z
  end.

(** The exact value [m * 10^e]. *)
Definition dec_to_Qc (m e : Z) : Qc :=
  Q2Qc (if Z.leb 0 e then inject_Z (m * 10 ^ e) else Qmake m (Z.to_pos (10 ^ (- e)))).

(** [parseFloat(string)]: skip leading white space, read an optional
    sign, then [Infinity] or the longest [StrUnsignedDecimalLiteral]
    ([digits [. digits] [exponent]] or [. digits [exponent]]); NaN when
    no digit is found. *)
Definition parseFloat (s : string) : JsNum :=
  let '(negative, r) := scan_sign (trim_start s) in
  if String.prefix "Infinity" r then JInf negative else
  let '(ip, r1) := scan_digits r in
  let '(fp, r2) :=
    match r1 with
    | String c r1' => if Ascii.eqb c "."%char then scan_digits r1' else ([], r1)
    | EmptyString => ([], r1)
    end in
  match ip, fp with
  | [], [] => JNaN
  | _, _ =>
      let v := JNum (dec_to_Qc (digits_value (ip ++ fp))
                                (scan_exponent r2 - Z.of_nat (length fp))) in
      if negative then neg v else v
  end.

(** ** Arithmetic laws *)

Lemma add_comm x y : add x y = add y x.
Proof.
  destruct x as [a|s|], y as [b|t|]; simpl; try done.
  - by rewrite Qcplus_comm.
  - by destruct s, t.
Qed.

Lemma add_zero_l x : add zero x = x.
Proof. destruct x; simpl; [by rewrite Qcplus_0_l|done|done]. Qed.

Lemma sub_num a b : sub (JNum a) (JNum b) = JNum (a - b)%Qc.
Proof. reflexivity. Qed.

Lemma or_zero_num q : or_zero (JNum q) = JNum q.
Proof. unfold or_zero; simpl. destruct (Qc_eq_dec q 0%Qc); subst; done. Qed.

Lemma or_zero_nan : or_zero JNaN = zero.
Proof. reflexivity. Qed.

Lemma or_zero_truthy x : truthy x = true -> or_zero x = x.
Proof. unfold or_zero. by intros ->. Qed.

#[export] Hint Rewrite add_zero_l sub_num or_zero_num or_zero_nan : dlp_rw.

End JsNumber.
