(* ===== verification/NumberFormat.v ===== *)
(** * [Number::toString]: the text of a JavaScript number

    ECMAScript's [Number::toString(x)] (radix 10), used wherever the code
    turns a number into text: a template literal [${planData.current_expenses}]
    in the relay's prompt, and [JSON.stringify] of the request and
    response bodies.  For a finite [x] it takes the integers [s], [k], [n]
    with [k] as small as possible, [10^(k-1) <= s < 10^k] and
    [s * 10^(n-k) = x], and writes the digits of [s] positionally when
    [-6 < n <= 21] and in exponent notation otherwise.

    The numbers of the model are exact rationals.  A rational whose
    denominator has only the prime factors 2 and 5 (every number the
    program makes: [parseFloat] of a decimal literal, and sums and
    differences of such numbers) is [s * 10^(n-k)] exactly, and
    [decimal_repr] finds [s] and [n - k].  For any other rational the
    engine would print the shortest decimal that rounds to the same
    double; the model prints the nearest decimal with 17 significant
    digits instead ([round17]). *)

From Stdlib Require Import ZArith Ascii QArith Qabs Qpower Qcanon.
From stdpp Require Import strings.
From S2P Require Import Prelude JsString JsNumber.

Local Open Scope Z_scope.
Local Open Scope list_scope.

Module NumberFormat.
Import JsNumber.

(** ** Decimal digits *)

Definition digit_char (d : Z) : ascii := ascii_of_nat (48 + Z.to_nat d).

(** The decimal digits of [n > 0], least significant first; [fuel]
    bounds their number. *)
Fixpoint digits_rev (fuel : nat) (n : Z) : list Z :=
  match fuel with
  | O => []
  | S f => if n <? 10 then [n] else (n mod 10) :: digits_rev f (n / 10)
  end.

Definition digits (n : Z) : list Z :=
  rev (digits_rev (Pos.size_nat (Z.to_pos n)) n).

Definition show_digits (n : Z) : list ascii := map digit_char (digits n).

(** ** The exact decimal form [s * 10^e] *)

(** The power of 2 in a positive number. *)
Fixpoint twos (p : positive) : nat * positive :=
  match p with
  | xO p' => let '(a, r) := twos p' in (S a, r)
  | _ => (O, p)
  end.

(** The power of 5, with [fuel] bounding the exponent. *)
Fixpoint fives (fuel : nat) (p : positive) : nat * positive :=
  match fuel with
  | O => (O, p)
  | S f =>
      if Zpos p mod 5 =? 0 then let '(b, r) := fives f (Z.to_pos (Zpos p / 5)) in (S b, r)
      else (O, p)
  end.

(** Trailing zeros of [n * 10^e] moved into the exponent. *)
Fixpoint strip_zeros (fuel : nat) (n e : Z) : Z * Z :=
  match fuel with
  | O => (n, e)
  | S f => if (n =? 0) || negb (n mod 10 =? 0) then (n, e) else strip_zeros f (n / 10) (e + 1)
  end.

(** [Some (s, e)] with [q = s * 10^e] and [s] not a multiple of 10, when
    the denominator of [q] has no prime factor but 2 and 5. *)
Definition decimal_repr (q : Qc) : option (Z * Z) :=
  let '(a, r) := twos (Qden q) in
  let '(b, r') := fives (Pos.size_nat r) r in
  if Pos.eqb r' 1 then
    let m := Nat.max a b in
    let N := Qnum q * 2 ^ Z.of_nat (m - a) * 5 ^ Z.of_nat (m - b) in
    if N =? 0 then Some (0, 0)
    else Some (strip_zeros (Pos.size_nat (Z.to_pos (Z.abs N))) N (- Z.of_nat m))
  else None.

(** The 17-significant-digit decimal nearest a positive rational: the
    stand-in for the engine's shortest round-trip digits when [q] is not
    a finite decimal.  [n] is the position of the leading digit. *)
Definition lead_position (q : Q) : Z :=
  let a := Qnum q in
  let b := Zpos (Qden q) in
  if b <=? a then Z.of_nat (length (digits (a / b)))
  else 1 - Z.of_nat (length (digits ((b + a - 1) / a - 1))).

Definition round17 (q : Q) : Z * Z :=
  let n := lead_position q in
  let sh := 17 - n in
  let num := if 0 <=? sh then Qnum q * 10 ^ sh else Qnum q in
  let den := if 0 <=? sh then Zpos (Qden q) else Zpos (Qden q) * 10 ^ (- sh) in
  let s := (2 * num + den) / (2 * den) in
  strip_zeros (Pos.size_nat (Z.to_pos s)) s (- sh).

(** ** [Number::toString] *)

Definition zeros (n : Z) : list ascii := repeat "0"%char (Z.to_nat n).

(** Steps 6-10 of [Number::toString] for the digits [ds] of [s] and the
    position [n] of the decimal point. *)
Definition format (ds : list ascii) (n : Z) : list ascii :=
  let k := Z.of_nat (length ds) in
  if (k <=? n) && (n <=? 21) then ds ++ zeros (n - k)
  else if (0 <? n) && (n <=? 21) then take (Z.to_nat n) ds ++ "."%char :: drop (Z.to_nat n) ds
  else if (-6 <? n) && (n <=? 0) then "0"%char :: "."%char :: zeros (- n) ++ ds
  else
    let e := n - 1 in
    let mant := match ds with
                | [d] => [d]
                | d :: rest => d :: "."%char :: rest
                | [] => []
                end in
    mant ++ "e"%char :: (if 0 <=? e then "+"%char else "-"%char) :: show_digits (Z.abs e).

(** [s * 10^e] with [s <> 0]. *)
Definition format_dec (s e : Z) : list ascii :=
  let ds := show_digits (Z.abs s) in
  (if s <? 0 then ["-"%char] else []) ++ format ds (e + Z.of_nat (length ds)).

Definition qc_to_string (q : Qc) : list ascii :=
  match decimal_repr q with
  | Some (s, e) => if s =? 0 then ["0"%char] else format_dec s e
  | None =>
      let '(s, e) := round17 (Qabs q) in
      format_dec (if Qlt_le_dec q 0 then - s else s) e
  end.

Definition number_to_string (x : JsNum) : string :=
  match x with
  | JNaN => "NaN"
  | JInf true => "-Infinity"
  | JInf false => "Infinity"
  | JNum q => String.string_of_list_ascii (qc_to_string q)
  end.

(** ** The value of a decimal form *)

Lemma Q2Qc_Qeq (a b : Q) : (a == b)%Q -> Q2Qc a = Q2Qc b.
Proof. apply Q2Qc_eq_iff. Qed.

Lemma Q2Qc_this (q : Qc) : Q2Qc q = q.
Proof. apply Qc_is_canon. apply Qred_correct. Qed.

Lemma ten_nonzero : ~ (inject_Z 10 == 0)%Q.
Proof. discriminate. Qed.

(** [dec_to_Qc m e] is [m * 10^e]. *)
Lemma dec_to_Qc_pow m e : dec_to_Qc m e = Q2Qc (inject_Z m * inject_Z 10 ^ e)%Q.
Proof.
  unfold dec_to_Qc. apply Q2Qc_Qeq. destruct (Z.leb_spec 0 e).
  - by rewrite inject_Z_mult, Zpower_Qpower.
  - rewrite Qmake_Qdiv, Z2Pos.id by (apply Z.pow_pos_nonneg; lia).
    rewrite Zpower_Qpower by lia. unfold Qdiv. rewrite <- Qpower_opp.
    by rewrite Z.opp_involutive.
Qed.

Lemma dec_to_Qc_shift m e j :
  0 <= j -> dec_to_Qc (m * 10 ^ j) e = dec_to_Qc m (e + j).
Proof.
  intros Hj. rewrite !dec_to_Qc_pow. apply Q2Qc_Qeq.
  rewrite inject_Z_mult, Zpower_Qpower by done.
  rewrite (Qpower_plus _ e j) by apply ten_nonzero. ring.
Qed.

Lemma dec_to_Qc_zero e : dec_to_Qc 0 e = 0%Qc.
Proof. rewrite dec_to_Qc_pow. apply Q2Qc_Qeq. simpl. ring. Qed.

Lemma dec_to_Qc_opp m e : dec_to_Qc (- m) e = (- dec_to_Qc m e)%Qc.
Proof.
  rewrite !dec_to_Qc_pow. unfold Qcopp. apply Q2Qc_Qeq.
  cbn [this Q2Qc]. rewrite Qred_correct, inject_Z_opp. ring.
Qed.

Lemma strip_zeros_value f n e :
  let '(n', e') := strip_zeros f n e in dec_to_Qc n' e' = dec_to_Qc n e.
Proof.
  revert n e. induction f as [|f IH]; intros n e; simpl; [done|].
  destruct (Z.eqb_spec n 0), (Z.eqb_spec (n mod 10) 0); simpl; try done.
  specialize (IH (n / 10) (e + 1)). destruct (strip_zeros f _ _). rewrite IH.
  rewrite <- (dec_to_Qc_shift (n / 10) e 1) by lia. f_equal.
  rewrite Z.pow_1_r. pose proof (Z.div_mod n 10). lia.
Qed.

Lemma twos_spec p a r : twos p = (a, r) -> Zpos p = 2 ^ Z.of_nat a * Zpos r.
Proof.
  revert a r. induction p as [p _|p IH|]; simpl; intros a r E; try (injection E as <- <-; lia).
  destruct (twos p) as [a' r']. injection E as <- <-.
  rewrite Pos2Z.inj_xO, (IH a' r' eq_refl), Nat2Z.inj_succ, Z.pow_succ_r by lia. lia.
Qed.

Lemma fives_spec f p b r : fives f p = (b, r) -> Zpos p = 5 ^ Z.of_nat b * Zpos r.
Proof.
  revert p b r. induction f as [|f IH]; simpl; intros p b r E; [simplify_eq; lia|].
  destruct (Z.eqb_spec (Zpos p mod 5) 0) as [Hm|]; [|simplify_eq; lia].
  destruct (fives f _) as [b' r'] eqn:Ef. simplify_eq.
  assert (Hq : 0 < Zpos p / 5).
  { pose proof (Z.div_mod (Zpos p) 5). assert (Zpos p / 5 <> 0) by lia.
    pose proof (Z.div_pos (Zpos p) 5). lia. }
  apply IH in Ef. rewrite Z2Pos.id in Ef by lia.
  rewrite Nat2Z.inj_succ, Z.pow_succ_r by lia. pose proof (Z.div_mod (Zpos p) 5). lia.
Qed.

(** [decimal_repr] is exact. *)
Lemma decimal_repr_spec q s e : decimal_repr q = Some (s, e) -> dec_to_Qc s e = q.
Proof.
  unfold decimal_repr. destruct (twos (Qden q)) as [a r] eqn:Ha.
  destruct (fives (Pos.size_nat r) r) as [b r'] eqn:Hb.
  destruct (Pos.eqb_spec r' 1) as [->|]; [|discriminate].
  apply twos_spec in Ha. apply fives_spec in Hb.
  set (m := Nat.max a b).
  set (N := Qnum q * 2 ^ Z.of_nat (m - a) * 5 ^ Z.of_nat (m - b)).
  assert (HZ : N * Zpos (Qden q) = Qnum q * 10 ^ Z.of_nat m).
  { rewrite Ha, Hb. subst N.
    assert (10 ^ Z.of_nat m = 2 ^ Z.of_nat (m - a) * 2 ^ Z.of_nat a * (5 ^ Z.of_nat (m - b) * 5 ^ Z.of_nat b))
      as ->; [|lia].
    rewrite <- !Z.pow_add_r by lia. rewrite <- !Nat2Z.inj_add.
    rewrite !Nat.sub_add by lia. by rewrite <- Z.pow_mul_l. }
  assert (HN : dec_to_Qc N (- Z.of_nat m) = q).
  { rewrite <- (Q2Qc_this q). unfold dec_to_Qc. apply Q2Qc_Qeq.
    pose proof (Z.pow_pos_nonneg 10 (Z.of_nat m)).
    destruct (Z.leb_spec 0 (- Z.of_nat m)); unfold Qeq; simpl.
    - assert (m = O) as Hm0 by lia. rewrite Hm0 in HZ |- *. simpl in *. lia.
    - rewrite Z.opp_involutive, Z2Pos.id by lia. lia. }
  destruct (Z.eqb_spec N 0) as [HN0|]; intros E; simplify_eq.
  - rewrite dec_to_Qc_zero, <- HN, HN0, dec_to_Qc_zero. done.
  - pose proof (strip_zeros_value (Pos.size_nat (Z.to_pos (Z.abs N))) N (- Z.of_nat m)) as Hs.
    rewrite E in Hs. by rewrite Hs.
Qed.

(** ** Digits *)

Definition digit_range (d : Z) : Prop := 0 <= d <= 9.

Lemma digits_fold_acc l acc :
  fold_left (fun acc d => 10 * acc + d) l acc
  = acc * 10 ^ Z.of_nat (length l) + fold_left (fun acc d => 10 * acc + d) l 0.
Proof.
  revert acc. induction l as [|d l IH]; intros acc; simpl; [lia|].
  rewrite IH, (IH (10 * 0 + d)), Nat2Z.inj_succ, Z.pow_succ_r by lia. lia.
Qed.

Lemma digits_value_app l1 l2 :
  digits_value (l1 ++ l2) = digits_value l1 * 10 ^ Z.of_nat (length l2) + digits_value l2.
Proof. unfold digits_value. by rewrite fold_left_app, digits_fold_acc. Qed.

Lemma pos_lt_pow2 p : Zpos p < 2 ^ Z.of_nat (Pos.size_nat p).
Proof.
  induction p as [p IH|p IH|]; cbn [Pos.size_nat]; [| |reflexivity];
    rewrite Nat2Z.inj_succ, Z.pow_succ_r by lia.
  - rewrite Pos2Z.inj_xI. lia.
  - rewrite Pos2Z.inj_xO. lia.
Qed.

Lemma digits_rev_spec f n :
  0 <= n < 10 ^ Z.of_nat f ->
  Forall digit_range (digits_rev f n) /\ digits_value (rev (digits_rev f n)) = n /\
  (0 < n -> exists ds d, rev (digits_rev f n) = d :: ds /\ d <> 0).
Proof.
  revert n. induction f as [|f IH]; intros n Hn; cbn [digits_rev].
  - simpl in Hn. assert (n = 0) as -> by lia. split; [done|]. split; [done|lia].
  - destruct (Z.ltb_spec n 10).
    + split; [repeat constructor; unfold digit_range; lia|]. split; [done|].
      intros. exists [], n. split; [done|lia].
    + rewrite Nat2Z.inj_succ, Z.pow_succ_r in Hn by lia.
      destruct (IH (n / 10)) as (Hr & Hv & Hh); [split; [apply Z.div_pos|apply Z.div_lt_upper_bound]; lia|].
      split; [constructor; [unfold digit_range; pose proof (Z.mod_pos_bound n 10); lia|done]|].
      split.
      * cbn [rev]. rewrite digits_value_app, Hv.
        change (digits_value [n mod 10]) with (10 * 0 + n mod 10).
        change (Z.of_nat (length [n mod 10])) with 1. rewrite Z.pow_1_r.
        pose proof (Z.div_mod n 10). lia.
      * intros _. destruct Hh as (ds & d & E & Hd); [apply Z.div_str_pos; lia|].
        simpl. rewrite E. by exists (ds ++ [n mod 10])%list, d.
Qed.

Lemma digits_spec n :
  0 < n ->
  Forall digit_range (digits n) /\ digits_value (digits n) = n /\
  exists ds d, digits n = d :: ds /\ d <> 0.
Proof.
  intros Hn. unfold digits.
  assert (Hb : 0 <= n < 10 ^ Z.of_nat (Pos.size_nat (Z.to_pos n))).
  { pose proof (pos_lt_pow2 (Z.to_pos n)). rewrite Z2Pos.id in * by lia.
    assert (2 ^ Z.of_nat (Pos.size_nat (Z.to_pos n)) <= 10 ^ Z.of_nat (Pos.size_nat (Z.to_pos n)))
      by (apply Z.pow_le_mono_l; lia). lia. }
  destruct (digits_rev_spec _ _ Hb) as (Hr & Hv & Hh).
  split; [by apply Forall_rev|]. split; [done|]. by apply Hh.
Qed.

Lemma digit_digit_char d : digit_range d -> digit (digit_char d) = Some d.
Proof.
  unfold digit_range. intros Hd.
  assert (d = 0 \/ d = 1 \/ d = 2 \/ d = 3 \/ d = 4 \/ d = 5 \/ d = 6 \/ d = 7 \/ d = 8 \/ d = 9)
    as Hd' by lia.
  repeat destruct Hd' as [->|Hd']; subst; reflexivity.
Qed.

Lemma digits_nonneg_spec n :
  0 <= n -> Forall digit_range (digits n) /\ digits_value (digits n) = n /\ digits n <> [].
Proof.
  intros Hn. destruct (Z.eq_dec n 0) as [->|].
  - split; [repeat constructor; unfold digit_range; lia|]. by split.
  - destruct (digits_spec n) as (Hr & Hv & ds & d & E & _); [lia|]. rewrite E in *. by split.
Qed.

(** ** Reading the text back with [parseFloat] *)

#[local] Abbreviation sol := String.string_of_list_ascii.

(** What a digit character is not. *)
Lemma digit_char_facts d :
  digit_range d ->
  JsString.is_ws (digit_char d) = false /\ Ascii.eqb (digit_char d) "-" = false /\
  Ascii.eqb (digit_char d) "+" = false /\ Ascii.eqb (digit_char d) "I" = false /\
  Ascii.eqb (digit_char d) "." = false /\ Ascii.eqb (digit_char d) "e" = false /\
  Ascii.eqb (digit_char d) "E" = false.
Proof.
  unfold digit_range. intros Hd.
  assert (d = 0 \/ d = 1 \/ d = 2 \/ d = 3 \/ d = 4 \/ d = 5 \/ d = 6 \/ d = 7 \/ d = 8 \/ d = 9)
    as Hd' by lia.
  repeat destruct Hd' as [->|Hd']; subst; repeat split; reflexivity.
Qed.

Lemma scan_digits_chars ds rest :
  Forall digit_range ds ->
  match rest with c :: _ => digit c = None | [] => True end ->
  scan_digits (sol (map digit_char ds ++ rest)) = (ds, sol rest).
Proof.
  intros Hds Hr. induction Hds as [|d ds Hd _ IH]; cbn [map app].
  - destruct rest as [|c r]; cbn [sol scan_digits]; [done|]. by rewrite Hr.
  - cbn [sol scan_digits]. rewrite digit_digit_char by done. fold (sol (map digit_char ds ++ rest)).
    by rewrite IH.
Qed.

(** A number written as [ip[.fp]] followed by an exponent part [tail]. *)
Definition exp_tail (e : Z) : list ascii :=
  "e"%char :: (if 0 <=? e then "+"%char else "-"%char) :: show_digits (Z.abs e).

Definition render (ip fp : list Z) (tail : list ascii) : list ascii :=
  map digit_char ip ++ (match fp with [] => [] | _ => "."%char :: map digit_char fp end) ++ tail.

Lemma scan_exponent_tail e : scan_exponent (sol (exp_tail e)) = e.
Proof.
  destruct (digits_nonneg_spec (Z.abs e)) as (Hr & Hv & Hne); [lia|].
  unfold exp_tail, show_digits. cbn [sol scan_exponent].
  destruct (Z.leb_spec 0 e); cbn [Ascii.eqb orb scan_sign Bool.eqb];
    rewrite <- (app_nil_r (map digit_char _)), scan_digits_chars by done;
    destruct (digits (Z.abs e)); try done; lia.
Qed.

Lemma parseFloat_render (sign : bool) ip fp tail E :
  ip <> [] -> Forall digit_range (ip ++ fp) ->
  (tail = [] /\ E = 0 \/ exists e, tail = exp_tail e /\ E = e) ->
  parseFloat (sol ((if sign then ["-"%char] else []) ++ render ip fp tail))
  = let v := JNum (dec_to_Qc (digits_value (ip ++ fp)) (E - Z.of_nat (length fp))) in
    if sign then neg v else v.
Proof.
  intros Hip Hd Ht. apply Forall_app in Hd as [Hdi Hdf].
  destruct ip as [|d ip']; [done|]. pose proof (Forall_inv Hdi) as Hd0.
  assert (Hexp : scan_exponent (sol tail) = E /\ match tail with c :: _ => digit c = None | [] => True end
                 /\ match tail with c :: _ => c <> "."%char | [] => True end).
  { destruct Ht as [[-> ->]|(e & -> & ->)]; [done|]. by rewrite scan_exponent_tail. }
  destruct Hexp as (Hexp & Htd & Htdot).
  destruct (digit_char_facts d Hd0) as (Hws & Hm & Hp & HI & _).
  set (R := sol (map digit_char (d :: ip') ++
            (match fp with [] => [] | _ => "."%char :: map digit_char fp end) ++ tail)).
  assert (HR : R = String (digit_char d) (sol (map digit_char ip' ++
            (match fp with [] => [] | _ => "."%char :: map digit_char fp end) ++ tail))) by done.
  assert (H1 : String.prefix "Infinity" R = false).
  { rewrite HR. cbn [String.prefix]. destruct (Ascii.ascii_dec "I" (digit_char d)) as [EI|]; [|done].
    rewrite <- EI in HI. discriminate. }
  assert (H2 : scan_digits R = (d :: ip', sol ((match fp with [] => [] | _ => "."%char :: map digit_char fp end) ++ tail))).
  { apply scan_digits_chars; [done|]. destruct fp; [|done]. exact Htd. }
  assert (H3 : match sol ((match fp with [] => [] | _ => "."%char :: map digit_char fp end) ++ tail) with
               | "" => ([], sol ((match fp with [] => [] | _ => "."%char :: map digit_char fp end) ++ tail))
               | String c r1' => if (c =? ".")%char then scan_digits r1'
                                 else ([], sol ((match fp with [] => [] | _ => "."%char :: map digit_char fp end) ++ tail))
               end = (fp, sol tail)).
  { destruct fp as [|f fp'].
    - destruct tail as [|c t]; [done|]. cbn [app sol]. destruct (Ascii.eqb_spec c "."); [done|done].
    - cbn [app sol]. rewrite scan_digits_chars by done. done. }
  unfold parseFloat, render. destruct sign; cbn [app].
  - change (sol ("-"%char :: ?x)) with (String "-" (sol x)). fold R.
    cbn [JsString.trim_start]. change (JsString.is_ws "-") with false. cbn iota. cbn [scan_sign].
    change ((Ascii.eqb "-" "-")) with true. cbn iota.
    rewrite H1, H2. cbn iota zeta. rewrite H3. by rewrite Hexp.
  - fold R. rewrite HR. cbn [JsString.trim_start]. rewrite Hws. rewrite <- HR.
    assert (scan_sign R = (false, R)) as -> by (rewrite HR; cbn [scan_sign]; by rewrite Hm, Hp).
    rewrite H1, H2. cbn iota zeta. rewrite H3. by rewrite Hexp.
Qed.

Lemma digits_value_zeros j : digits_value (repeat 0 j) = 0.
Proof.
  unfold digits_value. induction j as [|j IH]; [done|]. cbn [repeat fold_left].
  change (10 * 0 + 0) with 0. exact IH.
Qed.

Lemma zeros_chars j : zeros j = map digit_char (repeat 0 (Z.to_nat j)).
Proof. unfold zeros. by rewrite map_repeat. Qed.

Lemma zero_digit_range j : Forall digit_range (repeat 0 j).
Proof. apply Forall_forall. intros x Hx. apply list_elem_of_In, repeat_spec in Hx. red. lia. Qed.

(** An integer part without a leading zero, as JSON's grammar has it. *)
Definition lead_ok (ip : list Z) : Prop := ip = [0] \/ exists d ip', ip = d :: ip' /\ d <> 0.

(** Every branch of [format] is a [render] shape with the same value. *)
Lemma format_render s n :
  0 < s ->
  exists ip fp tail E,
    format (show_digits s) n = render ip fp tail /\ ip <> [] /\ lead_ok ip /\ Forall digit_range (ip ++ fp) /\
    (tail = [] /\ E = 0 \/ exists e, tail = exp_tail e /\ E = e) /\
    dec_to_Qc (digits_value (ip ++ fp)) (E - Z.of_nat (length fp))
    = dec_to_Qc s (n - Z.of_nat (length (digits s))).
Proof.
  intros Hs. destruct (digits_spec s Hs) as (Hr & Hv & ds0 & d0 & Hds & Hd0).
  set (ds := digits s) in *. set (k := Z.of_nat (length ds)).
  assert (Hk : 1 <= k) by (subst k; rewrite Hds; simpl; lia).
  unfold format, show_digits. rewrite length_map. fold ds k.
  destruct ((k <=? n) && (n <=? 21)) eqn:EA; [|destruct ((0 <? n) && (n <=? 21)) eqn:EB;
    [|destruct ((-6 <? n) && (n <=? 0)) eqn:EC]].
  - apply andb_true_iff in EA as [EA _]. apply Z.leb_le in EA.
    exists (ds ++ repeat 0 (Z.to_nat (n - k))), [], [], 0. split_and!.
    + unfold render. by rewrite zeros_chars, map_app, !app_nil_r.
    + by destruct ds.
    + right. rewrite Hds. by eexists _, _.
    + rewrite app_nil_r. apply Forall_app. split; [done|apply zero_digit_range].
    + by left.
    + rewrite app_nil_r, digits_value_app, digits_value_zeros, repeat_length, Z2Nat.id by lia.
      rewrite Z.add_0_r, dec_to_Qc_shift by lia. f_equal. simpl. lia.
  - apply andb_true_iff in EB as [EB EB']. apply Z.ltb_lt in EB. apply Z.leb_le in EB'.
    assert (n < k) by (apply andb_false_iff in EA as [EA|EA]; apply Z.leb_gt in EA; lia).
    assert (Hd : drop (Z.to_nat n) ds <> []).
    { intros E. apply (f_equal length) in E. rewrite length_drop in E. simpl in E. lia. }
    exists (take (Z.to_nat n) ds), (drop (Z.to_nat n) ds), [], 0. split_and!.
    + unfold render. rewrite <- firstn_map, <- skipn_map, app_nil_r.
      by destruct (drop (Z.to_nat n) ds).
    + intros E. apply (f_equal length) in E. rewrite length_take in E. simpl in E. lia.
    + right. rewrite Hds. destruct (Z.to_nat n) as [|j] eqn:Ej; [lia|]. by eexists _, _.
    + by rewrite take_drop.
    + by left.
    + rewrite take_drop, Hv, length_drop. f_equal. lia.
  - apply andb_true_iff in EC as [EC EC']. apply Z.ltb_lt in EC. apply Z.leb_le in EC'.
    exists [0], (repeat 0 (Z.to_nat (- n)) ++ ds), [], 0. split_and!.
    + unfold render. rewrite zeros_chars. cbn [map app].
      destruct (repeat 0 (Z.to_nat (- n)) ++ ds) as [|f fp'] eqn:E.
      * rewrite Hds in E. destruct (repeat _ _); discriminate.
      * by rewrite <- E, map_app, app_nil_r.
    + done.
    + by left.
    + cbn [app]. apply Forall_cons. split; [red; lia|].
      apply Forall_app. split; [apply zero_digit_range|done].
    + by left.
    + rewrite (digits_value_app [0]), digits_value_app, digits_value_zeros, Hv, !length_app,
        repeat_length. change (digits_value [0]) with 0. subst k.
      rewrite Nat2Z.inj_add, Z2Nat.id by lia. f_equal; lia.
  - rewrite Hds in *. cbn [map].
    exists [d0], ds0, (exp_tail (n - 1)), (n - 1). split_and!.
    + unfold render, exp_tail. by destruct ds0.
    + done.
    + right. by eexists _, [].
    + done.
    + right. by eexists.
    + cbn [app]. rewrite Hv. f_equal. subst k. rewrite Hds. simpl. lia.
Qed.

(** The text of a finite decimal is an optional [-] and a [render] shape:
    the integer part without leading zero, then the fraction and the
    exponent part. *)
Lemma qc_to_string_shape q s e :
  decimal_repr q = Some (s, e) ->
  exists (sign : bool) ip fp tail,
    qc_to_string q = (if sign then ["-"%char] else []) ++ render ip fp tail /\ ip <> [] /\
    lead_ok ip /\ Forall digit_range (ip ++ fp) /\ (tail = [] \/ exists x, tail = exp_tail x).
Proof.
  intros Hq. unfold qc_to_string. rewrite Hq. destruct (Z.eqb_spec s 0).
  - exists false, [0], [], []. split_and!; [done|done|by left| |by left].
    cbn. constructor; [red; lia|constructor].
  - unfold format_dec.
    destruct (format_render (Z.abs s) (e + Z.of_nat (length (show_digits (Z.abs s)))))
      as (ip & fp & tail & E & Hf & Hip & Hl & Hr & Ht & _); [lia|].
    exists (s <? 0), ip, fp, tail. rewrite Hf. split_and!; try done.
    destruct Ht as [[-> _]|(x & -> & _)]; [by left|right; by eexists].
Qed.

Lemma parseFloat_qc_to_string q s e :
  decimal_repr q = Some (s, e) ->
  parseFloat (sol (qc_to_string q)) = JNum q.
Proof.
  intros Hq. pose proof (decimal_repr_spec q s e Hq) as Hv. unfold qc_to_string. rewrite Hq.
  destruct (Z.eqb_spec s 0) as [->|Hs0].
  - rewrite <- Hv, dec_to_Qc_zero. reflexivity.
  - unfold format_dec. rewrite <- Hv.
    destruct (format_render (Z.abs s) (e + Z.of_nat (length (show_digits (Z.abs s)))))
      as (ip & fp & tail & E & Hf & Hip & _ & Hr & Ht & HE); [lia|].
    rewrite Hf. destruct (Z.ltb_spec s 0).
    + rewrite (parseFloat_render true ip fp tail E) by done. cbn zeta. rewrite HE.
      unfold show_digits. rewrite length_map.
      replace (e + Z.of_nat (length (digits (Z.abs s))) - Z.of_nat (length (digits (Z.abs s)))) with e by lia.
      unfold neg. f_equal. replace s with (- Z.abs s) at 2 by lia. by rewrite dec_to_Qc_opp.
    + rewrite (parseFloat_render false ip fp tail E) by done. cbn zeta. rewrite HE.
      unfold show_digits. rewrite length_map. f_equal. rewrite Z.abs_eq by lia. f_equal. lia.
Qed.

(** [parseFloat] reads back exactly the number whose text
    [Number::toString] wrote, for every finite decimal: positional and
    exponent notation, negative numbers and zero. *)
Theorem parseFloat_number_to_string q s e :
  decimal_repr q = Some (s, e) -> parseFloat (number_to_string (JNum q)) = JNum q.
Proof. apply parseFloat_qc_to_string. Qed.

Example parseFloat_number_to_string_witness :
  parseFloat (number_to_string (JNum (dec_to_Qc 25 (-8)))) = JNum (dec_to_Qc 25 (-8)).
Proof. apply (parseFloat_number_to_string _ 25 (-8)). vm_compute. reflexivity. Defined.

End NumberFormat.
