(* ===== verification/FormData.v ===== *)
(** * The answer set and [handleChange]

    [App.tsx] keeps the answers in one React state of type [FormData]
    (lines 11-32), starts from the empty record of lines 42-63, and every
    editor writes through [handleChange(field, value)] (lines 65-76),
    which replaces one property: [{ ...prev, [field]: value }].

    [handleChange] takes the field name as a string and the value as
    [any]; every call site of the editors passes a literal field name with
    a value of that field's type, so the pair is modelled by
    [FieldUpdate], one constructor per field.  [monthly_costs], a
    [Record<string, number>], is a [gmap string JsNum]. *)

From Stdlib Require Import QArith Qcanon.
From stdpp Require Import gmap strings.
From S2P Require Import Prelude JsString JsNumber.

Open Scope string_scope.

Module FormData.
Import JsNumber.

Record FormData : Type := mkFormData {
  has_decided : bool;
  habits_to_cut : string;
  new_version_description : string;
  motivation_fuel : string;
  fuel_description : string;
  daily_fuel_reminder : string;
  dream_day : string;
  dream_week : string;
  ideal_living : string;
  monthly_costs : gmap string JsNum;
  current_expenses : JsNum;
  dream_expenses : JsNum;
  daily_focus : list string;
  things_to_cut : list string;
  environment_changes : string;
  progress_tracking_method : string;
  daily_wins : list string;
  daily_planning_routine : string;
  action_commitment : string;
  additional_thoughts : string
}.

(** [useState<FormData>({...})] *)
Definition initial_form_data : FormData := {|
  has_decided := false;
  habits_to_cut := "";
  new_version_description := "";
  motivation_fuel := "";
  fuel_description := "";
  daily_fuel_reminder := "";
  dream_day := "";
  dream_week := "";
  ideal_living := "";
  monthly_costs := ∅;
  current_expenses := zero;
  dream_expenses := zero;
  daily_focus := [];
  things_to_cut := [];
  environment_changes := "";
  progress_tracking_method := "";
  daily_wins := [];
  daily_planning_routine := "";
  action_commitment := "";
  additional_thoughts := ""
|}.

(** The [(field, value)] pairs the editors pass to [onChange]. *)
Inductive FieldUpdate : Type :=
| Set_has_decided (v : bool)
| Set_habits_to_cut (v : string)
| Set_new_version_description (v : string)
| Set_motivation_fuel (v : string)
| Set_fuel_description (v : string)
| Set_daily_fuel_reminder (v : string)
| Set_dream_day (v : string)
| Set_dream_week (v : string)
| Set_ideal_living (v : string)
| Set_monthly_costs (v : gmap string JsNum)
| Set_current_expenses (v : JsNum)
| Set_dream_expenses (v : JsNum)
| Set_daily_focus (v : list string)
| Set_things_to_cut (v : list string)
| Set_environment_changes (v : string)
| Set_progress_tracking_method (v : string)
| Set_daily_wins (v : list string)
| Set_daily_planning_routine (v : string)
| Set_action_commitment (v : string)
| Set_additional_thoughts (v : string).

(** The string the call site passes as [field]. *)
Definition field_name (u : FieldUpdate) : string :=
  match u with
  | Set_has_decided _ => "has_decided"
  | Set_habits_to_cut _ => "habits_to_cut"
  | Set_new_version_description _ => "new_version_description"
  | Set_motivation_fuel _ => "motivation_fuel"
  | Set_fuel_description _ => "fuel_description"
  | Set_daily_fuel_reminder _ => "daily_fuel_reminder"
  | Set_dream_day _ => "dream_day"
  | Set_dream_week _ => "dream_week"
  | Set_ideal_living _ => "ideal_living"
  | Set_monthly_costs _ => "monthly_costs"
  | Set_current_expenses _ => "current_expenses"
  | Set_dream_expenses _ => "dream_expenses"
  | Set_daily_focus _ => "daily_focus"
  | Set_things_to_cut _ => "things_to_cut"
  | Set_environment_changes _ => "environment_changes"
  | Set_progress_tracking_method _ => "progress_tracking_method"
  | Set_daily_wins _ => "daily_wins"
  | Set_daily_planning_routine _ => "daily_planning_routine"
  | Set_action_commitment _ => "action_commitment"
  | Set_additional_thoughts _ => "additional_thoughts"
  end.

(** [{ ...prev, [field]: value }]: every property copied, one replaced. *)
Definition set_field (u : FieldUpdate) (prev : FormData) : FormData := {|
  has_decided := match u with Set_has_decided v => v | _ => prev.(has_decided) end;
  habits_to_cut := match u with Set_habits_to_cut v => v | _ => prev.(habits_to_cut) end;
  new_version_description :=
    match u with Set_new_version_description v => v | _ => prev.(new_version_description) end;
  motivation_fuel := match u with Set_motivation_fuel v => v | _ => prev.(motivation_fuel) end;
  fuel_description := match u with Set_fuel_description v => v | _ => prev.(fuel_description) end;
  daily_fuel_reminder :=
    match u with Set_daily_fuel_reminder v => v | _ => prev.(daily_fuel_reminder) end;
  dream_day := match u with Set_dream_day v => v | _ => prev.(dream_day) end;
  dream_week := match u with Set_dream_week v => v | _ => prev.(dream_week) end;
  ideal_living := match u with Set_ideal_living v => v | _ => prev.(ideal_living) end;
  monthly_costs := match u with Set_monthly_costs v => v | _ => prev.(monthly_costs) end;
  current_expenses := match u with Set_current_expenses v => v | _ => prev.(current_expenses) end;
  dream_expenses := match u with Set_dream_expenses v => v | _ => prev.(dream_expenses) end;
  daily_focus := match u with Set_daily_focus v => v | _ => prev.(daily_focus) end;
  things_to_cut := match u with Set_things_to_cut v => v | _ => prev.(things_to_cut) end;
  environment_changes :=
    match u with Set_environment_changes v => v | _ => prev.(environment_changes) end;
  progress_tracking_method :=
    match u with Set_progress_tracking_method v => v | _ => prev.(progress_tracking_method) end;
  daily_wins := match u with Set_daily_wins v => v | _ => prev.(daily_wins) end;
  daily_planning_routine :=
    match u with Set_daily_planning_routine v => v | _ => prev.(daily_planning_routine) end;
  action_commitment := match u with Set_action_commitment v => v | _ => prev.(action_commitment) end;
  additional_thoughts :=
    match u with Set_additional_thoughts v => v | _ => prev.(additional_thoughts) end
|}.

(** The financial gap as [App.tsx] computes it (lines 70 and 121) and
    [FormStep3.tsx] displays it (line 50):
    [(dream_expenses || 0) - (current_expenses || 0)]. *)
Definition financial_gap (fd : FormData) : JsNum :=
  sub (or_zero fd.(dream_expenses)) (or_zero fd.(current_expenses)).

(** [handleChange]: the functional updater of lines 66-75.  For the two
    expense fields it computes the gap of the updated record and then
    returns a copy of the record without it. *)
Definition handleChange (u : FieldUpdate) (prev : FormData) : FormData :=
  let updated := set_field u prev in
  if String.eqb (field_name u) "dream_expenses"
     || String.eqb (field_name u) "current_expenses"
  then let _gap := financial_gap updated in updated
  else updated.

(** Sequential [onChange] calls: each functional updater sees the state
    left by the previous one. *)
Definition apply_updates (us : list FieldUpdate) (fd : FormData) : FormData :=
  foldl (fun acc u => handleChange u acc) fd us.

(** ** Lemmas *)

Lemma handleChange_set u fd : handleChange u fd = set_field u fd.
Proof. unfold handleChange. by destruct (_ || _). Qed.

Lemma apply_updates_app us1 us2 fd :
  apply_updates (us1 ++ us2) fd = apply_updates us2 (apply_updates us1 fd).
Proof. unfold apply_updates. by rewrite foldl_app. Qed.

#[export] Hint Rewrite handleChange_set : dlp_rw.

End FormData.
