(* ===== verification/CostEditor.v ===== *)
(** * The cost editor of step 3 ([FormStep3.tsx])

    [FormStep3] keeps two local strings, the draft item name and amount
    ([newCostItem], [newCostAmount], lines 17-18), and offers three
    operations that write the answer set through [onChange]:
    [addCostItem] (lines 20-34), [removeCostItem] (lines 36-43) and
    [handleCurrentExpensesChange] (lines 45-48).  The first two write
    [monthly_costs] and then [dream_expenses], the total
    [Object.values(updatedCosts).reduce((sum, val) => sum + val, 0)].

    JavaScript enumerates an object's values in its own property order
    (integer-like keys ascending, then insertion order); the model
    enumerates the values of the [gmap] in the map's order.  With the
    model's exact addition every order gives the same total; with the
    engine's rounded addition the order can
    change the last bits of the total, which the model does not
    represent, so no theorem here compares totals computed from different
    objects.  The invariant [costs_consistent] says that [dream_expenses]
    is the total of [monthly_costs], the value [reduce] gives on that very
    object; every operation of the editor preserves it. *)

From Stdlib Require Import QArith Qcanon.
From stdpp Require Import gmap strings.
From S2P Require Import Prelude JsString JsNumber FormData.

Open Scope string_scope.

Module CostEditor.
Import JsNumber FormData.

(** The component's own [useState] strings. *)
Record Step3Local : Type := mkStep3Local {
  newCostItem : string;
  newCostAmount : string
}.

Definition step3_initial : Step3Local := mkStep3Local "" "".

(** [arr.reduce((sum, val) => sum + val, 0)] *)
Definition reduce_sum (l : list JsNum) : JsNum := foldl add zero l.

(** [Object.values(costs)] *)
Definition object_values (m : gmap string JsNum) : list JsNum := snd <$> map_to_list m.

Definition total_costs (m : gmap string JsNum) : JsNum := reduce_sum (object_values m).

(** [addCostItem]: lines 20-34.  Nothing happens unless both drafts are
    non-empty; then the item is set (a repeated name replaces the old
    amount, as the spread [{...costs, [item]: amount}] does), the total is
    recomputed and both drafts are cleared. *)
Definition addCostItem (loc : Step3Local) (fd : FormData) : FormData * Step3Local :=
  if JsString.truthy loc.(newCostItem) && JsString.truthy loc.(newCostAmount) then
    let updatedCosts := <[loc.(newCostItem) := parseFloat loc.(newCostAmount)]> fd.(monthly_costs) in
    let fd1 := handleChange (Set_monthly_costs updatedCosts) fd in
    let total := total_costs updatedCosts in
    let fd2 := handleChange (Set_dream_expenses total) fd1 in
    (fd2, mkStep3Local "" "")
  else (fd, loc).

(** [removeCostItem(key)]: lines 36-43. *)
Definition removeCostItem (key : string) (fd : FormData) : FormData :=
  let updatedCosts := delete key fd.(monthly_costs) in
  let fd1 := handleChange (Set_monthly_costs updatedCosts) fd in
  let total := total_costs updatedCosts in
  handleChange (Set_dream_expenses total) fd1.

(** [handleCurrentExpensesChange(value)]: lines 45-48,
    [parseFloat(value) || 0]. *)
Definition handleCurrentExpensesChange (value : string) (fd : FormData) : FormData :=
  handleChange (Set_current_expenses (or_zero (parseFloat value))) fd.

(** What the component shows (lines 167-172 and 192-207): the total box
    when [dream_expenses > 0], the gap box when both totals are positive,
    with the first message when the gap is positive. *)
Definition shows_total (fd : FormData) : bool := gt_zero fd.(dream_expenses).

Definition shows_gap (fd : FormData) : bool :=
  gt_zero fd.(current_expenses) && gt_zero fd.(dream_expenses).

Definition gap_message (fd : FormData) : string :=
  if gt_zero (financial_gap fd) then "This is how much more you need to earn monthly"
  else "Your current expenses already cover your dream lifestyle!".

(** The events of the step-3 editor: the three textareas (lines 74,
    92, 110), the two draft inputs (lines 147, 154), the Add button
    (line 159), the trash button of an item (line 133) and the
    current-expenses input (line 186). *)
Inductive Step3Event : Type :=
| S3_dream_day (v : string)
| S3_dream_week (v : string)
| S3_ideal_living (v : string)
| S3_newCostItem (v : string)
| S3_newCostAmount (v : string)
| S3_addCostItem
| S3_removeCostItem (key : string)
| S3_current_expenses (v : string).

Definition step3_handle (ev : Step3Event) (st : FormData * Step3Local) : FormData * Step3Local :=
  let '(fd, loc) := st in
  match ev with
  | S3_dream_day v => (handleChange (Set_dream_day v) fd, loc)
  | S3_dream_week v => (handleChange (Set_dream_week v) fd, loc)
  | S3_ideal_living v => (handleChange (Set_ideal_living v) fd, loc)
  | S3_newCostItem v => (fd, mkStep3Local v loc.(newCostAmount))
  | S3_newCostAmount v => (fd, mkStep3Local loc.(newCostItem) v)
  | S3_addCostItem => addCostItem loc fd
  | S3_removeCostItem key => (removeCostItem key fd, loc)
  | S3_current_expenses v => (handleCurrentExpensesChange v fd, loc)
  end.

(** The editor's invariant. *)
Definition costs_consistent (fd : FormData) : Prop :=
  fd.(dream_expenses) = total_costs fd.(monthly_costs).

Lemma total_costs_empty : total_costs ∅ = zero.
Proof. unfold total_costs, object_values. by rewrite map_to_list_empty. Qed.

#[export] Hint Rewrite total_costs_empty : dlp_rw.

(** ** The operations *)

(** Adding or removing an item leaves [dream_expenses] equal to the total
    of the new [monthly_costs], whatever the state before. *)
Lemma addCostItem_consistent_or_unchanged loc fd :
  costs_consistent (addCostItem loc fd).1 \/ (addCostItem loc fd).1 = fd.
Proof.
  unfold addCostItem, costs_consistent.
  destruct (_ && _); [left|right]; by rewrite ?handleChange_set.
Qed.

Lemma removeCostItem_consistent key fd : costs_consistent (removeCostItem key fd).
Proof. unfold removeCostItem, costs_consistent. by rewrite !handleChange_set. Qed.

(** Every event of the step-3 editor preserves the invariant. *)
Lemma step3_preserves_consistent ev fd loc :
  costs_consistent fd -> costs_consistent (step3_handle ev (fd, loc)).1.
Proof.
  intros H. destruct ev; simpl; rewrite ?handleChange_set; try exact H.
  - destruct (addCostItem_consistent_or_unchanged loc fd) as [?| ->]; done.
  - apply removeCostItem_consistent.
Qed.

Lemma initial_consistent : costs_consistent initial_form_data.
Proof. unfold costs_consistent. simpl. by rewrite total_costs_empty. Qed.

#[export] Hint Resolve step3_preserves_consistent initial_consistent : dlp.

(** C34. Adding a cost item whose name and amount are both non-empty sets
    the item to [parseFloat(amount)], makes [dream_expenses] the total of
    the updated costs, leaves the current expenses alone and clears both
    drafts. *)
Theorem addCostItem_spec loc fd :
  JsString.truthy loc.(newCostItem) && JsString.truthy loc.(newCostAmount) = true ->
  let '(fd', loc') := addCostItem loc fd in
  fd'.(monthly_costs) = <[loc.(newCostItem) := parseFloat loc.(newCostAmount)]> fd.(monthly_costs)
  /\ fd'.(dream_expenses) = total_costs fd'.(monthly_costs)
  /\ fd'.(current_expenses) = fd.(current_expenses)
  /\ loc' = step3_initial.
Proof. intros G. unfold addCostItem. rewrite G, !handleChange_set. done. Qed.

(** With an empty name or an empty amount, the Add button changes
    nothing: neither the answer set nor the drafts. *)
Theorem addCostItem_guard loc fd :
  JsString.truthy loc.(newCostItem) && JsString.truthy loc.(newCostAmount) = false ->
  addCostItem loc fd = (fd, loc).
Proof. intros G. unfold addCostItem. by rewrite G. Qed.

(** Whatever is typed in the current-expenses input, the stored
    value is never NaN: [parseFloat(value) || 0] maps NaN to 0. *)
Theorem current_expenses_never_nan v fd :
  (handleCurrentExpensesChange v fd).(current_expenses) <> JNaN.
Proof.
  unfold handleCurrentExpensesChange. rewrite handleChange_set. simpl.
  unfold or_zero. destruct (parseFloat v) as [q|s|]; simpl; [|done|done].
  by destruct (Qc_eq_dec q 0%Qc).
Qed.

(** ** Witnesses *)

Definition sample_loc : Step3Local := mkStep3Local "Mortgage" "2000".

Example addCostItem_spec_witness :
  JsString.truthy sample_loc.(newCostItem) && JsString.truthy sample_loc.(newCostAmount) = true
  /\ (addCostItem sample_loc initial_form_data).1.(monthly_costs)
     = <["Mortgage" := parseFloat "2000"]> ∅.
Proof.
  split; [reflexivity|].
  pose proof (addCostItem_spec sample_loc initial_form_data eq_refl) as H.
  destruct (addCostItem sample_loc initial_form_data) as [fd' loc'].
  destruct H as [H _]. exact H.
Defined.

Example addCostItem_guard_witness :
  JsString.truthy "" && JsString.truthy "2000" = false
  /\ addCostItem (mkStep3Local "" "2000") initial_form_data
     = (initial_form_data, mkStep3Local "" "2000").
Proof. split; [reflexivity|]. apply addCostItem_guard. reflexivity. Defined.

End CostEditor.
