(* ===== verification/ListEditor.v ===== *)
(** * The list editors of steps 4 and 5 ([FormStep4.tsx], [FormStep5.tsx])

    Three string arrays of the answer set are edited item by item:
    [daily_focus] and [things_to_cut] by [FormStep4] ([addFocusItem],
    [removeFocusItem], [addCutItem], [removeCutItem], lines 17-39) and
    [daily_wins] by [FormStep5] ([addWinItem], [removeWinItem], lines
    174-184).  Each add appends the trimmed draft when it is not blank
    and clears the draft; each remove is [arr.filter((_, i) => i !== index)].
    The invariant [lists_clean]: every item of the three arrays is
    trimmed and non-empty. *)

From stdpp Require Import gmap strings.
From S2P Require Import Prelude JsString JsNumber FormData.

Open Scope string_scope.

Module ListEditor.
Import FormData.

(** [FormStep4]'s [useState] drafts. *)
Record Step4Local : Type := mkStep4Local { newFocusItem : string; newCutItem : string }.
(** [FormStep5]'s [useState] draft. *)
Record Step5Local : Type := mkStep5Local { newWinItem : string }.

Definition step4_initial : Step4Local := mkStep4Local "" "".
Definition step5_initial : Step5Local := mkStep5Local "".

(** [[...(items || []), draft.trim()]] *)
Definition append_trimmed (draft : string) (items : list string) : list string :=
  (items ++ [JsString.trim draft])%list.

(** [addFocusItem]: FormStep4 lines 17-22. *)
Definition addFocusItem (loc : Step4Local) (fd : FormData) : FormData * Step4Local :=
  if JsString.truthy (JsString.trim loc.(newFocusItem)) then
    (handleChange (Set_daily_focus (append_trimmed loc.(newFocusItem) fd.(daily_focus))) fd,
     mkStep4Local "" loc.(newCutItem))
  else (fd, loc).

(** [removeFocusItem(index)]: FormStep4 lines 24-27. *)
Definition removeFocusItem (index : nat) (fd : FormData) : FormData :=
  handleChange (Set_daily_focus (remove_at index fd.(daily_focus))) fd.

(** [addCutItem]: FormStep4 lines 29-34. *)
Definition addCutItem (loc : Step4Local) (fd : FormData) : FormData * Step4Local :=
  if JsString.truthy (JsString.trim loc.(newCutItem)) then
    (handleChange (Set_things_to_cut (append_trimmed loc.(newCutItem) fd.(things_to_cut))) fd,
     mkStep4Local loc.(newFocusItem) "")
  else (fd, loc).

(** [removeCutItem(index)]: FormStep4 lines 36-39. *)
Definition removeCutItem (index : nat) (fd : FormData) : FormData :=
  handleChange (Set_things_to_cut (remove_at index fd.(things_to_cut))) fd.

(** [addWinItem]: FormStep5 lines 18-23. *)
Definition addWinItem (loc : Step5Local) (fd : FormData) : FormData * Step5Local :=
  if JsString.truthy (JsString.trim loc.(newWinItem)) then
    (handleChange (Set_daily_wins (append_trimmed loc.(newWinItem) fd.(daily_wins))) fd,
     mkStep5Local "")
  else (fd, loc).

(** [removeWinItem(index)]: FormStep5 lines 25-28. *)
Definition removeWinItem (index : nat) (fd : FormData) : FormData :=
  handleChange (Set_daily_wins (remove_at index fd.(daily_wins))) fd.

(** The events of step 4: the two drafts (lines 79, 121), Add or Enter
    (lines 80, 85, 122, 127), the remove buttons (lines 66, 108) and the
    environment textarea (line 146). *)
Inductive Step4Event : Type :=
| S4_newFocusItem (v : string)
| S4_addFocusItem
| S4_removeFocusItem (index : nat)
| S4_newCutItem (v : string)
| S4_addCutItem
| S4_removeCutItem (index : nat)
| S4_environment_changes (v : string).

Definition step4_handle (ev : Step4Event) (st : FormData * Step4Local) : FormData * Step4Local :=
  let '(fd, loc) := st in
  match ev with
  | S4_newFocusItem v => (fd, mkStep4Local v loc.(newCutItem))
  | S4_addFocusItem => addFocusItem loc fd
  | S4_removeFocusItem i => (removeFocusItem i fd, loc)
  | S4_newCutItem v => (fd, mkStep4Local loc.(newFocusItem) v)
  | S4_addCutItem => addCutItem loc fd
  | S4_removeCutItem i => (removeCutItem i fd, loc)
  | S4_environment_changes v => (handleChange (Set_environment_changes v) fd, loc)
  end.

(** The events of step 5: the tracking input (line 53), the win draft
    (line 86), Add or Enter (lines 87, 92), the remove buttons (line 73)
    and the three textareas (lines 111, 129, 147). *)
Inductive Step5Event : Type :=
| S5_progress_tracking_method (v : string)
| S5_newWinItem (v : string)
| S5_addWinItem
| S5_removeWinItem (index : nat)
| S5_daily_planning_routine (v : string)
| S5_action_commitment (v : string)
| S5_additional_thoughts (v : string).

Definition step5_handle (ev : Step5Event) (st : FormData * Step5Local) : FormData * Step5Local :=
  let '(fd, loc) := st in
  match ev with
  | S5_progress_tracking_method v => (handleChange (Set_progress_tracking_method v) fd, loc)
  | S5_newWinItem v => (fd, mkStep5Local v)
  | S5_addWinItem => addWinItem loc fd
  | S5_removeWinItem i => (removeWinItem i fd, loc)
  | S5_daily_planning_routine v => (handleChange (Set_daily_planning_routine v) fd, loc)
  | S5_action_commitment v => (handleChange (Set_action_commitment v) fd, loc)
  | S5_additional_thoughts v => (handleChange (Set_additional_thoughts v) fd, loc)
  end.

(** Every item is trimmed and non-empty. *)
Definition clean_items (l : list string) : Prop :=
  Forall (fun s => JsString.trim s = s /\ s <> "") l.

Definition lists_clean (fd : FormData) : Prop :=
  clean_items fd.(daily_focus) /\ clean_items fd.(things_to_cut) /\ clean_items fd.(daily_wins).

(** ** Lemmas shared by the three editors *)

Lemma clean_append draft l :
  clean_items l -> JsString.truthy (JsString.trim draft) = true ->
  clean_items (append_trimmed draft l).
Proof.
  intros Hl Ht. apply Forall_app. split; [done|]. apply Forall_singleton.
  split; [apply JsString.trim_idem|]. by apply JsString.truthy_spec.
Qed.

Lemma clean_remove i l : clean_items l -> clean_items (remove_at i l).
Proof.
  unfold clean_items. rewrite !Forall_forall. intros H x Hx.
  apply H. by eapply remove_at_elem.
Qed.

#[export] Hint Resolve clean_append clean_remove : dlp.

(** Every event of steps 4 and 5 preserves [lists_clean]. *)
Lemma step4_preserves_clean ev fd loc :
  lists_clean fd -> lists_clean (step4_handle ev (fd, loc)).1.
Proof.
  intros (H1 & H2 & H3). destruct ev; simpl;
    unfold addFocusItem, addCutItem, removeFocusItem, removeCutItem;
    case_bools; simpl; rewrite ?handleChange_set; repeat split; simpl; auto with dlp.
Qed.

Lemma step5_preserves_clean ev fd loc :
  lists_clean fd -> lists_clean (step5_handle ev (fd, loc)).1.
Proof.
  intros (H1 & H2 & H3). destruct ev; simpl; unfold addWinItem, removeWinItem;
    case_bools; simpl; rewrite ?handleChange_set; repeat split; simpl; auto with dlp.
Qed.

Lemma initial_clean : lists_clean initial_form_data.
Proof. repeat split; constructor. Qed.

#[export] Hint Resolve step4_preserves_clean step5_preserves_clean initial_clean : dlp.

(** ** The operations *)

Lemma truthy_trim_blank d : JsString.truthy (JsString.trim d) = negb (JsString.blank d).
Proof.
  destruct (JsString.blank d) eqn:B; simpl.
  - by apply JsString.trim_empty_iff in B as ->.
  - destruct (JsString.trim d) eqn:T; [|done].
    apply JsString.trim_empty_iff in T. congruence.
Qed.

(** A draft made only of white space (or empty) adds nothing and is
    kept as typed. *)
Theorem addFocusItem_blank loc fd :
  JsString.blank loc.(newFocusItem) = true -> addFocusItem loc fd = (fd, loc).
Proof. intros B. unfold addFocusItem. by rewrite truthy_trim_blank, B. Qed.

(** A draft with a visible character is appended, trimmed, at the end
    of [daily_focus]; the draft is cleared and the other list is untouched. *)
Theorem addFocusItem_appends loc fd :
  JsString.blank loc.(newFocusItem) = false ->
  let '(fd', loc') := addFocusItem loc fd in
  fd'.(daily_focus) = (fd.(daily_focus) ++ [JsString.trim loc.(newFocusItem)])%list
  /\ length fd'.(daily_focus) = S (length fd.(daily_focus))
  /\ fd'.(things_to_cut) = fd.(things_to_cut)
  /\ loc'.(newFocusItem) = "".
Proof.
  intros B. unfold addFocusItem. rewrite truthy_trim_blank, B. simpl.
  rewrite ?handleChange_set. simpl. unfold append_trimmed. rewrite length_app.
  simpl. repeat split. lia.
Qed.

(** Removing the item at an index inside the list drops exactly that
    item; an index past the end changes nothing. *)
Theorem removeFocusItem_spec i fd :
  ((i < length fd.(daily_focus))%nat ->
   (removeFocusItem i fd).(daily_focus) = (take i fd.(daily_focus) ++ drop (S i) fd.(daily_focus))%list
   /\ length (removeFocusItem i fd).(daily_focus) = pred (length fd.(daily_focus)))
  /\ ((length fd.(daily_focus) <= i)%nat -> (removeFocusItem i fd).(daily_focus) = fd.(daily_focus)).
Proof.
  unfold removeFocusItem. rewrite handleChange_set. simpl. split.
  - intros H. split; [apply remove_at_spec|by apply length_remove_at].
  - apply remove_at_ge.
Qed.

(** ** Witnesses *)

Definition sample_focus : FormData :=
  handleChange (Set_daily_focus ["Read"; "Run"; "Write"]) initial_form_data.

Example addFocusItem_blank_witness :
  JsString.blank (mkStep4Local " 	" "").(newFocusItem) = true
  /\ addFocusItem (mkStep4Local " 	" "") initial_form_data
     = (initial_form_data, mkStep4Local " 	" "").
Proof. split; [reflexivity|]. apply addFocusItem_blank. reflexivity. Defined.

Example addFocusItem_appends_witness :
  JsString.blank (mkStep4Local "  deep work " "").(newFocusItem) = false
  /\ (addFocusItem (mkStep4Local "  deep work " "") initial_form_data).1.(daily_focus)
     = ["deep work"].
Proof.
  split; [reflexivity|].
  pose proof (addFocusItem_appends (mkStep4Local "  deep work " "") initial_form_data eq_refl) as H.
  destruct (addFocusItem _ _) as [fd' loc']. simpl. rewrite (proj1 H). reflexivity.
Defined.

Example removeFocusItem_spec_witness :
  (1 < length sample_focus.(daily_focus))%nat
  /\ (removeFocusItem 1 sample_focus).(daily_focus) = ["Read"; "Write"].
Proof.
  split; [simpl; lia|].
  destruct (removeFocusItem_spec 1 sample_focus) as [H _].
  rewrite (proj1 (H ltac:(simpl; lia))). reflexivity.
Defined.

End ListEditor.
