(* ===== verification/Json.v ===== *)
(** * JSON values

    The values that cross the program's boundaries: the body of the
    relay's request ([{ planData, anthropicApiKey }]), the upstream reply
    ([data.content[0].text]), the parsed analysis, and the body of every
    response.  An object is the list of its properties in order; the
    accessors return [None] for JavaScript's [undefined]. *)

From stdpp Require Import strings.
From S2P Require Import Prelude JsString JsNumber.

Open Scope string_scope.

#[local] Set Warnings "-register-all".

Module Json.
Import JsNumber.

Inductive Json : Type :=
| JNull
| JBool (b : bool)
| JNumber (n : JsNum)
| JString (s : string)
| JArray (items : list Json)
| JObject (props : list (string * Json)).

(** [obj.key]: the first property of that name; [undefined] for a
    missing property or a value that is not an object. *)
Definition get (key : string) (v : Json) : option Json :=
  match v with
  | JObject props =>
      match List.find (fun kv => String.eqb (fst kv) key) props with
      | Some (_, x) => Some x
      | None => None
      end
  | _ => None
  end.

(** [arr[i]]. *)
Definition index (i : nat) (v : Json) : option Json :=
  match v with
  | JArray items => items !! i
  | _ => None
  end.

(** [ToBoolean] of a defined value. *)
Definition truthy (v : Json) : bool :=
  match v with
  | JNull => false
  | JBool b => b
  | JNumber n => JsNumber.truthy n
  | JString s => JsString.truthy s
  | JArray _ | JObject _ => true
  end.

(** [ToBoolean] of a possibly [undefined] value. *)
Definition truthy_opt (v : option Json) : bool :=
  match v with Some x => truthy x | None => false end.

Lemma get_cons_eq k x props : get k (JObject ((k, x) :: props)) = Some x.
Proof. simpl. by rewrite String.eqb_refl. Qed.

Lemma get_cons_ne k k' x props :
  k' <> k -> get k (JObject ((k', x) :: props)) = get k (JObject props).
Proof.
  intros H. simpl. destruct (String.eqb_spec k' k); [congruence|].
  reflexivity.
Qed.

#[export] Hint Rewrite get_cons_eq : dlp_rw.

(** ** The runtime services the relay calls

    The exceptions a JavaScript handler can meet on its paths, and the
    engine services the development does not model: [JSON.parse]
    ([None] for a [SyntaxError]), [Number.prototype.toString] and the
    message text of each exception. *)
Inductive Exn : Type :=
| ExnParse (input : string)                 (* SyntaxError of JSON.parse / res.json() *)
| ExnReadProp (base : option Json) (key : string)
                                            (* TypeError: property of undefined/null *)
| ExnNotFunction (method_name : string)      (* TypeError: x.join / x.match is not a function *)
| ExnDestructure                            (* TypeError: destructuring null *)
| ExnFetch (msg : string).                  (* fetch() rejected *)

Class JsRuntime : Type := {
  json_parse : string -> option Json;
  number_to_string : JsNum -> string;
  exn_message : Exn -> string
}.

End Json.
