(* ===== verification/JsonCodec.v ===== *)
(** * [JSON.stringify] and [JSON.parse]

    Every value that crosses a process boundary goes through these two
    builtins: [JSON.stringify({ planData, anthropicApiKey })] in App.tsx,
    [req.json()], [response.json()] and [JSON.parse(jsonMatch[0])] in the
    relay, and [JSON.stringify] of every response body.  They are modelled
    from ECMAScript (sections JSON.parse and JSON.stringify), not from the
    repository:
    - [print] is [JSON.stringify] without indentation: [QuoteJSONString]
      for strings, [Number::toString] for finite numbers and [null] for the
      others, properties in the object's order;
    - [p_value] is the JSON grammar read by recursive descent, with fuel;
      [parse_json] gives it [2 * length + 1] units, which
      [p_value_fuel] proves always enough;
    - an object is built as [JSON.parse] builds it: a repeated key
      overwrites the earlier value in its place, and the keys that are
      array indices come first in increasing order ([js_object]).
    Strings hold the code units 0-255; a [\uXXXX] escape above [ÿ]
    is outside the model and is rejected. *)

From Stdlib Require Import ZArith Ascii QArith Qcanon.
From stdpp Require Import strings.
From S2P Require Import Prelude JsString JsNumber NumberFormat Json.

Local Open Scope list_scope.

Module JsonCodec.
Import JsNumber NumberFormat Json.

#[local] Abbreviation sol := String.string_of_list_ascii.
#[local] Abbreviation los := String.list_ascii_of_string.

(** ** Characters *)

(** The double quote, code unit 34. *)
Definition c_quote : ascii := Ascii false true false false false true false false.

Definition is_json_ws (c : ascii) : bool := existsb (Nat.eqb (nat_of_ascii c)) [9; 10; 13; 32]%nat.

Fixpoint skip_ws (l : list ascii) : list ascii :=
  match l with
  | c :: r => if is_json_ws c then skip_ws r else l
  | [] => []
  end.

Definition hex_char (n : nat) : ascii :=
  if (n <? 10)%nat then ascii_of_nat (48 + n) else ascii_of_nat (87 + n).

Definition hex_value (c : ascii) : option nat :=
  let n := nat_of_ascii c in
  if (48 <=? n)%nat && (n <=? 57)%nat then Some (n - 48)%nat
  else if (97 <=? n)%nat && (n <=? 102)%nat then Some (n - 87)%nat
  else if (65 <=? n)%nat && (n <=? 70)%nat then Some (n - 55)%nat
  else None.

(** [w] at the front of [l]. *)
Fixpoint strip (w l : list ascii) : option (list ascii) :=
  match w, l with
  | [], _ => Some l
  | c :: w', d :: l' => if Ascii.eqb c d then strip w' l' else None
  | _ :: _, [] => None
  end.

(** ** [JSON.stringify] *)

(** [QuoteJSONString] for one code unit. *)
Definition quote_char (c : ascii) : list ascii :=
  let n := nat_of_ascii c in
  if (n =? 8)%nat then ["\"; "b"]%char
  else if (n =? 9)%nat then ["\"; "t"]%char
  else if (n =? 10)%nat then ["\"; "n"]%char
  else if (n =? 12)%nat then ["\"; "f"]%char
  else if (n =? 13)%nat then ["\"; "r"]%char
  else if (n =? 34)%nat then ["\"%char; c_quote]
  else if (n =? 92)%nat then ["\"; "\"]%char
  else if (n <? 32)%nat then ["\"; "u"; "0"; "0"]%char ++ [hex_char (n / 16); hex_char (n mod 16)]
  else [c].

Definition quote (s : string) : list ascii :=
  c_quote :: concat (map quote_char (los s)) ++ [c_quote].

(** The parts joined with [","], as [SerializeJSONArray] and
    [SerializeJSONObject] join them. *)
Definition commas (parts : list (list ascii)) : list ascii :=
  match parts with
  | [] => []
  | p :: ps => p ++ concat (map (cons ","%char) ps)
  end.

Fixpoint print (v : Json) : list ascii :=
  match v with
  | JNull => los "null"
  | JBool true => los "true"
  | JBool false => los "false"
  | JNumber (JNum q) => qc_to_string q
  | JNumber _ => los "null"
  | JString s => quote s
  | JArray xs => "["%char :: commas (map print xs) ++ ["]"%char]
  | JObject ps => "{"%char :: commas (map (fun kv => quote kv.1 ++ ":"%char :: print kv.2) ps) ++ ["}"%char]
  end.

(** One property of an object, [key:value]. *)
Definition print_prop (kv : string * Json) : list ascii := quote kv.1 ++ ":"%char :: print kv.2.

Definition stringify (v : Json) : string := sol (print v).

(** ** [JSON.parse] *)

Inductive PRes (A : Type) : Type :=
| POk (a : A) (rest : list ascii)
| PErr
| PFuel.
Arguments POk {A}. Arguments PErr {A}. Arguments PFuel {A}.

(** The character of a one-letter escape [\e]. *)
Definition escape (e : ascii) : option ascii :=
  if Ascii.eqb e c_quote then Some c_quote
  else if Ascii.eqb e "\" then Some "\"%char
  else if Ascii.eqb e "/" then Some "/"%char
  else if Ascii.eqb e "b" then Some (ascii_of_nat 8)
  else if Ascii.eqb e "f" then Some (ascii_of_nat 12)
  else if Ascii.eqb e "n" then Some (ascii_of_nat 10)
  else if Ascii.eqb e "r" then Some (ascii_of_nat 13)
  else if Ascii.eqb e "t" then Some (ascii_of_nat 9)
  else None.

(** The characters of a string literal after its opening quote, up to and
    without the closing one. *)
Fixpoint p_chars (l : list ascii) : option (list ascii * list ascii) :=
  match l with
  | [] => None
  | c :: r =>
      if Ascii.eqb c c_quote then Some ([], r)
      else if Ascii.eqb c "\" then
        match r with
        | e :: r' =>
            match escape e with
            | Some c' => match p_chars r' with Some (cs, r'') => Some (c' :: cs, r'') | None => None end
            | None =>
                if Ascii.eqb e "u" then
                  match r' with
                  | h1 :: h2 :: h3 :: h4 :: r'' =>
                      match hex_value h1, hex_value h2, hex_value h3, hex_value h4 with
                      | Some a, Some b, Some c3, Some d =>
                          let n := (((a * 16 + b) * 16 + c3) * 16 + d)%nat in
                          if (n <? 256)%nat then
                            match p_chars r'' with
                            | Some (cs, r3) => Some (ascii_of_nat n :: cs, r3)
                            | None => None
                            end
                          else None
                      | _, _, _, _ => None
                      end
                  | _ => None
                  end
                else None
            end
        | [] => None
        end
      else if (nat_of_ascii c <? 32)%nat then None
      else match p_chars r with Some (cs, r') => Some (c :: cs, r') | None => None end
  end.

Definition is_digit (c : ascii) : bool := match digit c with Some _ => true | None => false end.

Fixpoint span_digits (l : list ascii) : list ascii * list ascii :=
  match l with
  | c :: r => if is_digit c then let '(ds, r') := span_digits r in (c :: ds, r') else ([], l)
  | [] => ([], [])
  end.

(** The number token [-? (0 | [1-9][0-9]* ) (.[0-9]+)? ([eE][+-]?[0-9]+)?],
    one part of the grammar at a time. *)
Definition p_sign (l : list ascii) : list ascii * list ascii :=
  match l with
  | c :: r => if Ascii.eqb c "-" then (["-"%char], r) else ([], l)
  | [] => ([], l)
  end.

Definition p_int (l : list ascii) : option (list ascii * list ascii) :=
  match l with
  | c :: r =>
      if Ascii.eqb c "0" then Some (["0"%char], r)
      else if is_digit c then let '(ds, r') := span_digits r in Some (c :: ds, r')
      else None
  | [] => None
  end.

Definition p_frac (l : list ascii) : option (list ascii * list ascii) :=
  match l with
  | c :: r =>
      if Ascii.eqb c "." then
        let '(ds, r') := span_digits r in
        match ds with [] => None | _ => Some ("."%char :: ds, r') end
      else Some ([], l)
  | [] => Some ([], l)
  end.

Definition p_exp (l : list ascii) : option (list ascii * list ascii) :=
  match l with
  | c :: r =>
      if Ascii.eqb c "e" || Ascii.eqb c "E" then
        let '(sg, r1) := match r with
                         | s :: r' => if Ascii.eqb s "+" || Ascii.eqb s "-" then ([s], r') else ([], r)
                         | [] => ([], r)
                         end in
        let '(ds, r2) := span_digits r1 in
        match ds with [] => None | _ => Some (c :: sg ++ ds, r2) end
      else Some ([], l)
  | [] => Some ([], l)
  end.

Definition p_number (l : list ascii) : option (list ascii * list ascii) :=
  let '(sg, l1) := p_sign l in
  match p_int l1 with
  | None => None
  | Some (ip, l2) =>
      match p_frac l2 with
      | None => None
      | Some (fp, l3) =>
          match p_exp l3 with
          | None => None
          | Some (xp, l4) => Some (sg ++ ip ++ fp ++ xp, l4)
          end
      end
  end.

(** *** Objects as [JSON.parse] builds them *)

(** A canonical array index: ["0"] or a digit string without leading
    zero, below [2^32 - 1]. *)
Definition is_index_key (k : string) : bool :=
  match los k with
  | [] => false
  | c :: r =>
      forallb is_digit (c :: r) && (negb (Ascii.eqb c "0") || (length r =? 0)%nat)
      && (digits_value (map (fun c => default 0%Z (digit c)) (c :: r)) <? 4294967295)%Z
  end.

Definition key_index (k : string) : Z :=
  digits_value (map (fun c => default 0%Z (digit c)) (los k)).

(** [CreateDataProperty]: a new key goes last, a known key keeps its
    place and takes the new value. *)
Fixpoint set_prop (k : string) (v : Json) (ps : list (string * Json)) : list (string * Json) :=
  match ps with
  | [] => [(k, v)]
  | (k', v') :: r => if String.eqb k k' then (k, v) :: r else (k', v') :: set_prop k v r
  end.

Fixpoint insert_index (kv : string * Json) (ps : list (string * Json)) : list (string * Json) :=
  match ps with
  | [] => [kv]
  | kv' :: r => if (key_index kv.1 <=? key_index kv'.1)%Z then kv :: ps else kv' :: insert_index kv r
  end.

(** [OrdinaryOwnPropertyKeys]: the array indices in increasing order,
    then the other keys in creation order. *)
Definition order_props (ps : list (string * Json)) : list (string * Json) :=
  foldr insert_index [] (List.filter (fun kv => is_index_key kv.1) ps)
  ++ List.filter (fun kv => negb (is_index_key kv.1)) ps.

Definition js_object (ps : list (string * Json)) : list (string * Json) :=
  order_props (foldl (fun acc kv => set_prop kv.1 kv.2 acc) [] ps).

(** *** The parser *)

Fixpoint p_value (fuel : nat) (l : list ascii) : PRes Json :=
  match fuel with
  | O => PFuel
  | S f =>
      let l := skip_ws l in
      match strip (los "null") l with Some r => POk JNull r | None =>
      match strip (los "true") l with Some r => POk (JBool true) r | None =>
      match strip (los "false") l with Some r => POk (JBool false) r | None =>
      match l with
      | c :: r =>
          if Ascii.eqb c c_quote then
            match p_chars r with Some (cs, r') => POk (JString (sol cs)) r' | None => PErr end
          else if Ascii.eqb c "[" then
            match skip_ws r with
            | c' :: r' => if Ascii.eqb c' "]" then POk (JArray []) r' else p_elems f r []
            | [] => PErr
            end
          else if Ascii.eqb c "{" then
            match skip_ws r with
            | c' :: r' => if Ascii.eqb c' "}" then POk (JObject []) r' else p_members f r []
            | [] => PErr
            end
          else
            match p_number l with
            | Some (tok, r') => POk (JNumber (parseFloat (sol tok))) r'
            | None => PErr
            end
      | [] => PErr
      end end end end
  end
with p_elems (fuel : nat) (l : list ascii) (acc : list Json) : PRes Json :=
  match fuel with
  | O => PFuel
  | S f =>
      match p_value f l with
      | POk v r =>
          match skip_ws r with
          | c :: r' =>
              if Ascii.eqb c "," then p_elems f r' (acc ++ [v])
              else if Ascii.eqb c "]" then POk (JArray (acc ++ [v])) r'
              else PErr
          | [] => PErr
          end
      | PErr => PErr
      | PFuel => PFuel
      end
  end
with p_members (fuel : nat) (l : list ascii) (acc : list (string * Json)) : PRes Json :=
  match fuel with
  | O => PFuel
  | S f =>
      match skip_ws l with
      | c :: r =>
          if Ascii.eqb c c_quote then
            match p_chars r with
            | Some (k, r1) =>
                match skip_ws r1 with
                | c1 :: r2 =>
                    if Ascii.eqb c1 ":" then
                      match p_value f r2 with
                      | POk v r3 =>
                          match skip_ws r3 with
                          | c3 :: r4 =>
                              if Ascii.eqb c3 "," then p_members f r4 (acc ++ [(sol k, v)])
                              else if Ascii.eqb c3 "}" then POk (JObject (js_object (acc ++ [(sol k, v)]))) r4
                              else PErr
                          | [] => PErr
                          end
                      | PErr => PErr
                      | PFuel => PFuel
                      end
                    else PErr
                | [] => PErr
                end
            | None => PErr
            end
          else PErr
      | [] => PErr
      end
  end.

(** [JSON.parse(text)]: one value between white space; [None] for a
    [SyntaxError]. *)
Definition parse_json (s : string) : option Json :=
  let l := los s in
  match p_value (2 * length l + 1) l with
  | POk v r => match skip_ws r with [] => Some v | _ => None end
  | _ => None
  end.

(** ** What a round trip through the text keeps *)

(** Every finite number has a finite decimal expansion: the numbers
    [Number::toString] writes exactly. *)
Fixpoint decimals (v : Json) : bool :=
  match v with
  | JNumber (JNum q) => match decimal_repr q with Some _ => true | None => false end
  | JArray xs => forallb decimals xs
  | JObject ps => forallb (fun kv => decimals kv.2) ps
  | _ => true
  end.

(** Every number is a finite decimal: no [NaN] and no infinity. *)
Fixpoint exact (v : Json) : bool :=
  match v with
  | JNumber (JNum q) => match decimal_repr q with Some _ => true | None => false end
  | JNumber _ => false
  | JArray xs => forallb exact xs
  | JObject ps => forallb (fun kv => exact kv.2) ps
  | _ => true
  end.

(** The magnitudes an engine reads as finite doubles: a numeric literal
    of magnitude [2^1024 - 2^970] (halfway between [Number.MAX_VALUE] and
    [2^1024]) or more rounds to an infinity (RoundMVResult).  Numbers
    here are exact, so a claim about texts that an engine reads as
    doubles is stated for values in this range, where reading, printing
    and reading again gives the same double in the engine. *)
Definition double_overflow : Q := inject_Z (2 ^ 1024 - 2 ^ 970).

Fixpoint in_double_range (v : Json) : bool :=
  match v with
  | JNumber (JNum q) => negb (Qle_bool (this q) (- double_overflow)) && negb (Qle_bool double_overflow (this q))
  | JArray xs => forallb in_double_range xs
  | JObject ps => forallb (fun kv => in_double_range kv.2) ps
  | _ => true
  end.

(** The value [JSON.parse(JSON.stringify(v))]: [NaN] and the infinities
    become [null] and every object is rebuilt by [JSON.parse]. *)
Fixpoint normalize (v : Json) : Json :=
  match v with
  | JNumber (JNum q) => v
  | JNumber _ => JNull
  | JArray xs => JArray (map normalize xs)
  | JObject ps => JObject (js_object (map (fun kv => (kv.1, normalize kv.2)) ps))
  | _ => v
  end.

(** What may follow a value inside a document. *)
Definition delim (rest : list ascii) : Prop :=
  match rest with [] => True | c :: _ => c = ","%char \/ c = "]"%char \/ c = "}"%char end.

(** Induction on JSON values through the lists they hold. *)
Section JsonInd.
Variable P : Json -> Prop.
Hypothesis Hnull : P JNull.
Hypothesis Hbool : forall b, P (JBool b).
Hypothesis Hnum : forall n, P (JNumber n).
Hypothesis Hstr : forall s, P (JString s).
Hypothesis Harr : forall xs, Forall P xs -> P (JArray xs).
Hypothesis Hobj : forall ps, Forall (fun kv => P kv.2) ps -> P (JObject ps).

Fixpoint json_ind' (v : Json) : P v :=
  match v with
  | JNull => Hnull
  | JBool b => Hbool b
  | JNumber n => Hnum n
  | JString s => Hstr s
  | JArray xs =>
      Harr xs ((fix go (xs : list Json) : Forall P xs :=
                  match xs with
                  | [] => List.Forall_nil _
                  | x :: r => List.Forall_cons _ x r (json_ind' x) (go r)
                  end) xs)
  | JObject ps =>
      Hobj ps ((fix go (ps : list (string * Json)) : Forall (fun kv => P kv.2) ps :=
                  match ps with
                  | [] => List.Forall_nil _
                  | kv :: r => List.Forall_cons _ kv r (json_ind' kv.2) (go r)
                  end) ps)
  end.
End JsonInd.

(** ** The parser consumes its input and always has enough fuel *)

Lemma skip_ws_length l : length (skip_ws l) <= length l.
Proof. induction l as [|c l IH]; cbn [skip_ws]; [done|]. case_match; cbn [length]; lia. Qed.

Lemma strip_length w l r : strip w l = Some r -> length r + length w = length l.
Proof.
  revert l. induction w as [|c w IH]; intros [|d l] E; cbn [strip] in E; simplify_eq/=; try done.
  case_match; [|done]. apply IH in E. lia.
Qed.

Lemma p_chars_length l cs r : p_chars l = Some (cs, r) -> length r < length l.
Proof.
  remember (length l) as n eqn:En. revert l En cs r.
  induction n as [n IH] using lt_wf_ind. intros l -> cs r E. destruct l as [|c l]; cbn [p_chars] in E; [done|].
  repeat (case_match; simplify_eq/=); try lia;
    match goal with H : p_chars ?x = Some _ |- _ =>
      apply (IH (length x)) in H; cbn [length] in *; lia end.
Qed.

Lemma span_digits_length l : length (span_digits l).2 <= length l.
Proof. induction l as [|c l IH]; cbn [span_digits]; [done|]. repeat case_match; simplify_eq/=; lia. Qed.

Lemma span_digits_split l : l = (span_digits l).1 ++ (span_digits l).2.
Proof.
  induction l as [|c l IH]; cbn [span_digits]; [done|].
  destruct (is_digit c); [|done]. destruct (span_digits l) as [ds r]. cbn in *. by rewrite IH at 1.
Qed.

Lemma p_number_length l t r : p_number l = Some (t, r) -> length r < length l.
Proof.
  unfold p_number, p_sign, p_int, p_frac, p_exp. intros E.
  repeat (case_match; simplify_eq/=);
    repeat match goal with H : span_digits ?x = (_, _) |- _ =>
             pose proof (span_digits_length x); rewrite H in *; clear H end; cbn [length fst snd] in *; lia.
Qed.

#[local] Hint Resolve skip_ws_length : dlp.

(** What a result says about its input: a value leaves a shorter rest,
    running out of fuel is the one failure that is not an answer. *)
Definition fuel_ok {A} (res : PRes A) (l : list ascii) : Prop :=
  match res with POk _ r => length r < length l | PErr => True | PFuel => False end.

Ltac len_facts :=
  repeat match goal with
  | H : skip_ws ?x = _ |- _ => pose proof (skip_ws_length x); rewrite H in *; clear H
  | H : strip _ _ = Some _ |- _ => apply strip_length in H
  | H : p_chars _ = Some _ |- _ => apply p_chars_length in H
  | H : p_number _ = Some _ |- _ => apply p_number_length in H
  end; cbn [length] in *.

(** One recursive call of [p_fuel]'s induction. *)
Local Ltac use_ih IHv IHe IHm :=
  match goal with
  | |- fuel_ok (p_elems ?f ?x ?a) _ => pose proof (IHe x a ltac:(lia)); destruct (p_elems f x a)
  | |- fuel_ok (p_members ?f ?x ?a) _ => pose proof (IHm x a ltac:(lia)); destruct (p_members f x a)
  | H : p_value ?f ?x = _ |- _ => pose proof (IHv x ltac:(lia)); rewrite H in *; clear H
  end; cbn in *; len_facts; try done; try lia.

Lemma p_fuel n :
  (forall l, 2 * length l < n -> fuel_ok (p_value n l) l) /\
  (forall l acc, 2 * length l + 1 < n -> fuel_ok (p_elems n l acc) l) /\
  (forall l acc, 2 * length l + 1 < n -> fuel_ok (p_members n l acc) l).
Proof.
  induction n as [|f (IHv & IHe & IHm)]; [split_and!; intros; lia|].
  split_and!.
  - intros l Hl. cbn [p_value]. pose proof (skip_ws_length l).
    repeat case_match; simplify_eq; cbn [fuel_ok] in *; len_facts;
      cbn [String.list_ascii_of_string length] in *; try done; try lia.
    all: use_ih IHv IHe IHm.
  - intros l acc Hl. cbn [p_elems]. repeat case_match; simplify_eq; len_facts; try done.
    all: use_ih IHv IHe IHm; use_ih IHv IHe IHm.
  - intros l acc Hl. cbn [p_members]. repeat case_match; simplify_eq; len_facts; try done.
    all: use_ih IHv IHe IHm; use_ih IHv IHe IHm.
Qed.

(** More fuel changes no answer. *)
Lemma p_mono n :
  (forall m l, n <= m -> p_value n l <> PFuel -> p_value m l = p_value n l) /\
  (forall m l acc, n <= m -> p_elems n l acc <> PFuel -> p_elems m l acc = p_elems n l acc) /\
  (forall m l acc, n <= m -> p_members n l acc <> PFuel -> p_members m l acc = p_members n l acc).
Proof.
  induction n as [|f (IHv & IHe & IHm)]; [split_and!; intros; done|].
  split_and!; intros [|m] l; try (intros; lia); [|intros acc..]; intros Hm;
    cbn [p_value p_elems p_members];
    assert (Hor : forall x, p_value m x = p_value f x \/ p_value f x = PFuel)
      by (intros x; destruct (p_value f x) eqn:E; [left; rewrite <- E; apply IHv; [lia|by rewrite E]..|by right]);
    repeat first [match goal with |- context [p_value m ?x] => destruct (Hor x) as [->| ->] end
                 | case_match]; try done;
    intros Hnf; ((apply IHe || apply IHm); [lia|done]).
Qed.

(** ** Strings *)

Lemma hex_value_hex_char k : (k < 16)%nat -> hex_value (hex_char k) = Some k.
Proof.
  intros Hk. do 16 (destruct k as [|k]; [reflexivity|]). lia.
Qed.

Lemma ascii_of_nat_of c : ascii_of_nat (nat_of_ascii c) = c.
Proof. apply ascii_nat_embedding. Qed.

(** [p_chars] undoes [QuoteJSONString] one code unit at a time. *)
Lemma p_chars_quote_char c r :
  p_chars (quote_char c ++ r) =
  match p_chars r with Some (cs, r') => Some (c :: cs, r') | None => None end.
Proof.
  pose proof (nat_ascii_bounded c) as Hb.
  transitivity (match p_chars r with Some (cs, r') => Some (ascii_of_nat (nat_of_ascii c) :: cs, r') | None => None end);
    [|by rewrite ascii_of_nat_of].
  unfold quote_char. cbv zeta. remember (nat_of_ascii c) as n eqn:En.
  repeat match goal with
         | |- context [Nat.eqb n ?k] =>
             destruct (Nat.eqb_spec n k) as [E|]; [subst n; rewrite E; reflexivity|]
         end.
  destruct (Nat.ltb_spec n 32).
  - repeat match goal with Hne : _ <> _ |- _ => clear Hne end.
    cbn -[hex_char hex_value Nat.div Nat.modulo ascii_of_nat].
    rewrite !hex_value_hex_char by (apply Nat.Div0.div_lt_upper_bound || apply Nat.mod_upper_bound; lia).
    change (hex_value "0") with (Some 0%nat). cbv iota beta.
    replace (((0 * 16 + 0) * 16 + n / 16) * 16 + n mod 16)%nat with n
      by (pose proof (Nat.div_mod_eq n 16); lia).
    destruct (Nat.leb_spec n 255); [reflexivity|lia].
  - subst n. cbn [app p_chars]. rewrite ascii_of_nat_of.
    destruct (Ascii.eqb_spec c c_quote) as [->|];
      [match goal with Hne : nat_of_ascii c_quote <> _ |- _ => by destruct Hne end|].
    destruct (Ascii.eqb_spec c "\") as [->|];
      [match goal with Hne : nat_of_ascii "\" <> _ |- _ => by destruct Hne end|].
    destruct (Nat.ltb_spec (nat_of_ascii c) 32) as [Hlt|]; [by apply Nat.lt_nge in Hlt|]. reflexivity.
Qed.

Lemma p_chars_quoted cs rest :
  p_chars (concat (map quote_char cs) ++ c_quote :: rest) = Some (cs, rest).
Proof.
  induction cs as [|c cs IH]; [reflexivity|].
  cbn [map concat]. by rewrite <- app_assoc, p_chars_quote_char, IH.
Qed.

(** A string literal is read back as the string that was quoted. *)
Lemma p_chars_quote s rest :
  quote s ++ rest = c_quote :: concat (map quote_char (los s)) ++ c_quote :: rest
  /\ p_chars (concat (map quote_char (los s)) ++ c_quote :: rest) = Some (los s, rest).
Proof.
  split; [|apply p_chars_quoted]. unfold quote. cbn [app]. by rewrite <- app_assoc.
Qed.

(** ** Numbers *)

(** The first character of [l], if any, fails [f]. *)
Definition head_not (f : ascii -> bool) (l : list ascii) : Prop :=
  match l with c :: _ => f c = false | [] => True end.

Lemma is_digit_char d : digit_range d -> is_digit (digit_char d) = true.
Proof. intros Hd. unfold is_digit. by rewrite digit_digit_char. Qed.

Lemma span_digits_chars ds rest :
  Forall digit_range ds -> head_not is_digit rest ->
  span_digits (map digit_char ds ++ rest) = (map digit_char ds, rest).
Proof.
  intros Hds Hr. induction Hds as [|d ds Hd _ IH]; cbn [map app span_digits].
  - destruct rest as [|c r]; [done|]. cbn [head_not] in Hr. cbn [span_digits]. by rewrite Hr.
  - by rewrite is_digit_char, IH.
Qed.

Lemma p_int_digits ip rest :
  ip <> [] -> lead_ok ip -> Forall digit_range ip -> head_not is_digit rest ->
  p_int (map digit_char ip ++ rest) = Some (map digit_char ip, rest).
Proof.
  intros Hne [->|(d & ip' & -> & Hd0)] Hr Hrest; [reflexivity|].
  apply Forall_cons in Hr as [Hd Hr]. cbn [map app p_int].
  destruct (Ascii.eqb_spec (digit_char d) "0") as [E|].
  - apply (f_equal digit) in E. rewrite digit_digit_char in E by done. by injection E.
  - by rewrite is_digit_char, span_digits_chars.
Qed.

Lemma p_frac_digits fp rest :
  Forall digit_range fp -> head_not is_digit rest ->
  (fp = [] -> head_not (fun c => Ascii.eqb c ".") rest) ->
  p_frac ((match fp with [] => [] | _ => "."%char :: map digit_char fp end) ++ rest)
  = Some (match fp with [] => [] | _ => "."%char :: map digit_char fp end, rest).
Proof.
  intros Hfp Hr Hdot. destruct fp as [|f fp'].
  - specialize (Hdot eq_refl). destruct rest as [|c r]; [done|]. cbn [head_not] in Hdot.
    cbn [app p_frac]. by rewrite Hdot.
  - cbn [app p_frac Ascii.eqb]. change (map digit_char (f :: fp') ++ rest) with (map digit_char (f :: fp') ++ rest).
    rewrite (span_digits_chars (f :: fp')) by done. reflexivity.
Qed.

Lemma p_exp_tail tail rest :
  (tail = [] \/ exists x, tail = exp_tail x) -> head_not is_digit rest ->
  (tail = [] -> head_not (fun c => Ascii.eqb c "e" || Ascii.eqb c "E") rest) ->
  p_exp (tail ++ rest) = Some (tail, rest).
Proof.
  intros [->|(x & ->)] Hr He.
  - specialize (He eq_refl). destruct rest as [|c r]; [done|]. cbn [head_not] in He.
    cbn [app p_exp]. by rewrite He.
  - unfold exp_tail, show_digits. destruct (digits_nonneg_spec (Z.abs x)) as (Hd & _ & Hne); [lia|].
    cbn [app p_exp Ascii.eqb orb].
    destruct (Z.leb_spec 0 x); cbn [Ascii.eqb Bool.eqb orb]; rewrite span_digits_chars by done;
      by destruct (digits (Z.abs x)).
Qed.

Lemma head_not_app f l1 l2 :
  head_not f l1 -> (l1 = [] -> head_not f l2) -> head_not f (l1 ++ l2).
Proof. destruct l1; cbn; [auto|done]. Qed.

Lemma delim_heads rest :
  delim rest ->
  head_not is_digit rest /\ head_not (fun c => Ascii.eqb c ".") rest /\
  head_not (fun c => Ascii.eqb c "e" || Ascii.eqb c "E") rest.
Proof. destruct rest as [|c r]; [done|]. intros [->|[->| ->]]; split_and!; reflexivity. Qed.

(** The scanner reads a rendered number up to the delimiter after it. *)
Lemma p_number_token (sign : bool) ip fp tail rest :
  ip <> [] -> lead_ok ip -> Forall digit_range (ip ++ fp) ->
  (tail = [] \/ exists x, tail = exp_tail x) -> delim rest ->
  p_number (((if sign then ["-"%char] else []) ++ render ip fp tail) ++ rest)
  = Some ((if sign then ["-"%char] else []) ++ render ip fp tail, rest).
Proof.
  intros Hne Hl Hd Ht Hr. apply Forall_app in Hd as [Hdi Hdf].
  destruct (delim_heads rest Hr) as (Hr1 & Hr2 & Hr3).
  set (F := match fp with [] => [] | _ => "."%char :: map digit_char fp end).
  assert (Htr : head_not is_digit (tail ++ rest) /\ head_not (fun c => Ascii.eqb c ".") (tail ++ rest)).
  { destruct Ht as [->|(x & ->)]; [done|]. split; reflexivity. }
  assert (HF : head_not is_digit (F ++ tail ++ rest)).
  { subst F. destruct fp; [apply Htr|reflexivity]. }
  unfold p_number, render. rewrite <- !app_assoc. fold F.
  assert (Hs : p_sign ((if sign then ["-"%char] else []) ++ map digit_char ip ++ F ++ tail ++ rest)
               = (if sign then ["-"%char] else [], map digit_char ip ++ F ++ tail ++ rest)).
  { destruct sign; [reflexivity|]. destruct ip as [|d ip']; [done|].
    apply Forall_cons in Hdi as [Hd0 _]. destruct (digit_char_facts d Hd0) as (_ & Hm & _).
    cbn [app map p_sign]. by rewrite Hm. }
  rewrite Hs, p_int_digits by done. subst F.
  destruct Htr as [Htr1 Htr2].
  rewrite p_frac_digits, p_exp_tail by (intros; assumption || done).
  done.
Qed.

(** ** Reading a printed value *)

(** A character that starts a number: the parser tries the number
    scanner on it. *)
Definition plain_head (c : ascii) : bool :=
  negb (is_json_ws c) && negb (Ascii.eqb "n" c) && negb (Ascii.eqb "t" c) && negb (Ascii.eqb "f" c)
  && negb (Ascii.eqb c c_quote) && negb (Ascii.eqb c "[") && negb (Ascii.eqb c "{").

(** A character that can start a value: not white space and no closing
    bracket. *)
Definition value_head (c : ascii) : bool :=
  negb (is_json_ws c) && negb (Ascii.eqb c "]") && negb (Ascii.eqb c "}").

Lemma digit_char_heads d : digit_range d -> plain_head (digit_char d) = true /\ value_head (digit_char d) = true.
Proof.
  unfold digit_range. intros Hd.
  assert (d = 0 \/ d = 1 \/ d = 2 \/ d = 3 \/ d = 4 \/ d = 5 \/ d = 6 \/ d = 7 \/ d = 8 \/ d = 9)%Z
    as Hd' by lia.
  repeat destruct Hd' as [->|Hd']; subst; split; reflexivity.
Qed.

Lemma skip_ws_value_head c r : value_head c = true -> skip_ws (c :: r) = c :: r.
Proof. unfold value_head. intros H. cbn [skip_ws]. by destruct (is_json_ws c). Qed.

Lemma p_value_number f c r :
  plain_head c = true ->
  p_value (S f) (c :: r) =
  match p_number (c :: r) with Some (tok, r') => POk (JNumber (parseFloat (sol tok))) r' | None => PErr end.
Proof.
  unfold plain_head. intros H. repeat (apply andb_prop in H as [H ?]). apply negb_true_iff in H.
  cbn [p_value skip_ws]. rewrite H. cbn [String.list_ascii_of_string strip].
  repeat match goal with E : negb _ = true |- _ => apply negb_true_iff in E; rewrite E end. done.
Qed.

Lemma p_value_literal f w v r :
  (w, v) = (los "null", JNull) \/ (w, v) = (los "true", JBool true) \/ (w, v) = (los "false", JBool false) ->
  p_value (S f) (w ++ r) = POk v r.
Proof. intros [E|[E|E]]; injection E as -> ->; reflexivity. Qed.

Lemma print_head v :
  decimals v = true -> exists c t, print v = c :: t /\ value_head c = true.
Proof.
  intros Hv. destruct v as [| [] |[q| |]|s|xs|ps]; try (eexists _, _; split; [reflexivity|done]).
  cbn [decimals] in Hv. destruct (decimal_repr q) as [[s e]|] eqn:Hq; [|done].
  destruct (qc_to_string_shape q s e Hq) as ([] & ip & fp & tail & E & Hne & _ & Hd & _);
    cbn [print]; rewrite E; [by eexists _, _|].
  destruct ip as [|d ip']; [done|]. apply Forall_cons in Hd as [Hd _].
  eexists _, _. split; [reflexivity|]. apply (digit_char_heads d Hd).
Qed.

Lemma p_value_more n m l a r : p_value n l = POk a r -> n <= m -> p_value m l = POk a r.
Proof. intros E Hm. rewrite <- E. apply (p_mono n); [done|by rewrite E]. Qed.

Lemma p_elems_more n m l acc a r : p_elems n l acc = POk a r -> n <= m -> p_elems m l acc = POk a r.
Proof. intros E Hm. rewrite <- E. apply (p_mono n); [done|by rewrite E]. Qed.

Lemma p_members_more n m l acc a r : p_members n l acc = POk a r -> n <= m -> p_members m l acc = POk a r.
Proof. intros E Hm. rewrite <- E. apply (p_mono n); [done|by rewrite E]. Qed.

Lemma skip_ws_nows c r : is_json_ws c = false -> skip_ws (c :: r) = c :: r.
Proof. intros H. cbn [skip_ws]. by rewrite H. Qed.

(** [v]'s text followed by a delimiter reads back as [normalize v]. *)
Definition reads_back (v : Json) : Prop :=
  forall rest, delim rest -> exists n, p_value n (print v ++ rest) = POk (normalize v) rest.

Lemma p_elems_print x xs acc rest :
  Forall reads_back (x :: xs) ->
  exists n, p_elems n (print x ++ concat (map (cons ","%char) (map print xs)) ++ "]"%char :: rest) acc
            = POk (JArray (acc ++ map normalize (x :: xs))) rest.
Proof.
  revert x acc. induction xs as [|y ys IH]; intros x acc Hall; apply Forall_cons in Hall as [Hx Hxs].
  - destruct (Hx ("]"%char :: rest)) as [n1 H1]; [by right; left|].
    exists (S n1). cbn [p_elems map concat app]. by rewrite H1.
  - destruct (IH y (acc ++ [normalize x]) Hxs) as [n2 H2].
    set (T := print y ++ concat (map (cons ","%char) (map print ys)) ++ "]"%char :: rest).
    destruct (Hx (","%char :: T)) as [n1 H1]; [by left|].
    exists (S (max n1 n2)). cbn [p_elems map concat]. rewrite <- !app_assoc. cbn [app]. fold T.
    rewrite (p_value_more n1 (max n1 n2) _ _ _ H1) by lia.
    transitivity (p_elems (max n1 n2) T (acc ++ [normalize x])); [reflexivity|].
    unfold T. rewrite (p_elems_more n2 (max n1 n2) _ _ _ _ H2) by lia. by rewrite <- app_assoc.
Qed.

(** One [key:value] and what follows it, [T], read by [p_members]: the
    key, the colon and the value, then [T] is looked at. *)
Lemma p_members_step n f k v T acc nv :
  p_value n (print v ++ T) = POk nv T -> n <= f ->
  p_members (S f) (print_prop (k, v) ++ T) acc =
  match skip_ws T with
  | c3 :: r4 =>
      if Ascii.eqb c3 "," then p_members f r4 (acc ++ [(k, nv)])
      else if Ascii.eqb c3 "}" then POk (JObject (js_object (acc ++ [(k, nv)]))) r4
      else PErr
  | [] => PErr
  end.
Proof.
  intros Hv Hn. unfold print_prop. cbn [fst snd]. rewrite <- app_assoc. cbn [app].
  destruct (p_chars_quote k (":"%char :: print v ++ T)) as [Eq Ec]. rewrite Eq.
  cbn [p_members]. rewrite skip_ws_nows by reflexivity. cbn beta iota.
  rewrite Ec, skip_ws_nows by reflexivity. cbn beta iota.
  rewrite (p_value_more n f _ _ _ Hv Hn), String.string_of_list_ascii_of_string. reflexivity.
Qed.

Lemma p_members_print kv ps acc rest :
  Forall (fun kv => reads_back kv.2) (kv :: ps) ->
  exists n, p_members n (print_prop kv ++ concat (map (cons ","%char) (map print_prop ps)) ++ "}"%char :: rest) acc
            = POk (JObject (js_object (acc ++ map (fun kv => (kv.1, normalize kv.2)) (kv :: ps)))) rest.
Proof.
  revert kv acc. induction ps as [|kv' ps IH]; intros [k v] acc Hall; apply Forall_cons in Hall as [Hx Hxs].
  - destruct (Hx ("}"%char :: rest)) as [n1 H1]; [by right; right|].
    exists (S n1). cbn [map concat app]. by rewrite (p_members_step n1 n1 k v _ acc _ H1).
  - destruct (IH kv' (acc ++ [(k, normalize v)]) Hxs) as [n2 H2].
    set (T := print_prop kv' ++ concat (map (cons ","%char) (map print_prop ps)) ++ "}"%char :: rest).
    destruct (Hx (","%char :: T)) as [n1 H1]; [by left|].
    exists (S (max n1 n2)). cbn [map concat]. rewrite <- !app_assoc. cbn [app]. fold T.
    rewrite (p_members_step n1 (max n1 n2) k v _ acc _ H1) by lia.
    transitivity (p_members (max n1 n2) T (acc ++ [(k, normalize v)])); [reflexivity|].
    unfold T. rewrite (p_members_more n2 (max n1 n2) _ _ _ _ H2) by lia. by rewrite <- app_assoc.
Qed.

Lemma p_value_string f r :
  p_value (S f) (c_quote :: r) =
  match p_chars r with Some (cs, r') => POk (JString (sol cs)) r' | None => PErr end.
Proof. reflexivity. Qed.

Lemma p_value_array f r :
  p_value (S f) ("["%char :: r) =
  match skip_ws r with
  | c' :: r' => if Ascii.eqb c' "]" then POk (JArray []) r' else p_elems f r []
  | [] => PErr
  end.
Proof. reflexivity. Qed.

Lemma p_value_object f r :
  p_value (S f) ("{"%char :: r) =
  match skip_ws r with
  | c' :: r' => if Ascii.eqb c' "}" then POk (JObject []) r' else p_members f r []
  | [] => PErr
  end.
Proof. reflexivity. Qed.

Lemma forall_reads_back {A} (g : A -> Json) (l : list A) :
  Forall (fun a => decimals (g a) = true -> reads_back (g a)) l ->
  forallb (fun a => decimals (g a)) l = true -> Forall (fun a => reads_back (g a)) l.
Proof.
  induction 1 as [|a l Ha _ IH]; cbn [forallb]; [constructor|].
  intros [Ha' Hl]%andb_prop. constructor; auto.
Qed.

(** A number's text is read back as the number. *)
Lemma reads_back_number q : decimals (JNumber (JNum q)) = true -> reads_back (JNumber (JNum q)).
Proof.
  cbn [decimals]. destruct (decimal_repr q) as [[s e]|] eqn:Hq; [intros _ rest Hr|done].
  destruct (qc_to_string_shape q s e Hq) as (sign & ip & fp & tail & E & Hne & Hl & Hd & Ht).
  set (tok := (if sign then ["-"%char] else []) ++ render ip fp tail) in E.
  assert (Hh : exists c t, tok = c :: t /\ plain_head c = true).
  { subst tok. destruct sign; [by eexists _, _|]. destruct ip as [|d ip']; [done|].
    apply Forall_cons in Hd as [Hd _]. eexists _, _. split; [reflexivity|apply (digit_char_heads d Hd)]. }
  destruct Hh as (c & t & Et & Hc). exists 1. cbn [print normalize]. rewrite E, Et. cbn [app].
  rewrite p_value_number by done. change (c :: t ++ rest) with ((c :: t) ++ rest).
  rewrite <- Et. subst tok. rewrite p_number_token by done. rewrite <- E.
  by rewrite (parseFloat_qc_to_string q s e Hq).
Qed.

Lemma print_object_text k v ps rest :
  print (JObject ((k, v) :: ps)) ++ rest
  = "{"%char :: print_prop (k, v) ++ concat (map (cons ","%char) (map print_prop ps)) ++ "}"%char :: rest.
Proof.
  cbn [print map commas app]. unfold print_prop at 1. cbn [fst snd]. rewrite <- !app_assoc. reflexivity.
Qed.

Lemma print_reads_back v : decimals v = true -> reads_back v.
Proof.
  induction v as [| b | [q| |] | s | xs IH | ps IH] using json_ind'.
  - intros _ rest _. exists 1. apply p_value_literal. by left.
  - intros _ rest _. exists 1. apply p_value_literal. destruct b; [by right; left|by right; right].
  - apply reads_back_number.
  - intros _ rest _. exists 1. by apply p_value_literal; left.
  - intros _ rest _. exists 1. by apply p_value_literal; left.
  - intros _ rest _. exists 1. cbn [print normalize]. destruct (p_chars_quote s rest) as [Eq Ec].
    rewrite Eq, p_value_string, Ec. by rewrite String.string_of_list_ascii_of_string.
  - intros Hd rest _. apply forall_reads_back with (g := id) in IH; [|done].
    destruct xs as [|x xs]; [by exists 1|].
    destruct (p_elems_print x xs [] rest IH) as [n Hn]. destruct (print_head x) as (c & t & Ep & Hc).
    { apply Forall_cons in IH as [_ _]. cbn [decimals forallb] in Hd. by apply andb_prop in Hd as [? _]. }
    exists (S n). cbn [print map commas]. rewrite <- !app_assoc. cbn [app]. rewrite p_value_array.
    rewrite Ep. cbn [app]. rewrite skip_ws_value_head by done.
    unfold value_head in Hc. apply andb_prop in Hc as [[_ Hc]%andb_prop _]. apply negb_true_iff in Hc.
    rewrite Hc, <- !app_assoc. cbn [app]. rewrite Ep in Hn. cbn [app] in Hn. by rewrite Hn.
  - intros Hd rest _. apply forall_reads_back with (g := snd) in IH; [|done].
    destruct ps as [|[k v] ps]; [by exists 1|].
    destruct (p_members_print (k, v) ps [] rest IH) as [n Hn].
    exists (S n). rewrite print_object_text, p_value_object.
    set (Y := concat (map (cons ","%char) (map print_prop ps)) ++ "}"%char :: rest) in *.
    assert (Et : exists t, print_prop (k, v) ++ Y = c_quote :: t) by (eexists; reflexivity).
    destruct Et as [t Et]. rewrite Et in *. rewrite skip_ws_nows by reflexivity.
    transitivity (p_members n (c_quote :: t) []); [reflexivity|exact Hn].
Qed.

(** The answer of some fuel is the answer of the fuel [parse_json] gives. *)
Lemma p_value_enough n l a r :
  p_value n l = POk a r -> p_value (2 * length l + 1) l = POk a r.
Proof.
  intros E. destruct (Nat.le_gt_cases n (2 * length l + 1)) as [Hn|Hn].
  - by apply (p_value_more n).
  - rewrite <- E. symmetry. apply (p_mono (2 * length l + 1)); [lia|].
    pose proof (proj1 (p_fuel (2 * length l + 1)) l ltac:(lia)) as Hf.
    intros Ef. by rewrite Ef in Hf.
Qed.

(** ** Objects whose keys are distinct and not array indices *)

Fixpoint plain_keys (ps : list (string * Json)) : bool :=
  match ps with
  | [] => true
  | (k, _) :: r => negb (is_index_key k) && forallb (fun kv => negb (String.eqb k kv.1)) r && plain_keys r
  end.

Lemma set_prop_new k v acc :
  forallb (fun kv => negb (String.eqb k kv.1)) acc = true -> set_prop k v acc = acc ++ [(k, v)].
Proof.
  induction acc as [|[k' v'] acc IH]; cbn [forallb set_prop fst]; [done|].
  intros [Hk Ha]%andb_prop. apply negb_true_iff in Hk. rewrite Hk. cbn [app]. by rewrite IH.
Qed.

Lemma foldl_set_prop_plain ps acc :
  plain_keys ps = true ->
  forallb (fun kv => forallb (fun kv' => negb (String.eqb kv.1 kv'.1)) acc) ps = true ->
  foldl (fun acc kv => set_prop kv.1 kv.2 acc) acc ps = acc ++ ps.
Proof.
  revert acc. induction ps as [|[k v] ps IH]; intros acc; cbn [plain_keys forallb foldl fst snd];
    [by rewrite app_nil_r|].
  intros [[_ Hk]%andb_prop Hp]%andb_prop [Ha Hr]%andb_prop. rewrite set_prop_new by done.
  rewrite IH; [by rewrite <- app_assoc|done|].
  apply forallb_forall. intros [k' v'] Hin. rewrite forallb_app. apply andb_true_intro. split.
  - rewrite forallb_forall in Hr. by apply Hr in Hin.
  - cbn. rewrite andb_true_r. apply negb_true_iff, String.eqb_neq. intros ->.
    rewrite forallb_forall in Hk. apply Hk in Hin. cbn in Hin. by rewrite String.eqb_refl in Hin.
Qed.

(** [JSON.parse] only reorders the members of an object whose keys are
    distinct. *)
Lemma insert_index_perm kv ps : insert_index kv ps ≡ₚ kv :: ps.
Proof.
  induction ps as [|kv' ps IH]; cbn [insert_index]; [done|].
  case_match; [done|]. rewrite IH. apply perm_swap.
Qed.

Lemma order_props_perm ps : order_props ps ≡ₚ ps.
Proof.
  unfold order_props.
  assert (Hf : forall l, foldr insert_index [] l ≡ₚ l).
  { induction l as [|kv l IH]; cbn [foldr]; [done|]. by rewrite insert_index_perm, IH. }
  rewrite Hf. induction ps as [|kv ps IH]; [done|]. cbn [List.filter].
  destruct (is_index_key kv.1); cbn [negb app].
  - by rewrite IH.
  - by rewrite <- Permutation_middle, IH.
Qed.

Lemma foldl_set_prop_distinct ps acc :
  NoDup (map fst (acc ++ ps)) -> foldl (fun acc kv => set_prop kv.1 kv.2 acc) acc ps = acc ++ ps.
Proof.
  revert acc. induction ps as [|[k v] ps IH]; intros acc Hnd; cbn [foldl fst snd]; [by rewrite app_nil_r|].
  rewrite set_prop_new.
  - rewrite IH; [by rewrite <- app_assoc|]. by rewrite <- app_assoc.
  - apply forallb_forall. intros [k' v'] Hin. cbn [fst]. apply negb_true_iff, String.eqb_neq. intros <-.
    rewrite map_app in Hnd. apply NoDup_app in Hnd as (_ & Hdis & _).
    apply (Hdis k); [apply list_elem_of_In, in_map_iff; by exists (k, v')|left].
Qed.

Lemma js_object_perm ps : NoDup (map fst ps) -> js_object ps ≡ₚ ps.
Proof. intros Hnd. unfold js_object. by rewrite order_props_perm, foldl_set_prop_distinct. Qed.

Lemma js_object_plain ps : plain_keys ps = true -> js_object ps = ps.
Proof.
  intros Hp. unfold js_object. rewrite foldl_set_prop_plain by (done || by apply forallb_forall).
  unfold order_props. cbn [app].
  assert (Hn : forallb (fun kv => negb (is_index_key kv.1)) ps = true).
  { induction ps as [|[k v] ps IH]; [done|]. cbn in Hp |- *. apply andb_prop in Hp as [[Hk _]%andb_prop Hp].
    rewrite Hk. by apply IH. }
  rewrite (List.forallb_filter_id _ ps Hn).
  assert (E : List.filter (fun kv => is_index_key kv.1) ps = []).
  { clear Hp. induction ps as [|[k v] ps IH]; [done|]. cbn in Hn |- *. apply andb_prop in Hn as [Hk Hn].
    apply negb_true_iff in Hk. rewrite Hk. by apply IH. }
  by rewrite E.
Qed.

Lemma plain_keys_map (f : Json -> Json) ps :
  plain_keys (map (fun kv => (kv.1, f kv.2)) ps) = plain_keys ps.
Proof.
  induction ps as [|[k v] ps IH]; [done|]. cbn [map plain_keys fst]. rewrite IH. do 2 f_equal.
  clear IH. induction ps as [|[k' v'] ps IH]; [done|]. cbn. by rewrite IH.
Qed.

Lemma exact_decimals v : exact v = true -> decimals v = true.
Proof.
  induction v as [| | [| |] | | xs IH | ps IH] using json_ind'; try done; cbn [exact decimals]; intros H;
    apply forallb_forall; intros x Hx%list_elem_of_In; rewrite Forall_forall in IH;
    apply IH; [done| |done|]; apply forallb_forall with (x := x) in H; auto; by apply list_elem_of_In.
Qed.

(** A printed value is read back whole at the fuel [parse_json] gives. *)
Lemma p_value_print v :
  decimals v = true -> p_value (2 * length (print v) + 1) (print v) = POk (normalize v) [].
Proof.
  intros Hd. destruct (print_reads_back v Hd [] I) as [n Hn]. rewrite app_nil_r in Hn.
  exact (p_value_enough n _ _ _ Hn).
Qed.

(** ** Theorems *)

(** [JSON.parse] always finishes: the fuel [parse_json] gives
    ([2 * length + 1]) never runs out, and no larger fuel changes the
    answer, so [parse_json] is the parser without a bound. *)
Theorem parse_json_fuel l m :
  2 * length l + 1 <= m ->
  p_value (2 * length l + 1) l <> PFuel /\ p_value m l = p_value (2 * length l + 1) l.
Proof.
  intros Hm. pose proof (proj1 (p_fuel (2 * length l + 1)) l ltac:(lia)) as Hf.
  assert (Hnf : p_value (2 * length l + 1) l <> PFuel) by (intros E; by rewrite E in Hf).
  split; [done|]. by apply (p_mono (2 * length l + 1)).
Qed.

Example parse_json_fuel_witness :
  let l := los "[1, {}]" in
  2 * length l + 1 <= 100 /\
  p_value (2 * length l + 1) l <> PFuel /\ p_value 100 l = p_value (2 * length l + 1) l.
Proof. split; [vm_compute; lia|]. apply parse_json_fuel. vm_compute. lia. Defined.

(** [JSON.parse(JSON.stringify(v))] is [normalize v]: strings,
    booleans, [null], finite decimals, arrays and the properties of
    objects come back, [NaN] and the infinities come back as [null], and
    each object is rebuilt with [JSON.parse]'s key order. *)
Theorem parse_stringify v :
  decimals v = true -> parse_json (stringify v) = Some (normalize v).
Proof.
  intros Hd. unfold parse_json, stringify. rewrite String.list_ascii_of_string_of_list_ascii.
  by rewrite p_value_print.
Qed.

Example parse_stringify_witness :
  let v := JObject [("b", JNumber (JNum (Q2Qc (25 # 100)))); ("2", JArray [JString "x"; JNumber JNaN]);
                    ("b", JBool true)] in
  decimals v = true /\ parse_json (stringify v) = Some (normalize v).
Proof. split; [vm_compute; reflexivity|]. apply parse_stringify. vm_compute. reflexivity. Defined.

End JsonCodec.
