(* ===== verification/TextSteps.v ===== *)
(** * The editors of steps 1 and 2 ([FormStep1.tsx], [FormStep2.tsx])

    Both components only forward their inputs to [onChange]: step 1 a
    checkbox and two textareas, step 2 three radio buttons with the fixed
    values ["pain"], ["pleasure"], ["both"] and two textareas. *)

From stdpp Require Import strings.
From S2P Require Import Prelude JsString JsNumber FormData.

Open Scope string_scope.

Module FormStep1.
Import FormData.

(** The checkbox (line 31) and the two textareas (lines 55, 73). *)
Inductive Step1Event : Type :=
| S1_has_decided (checked : bool)
| S1_habits_to_cut (v : string)
| S1_new_version_description (v : string).

Definition step1_handle (ev : Step1Event) (fd : FormData) : FormData :=
  match ev with
  | S1_has_decided b => handleChange (Set_has_decided b) fd
  | S1_habits_to_cut v => handleChange (Set_habits_to_cut v) fd
  | S1_new_version_description v => handleChange (Set_new_version_description v) fd
  end.

End FormStep1.

Module FormStep2.
Import FormData.

(** The three radio buttons of [motivation_fuel] (lines 32-86). *)
Inductive Fuel : Type := Pain | Pleasure | Both.

Definition fuel_value (f : Fuel) : string :=
  match f with Pain => "pain" | Pleasure => "pleasure" | Both => "both" end.

(** A radio button (lines 42, 60, 78) and the two textareas (lines 99, 117). *)
Inductive Step2Event : Type :=
| S2_motivation_fuel (f : Fuel)
| S2_fuel_description (v : string)
| S2_daily_fuel_reminder (v : string).

Definition step2_handle (ev : Step2Event) (fd : FormData) : FormData :=
  match ev with
  | S2_motivation_fuel f => handleChange (Set_motivation_fuel (fuel_value f)) fd
  | S2_fuel_description v => handleChange (Set_fuel_description v) fd
  | S2_daily_fuel_reminder v => handleChange (Set_daily_fuel_reminder v) fd
  end.

End FormStep2.
