(* ===== verification/Wizard.v ===== *)
(** * The step controller of [App.tsx]

    [App] keeps the current step (line 35), the analysis flag, the result,
    the error banner, the key and its input's visibility (lines 36-40),
    and the answer set; the editors of the current step keep their own
    drafts.  [isStepValid] (lines 80-96) gates the Next button (lines
    258-270) and the submit button (lines 272-292); [handleNext] and
    [handlePrevious] (lines 98-108) move between the five steps.

    The user interface is the step function [ui_handle]: it answers
    [None] for an event whose control is not rendered or is disabled.
    Only the current step's editor is mounted (lines 213-217), so a
    change of step drops the drafts of the editor that unmounts, and when
    an analysis is shown (line 183) no control of the wizard is left.

    The invariant [wizard_inv] holds in every reachable state: the step
    is between 1 and 5, every step before the current one is valid, the
    cost total is consistent and the list items are clean.  A consequence
    is that the submit button is enabled only on an answer set whose five
    steps are all valid. *)

From stdpp Require Import gmap strings.
From S2P Require Import Prelude JsString JsNumber FormData CostEditor ListEditor Json TextSteps.

Open Scope string_scope.

Module Wizard.
Import JsNumber FormData CostEditor ListEditor FormStep1 FormStep2 Json.

Definition totalSteps : nat := 5.

(** [isStepValid] with the step as an argument; [&&] on strings and
    numbers is read through their truthiness. *)
Definition isStepValid (currentStep : nat) (fd : FormData) : bool :=
  match currentStep with
  | 1 => fd.(has_decided) && JsString.truthy fd.(habits_to_cut)
         && JsString.truthy fd.(new_version_description)
  | 2 => JsString.truthy fd.(motivation_fuel) && JsString.truthy fd.(fuel_description)
         && JsString.truthy fd.(daily_fuel_reminder)
  | 3 => JsString.truthy fd.(dream_day) && JsString.truthy fd.(dream_week)
         && JsString.truthy fd.(ideal_living)
  | 4 => (0 <? length fd.(daily_focus))%nat && (0 <? length fd.(things_to_cut))%nat
         && JsString.truthy fd.(environment_changes)
  | 5 => JsString.truthy fd.(progress_tracking_method) && (0 <? length fd.(daily_wins))%nat
         && JsString.truthy fd.(daily_planning_routine) && JsString.truthy fd.(action_commitment)
  | _ => false
  end.

Record AppState : Type := mkApp {
  currentStep : nat;
  isAnalyzing : bool;
  analysis : option Json;
  error : string;
  apiKey : string;
  showApiKeyInput : bool;
  formData : FormData;
  step3 : Step3Local;
  step4 : Step4Local;
  step5 : Step5Local
}.

Definition app_initial : AppState :=
  mkApp 1 false None "" "" false initial_form_data step3_initial step4_initial step5_initial.

(** [setCurrentStep]: the editor of the old step unmounts and the new
    one mounts with fresh drafts. *)
Definition set_step (n : nat) (s : AppState) : AppState :=
  mkApp n s.(isAnalyzing) s.(analysis) s.(error) s.(apiKey) s.(showApiKeyInput)
        s.(formData) step3_initial step4_initial step5_initial.

Definition set_editor (fd : FormData) (l3 : Step3Local) (l4 : Step4Local) (l5 : Step5Local)
    (s : AppState) : AppState :=
  mkApp s.(currentStep) s.(isAnalyzing) s.(analysis) s.(error) s.(apiKey)
        s.(showApiKeyInput) fd l3 l4 l5.

Definition set_key_input (show : bool) (key : string) (s : AppState) : AppState :=
  mkApp s.(currentStep) s.(isAnalyzing) s.(analysis) s.(error) key show
        s.(formData) s.(step3) s.(step4) s.(step5).

(** [handleNext] (lines 98-102). *)
Definition handleNext (s : AppState) : AppState :=
  if (s.(currentStep) <? totalSteps)%nat then set_step (S s.(currentStep)) s else s.

(** [handlePrevious] (lines 104-108). *)
Definition handlePrevious (s : AppState) : AppState :=
  if (1 <? s.(currentStep))%nat then set_step (pred s.(currentStep)) s else s.

(** Next is rendered below the last step and disabled unless the step is
    valid (lines 258-261). *)
Definition next_enabled (s : AppState) : bool :=
  (s.(currentStep) <? totalSteps)%nat && isStepValid s.(currentStep) s.(formData).

(** Previous is disabled on step 1 (line 247). *)
Definition previous_enabled (s : AppState) : bool := negb (s.(currentStep) =? 1)%nat.

(** The submit button replaces Next on the last step and is disabled
    while the step is invalid or an analysis runs (line 274). *)
Definition submit_enabled (s : AppState) : bool :=
  negb (s.(currentStep) <? totalSteps)%nat && isStepValid s.(currentStep) s.(formData)
  && negb s.(isAnalyzing).

(** An event of the editor of one step. *)
Inductive EditEvent : Type :=
| E1 (ev : Step1Event)
| E2 (ev : Step2Event)
| E3 (ev : Step3Event)
| E4 (ev : Step4Event)
| E5 (ev : Step5Event).

Definition edit_step (e : EditEvent) : nat :=
  match e with E1 _ => 1 | E2 _ => 2 | E3 _ => 3 | E4 _ => 4 | E5 _ => 5 end%nat.

Definition apply_edit (e : EditEvent) (s : AppState) : AppState :=
  match e with
  | E1 ev => set_editor (step1_handle ev s.(formData)) s.(step3) s.(step4) s.(step5) s
  | E2 ev => set_editor (step2_handle ev s.(formData)) s.(step3) s.(step4) s.(step5) s
  | E3 ev => let '(fd, l3) := step3_handle ev (s.(formData), s.(step3)) in
             set_editor fd l3 s.(step4) s.(step5) s
  | E4 ev => let '(fd, l4) := step4_handle ev (s.(formData), s.(step4)) in
             set_editor fd s.(step3) l4 s.(step5) s
  | E5 ev => let '(fd, l5) := step5_handle ev (s.(formData), s.(step5)) in
             set_editor fd s.(step3) s.(step4) l5 s
  end.

(** The user events of the wizard other than submitting. *)
Inductive UiEvent : Type :=
| Edit (e : EditEvent)
| ClickNext
| ClickPrevious
| ClickEnterKey
| TypeApiKey (v : string).

(** One user event; [None] when its control is absent or disabled. *)
Definition ui_handle (ev : UiEvent) (s : AppState) : option AppState :=
  (* if (analysis) return <ActionPlan ... /> (line 183) *)
  if Json.truthy_opt s.(analysis) then None
  else
    match ev with
    | Edit e => if (s.(currentStep) =? edit_step e)%nat then Some (apply_edit e s) else None
    | ClickNext => if next_enabled s then Some (handleNext s) else None
    | ClickPrevious => if previous_enabled s then Some (handlePrevious s) else None
    | ClickEnterKey =>
        (* the link of lines 296-303 *)
        if negb s.(showApiKeyInput) && (s.(currentStep) =? totalSteps)%nat
        then Some (set_key_input true s.(apiKey) s) else None
    | TypeApiKey v =>
        (* the password input of lines 233-239 *)
        if s.(showApiKeyInput) then Some (set_key_input true v s) else None
    end.

(** A run of user events from a state. *)
Fixpoint run (evs : list UiEvent) (s : AppState) : option AppState :=
  match evs with
  | [] => Some s
  | ev :: rest => match ui_handle ev s with Some s' => run rest s' | None => None end
  end.

Inductive reachable : AppState -> Prop :=
| reach_init : reachable app_initial
| reach_step s ev s' : reachable s -> ui_handle ev s = Some s' -> reachable s'.

(** The invariant of the wizard. *)
Definition prior_steps_valid (s : AppState) : Prop :=
  forall j, (1 <= j < s.(currentStep))%nat -> isStepValid j s.(formData) = true.

Definition wizard_inv (s : AppState) : Prop :=
  (1 <= s.(currentStep) <= totalSteps)%nat /\ prior_steps_valid s
  /\ costs_consistent s.(formData) /\ lists_clean s.(formData).

(** ** The editors and the invariant *)

Lemma apply_edit_fd e s :
  (apply_edit e s).(formData) =
  match e with
  | E1 ev => step1_handle ev s.(formData)
  | E2 ev => step2_handle ev s.(formData)
  | E3 ev => (step3_handle ev (s.(formData), s.(step3))).1
  | E4 ev => (step4_handle ev (s.(formData), s.(step4))).1
  | E5 ev => (step5_handle ev (s.(formData), s.(step5))).1
  end.
Proof.
  destruct e; simpl; [done|done|..];
    match goal with |- context [let '(_, _) := ?p in _] => by destruct p end.
Qed.

Lemma apply_edit_step e s : (apply_edit e s).(currentStep) = s.(currentStep).
Proof.
  destruct e; simpl; [done|done|..];
    match goal with |- context [let '(_, _) := ?p in _] => by destruct p end.
Qed.

(** Close [isStepValid j fd' = isStepValid j fd] for every [j] but the
    edited step, once [fd'] is computed. *)
Ltac valid_frame :=
  intros; rewrite ?handleChange_set;
  match goal with
  | H : ?j <> _ |- isStepValid ?j _ = isStepValid ?j _ =>
      destruct j as [|[|[|[|[|[|?]]]]]]; simpl; congruence
  end.

(** An editor only changes the fields of its own step. *)
Lemma edit_frame e s j :
  j <> edit_step e ->
  isStepValid j (apply_edit e s).(formData) = isStepValid j s.(formData).
Proof.
  rewrite apply_edit_fd. destruct e as [ev|ev|ev|ev|ev]; destruct ev; simpl;
    unfold addCostItem, removeCostItem, handleCurrentExpensesChange,
      addFocusItem, removeFocusItem, addCutItem, removeCutItem, addWinItem, removeWinItem;
    case_bools; simpl; valid_frame.
Qed.

Lemma edit_preserves_costs e s :
  costs_consistent s.(formData) -> costs_consistent (apply_edit e s).(formData).
Proof.
  intros H. rewrite apply_edit_fd.
  destruct e as [ev|ev|ev|ev|ev];
    [destruct ev|destruct ev|by apply step3_preserves_consistent|destruct ev|destruct ev];
    simpl; unfold addFocusItem, removeFocusItem, addCutItem, removeCutItem,
      addWinItem, removeWinItem, costs_consistent in *;
    case_bools; simpl; rewrite ?handleChange_set; exact H.
Qed.

Lemma edit_preserves_clean e s :
  lists_clean s.(formData) -> lists_clean (apply_edit e s).(formData).
Proof.
  intros H. rewrite apply_edit_fd.
  destruct e as [ev|ev|ev|ev|ev];
    [destruct ev|destruct ev|destruct ev|by apply step4_preserves_clean
    |by apply step5_preserves_clean];
    simpl; unfold addCostItem, removeCostItem, handleCurrentExpensesChange, lists_clean in *;
    case_bools; simpl; rewrite ?handleChange_set; exact H.
Qed.

Lemma ui_handle_preserves ev s s' :
  wizard_inv s -> ui_handle ev s = Some s' -> wizard_inv s'.
Proof.
  intros (Hb & Hp & Hc & Hl) Hstep. unfold ui_handle in Hstep.
  destruct (Json.truthy_opt (analysis s)); [discriminate|].
  destruct ev as [e| | | |v].
  - destruct (Nat.eqb_spec (currentStep s) (edit_step e)) as [E|]; [|discriminate].
    injection Hstep as <-. unfold wizard_inv, prior_steps_valid. rewrite apply_edit_step.
    split; [done|]. split; [|split; eauto using edit_preserves_costs, edit_preserves_clean].
    intros j Hj. rewrite edit_frame; [auto|lia].
  - destruct (next_enabled s) eqn:E; [|discriminate]. injection Hstep as <-.
    unfold next_enabled in E. apply andb_true_iff in E as [Hlt Hv]. apply Nat.ltb_lt in Hlt.
    unfold handleNext. case_match; [|exact (conj Hb (conj Hp (conj Hc Hl)))].
    unfold wizard_inv, prior_steps_valid, totalSteps in *. simpl. split; [lia|]. split; [|done].
    intros j Hj. destruct (decide (j = currentStep s)) as [->|?]; [done|].
    apply Hp. lia.
  - destruct (previous_enabled s) eqn:E; [|discriminate]. injection Hstep as <-.
    unfold previous_enabled, handlePrevious in *. apply negb_true_iff, Nat.eqb_neq in E.
    destruct (Nat.ltb_spec 1 (currentStep s)); [|lia].
    unfold wizard_inv, prior_steps_valid, totalSteps in *. simpl.
    split; [lia|]. split; [|done]. intros j Hj. apply Hp. lia.
  - destruct (_ && _); [|discriminate]. injection Hstep as <-. done.
  - destruct (showApiKeyInput s); [|discriminate]. injection Hstep as <-. done.
Qed.

Lemma initial_inv : wizard_inv app_initial.
Proof.
  unfold wizard_inv, prior_steps_valid, totalSteps. simpl.
  split; [lia|]. split; [intros j Hj; lia|].
  split; [apply initial_consistent|apply initial_clean].
Qed.

Lemma reachable_inv s : reachable s -> wizard_inv s.
Proof.
  induction 1; [apply initial_inv|eauto using ui_handle_preserves].
Qed.

Lemma run_reachable evs s s' : reachable s -> run evs s = Some s' -> reachable s'.
Proof.
  revert s. induction evs as [|ev evs IH]; intros s Hs; simpl.
  - by intros [= <-].
  - destruct (ui_handle ev s) as [s1|] eqn:E; [|discriminate].
    intros H. eapply IH; [|exact H]. eapply reach_step; eauto.
Qed.

(** The editors leave the results and the analysing flag alone. *)
Lemma apply_edit_flags e s :
  (apply_edit e s).(analysis) = s.(analysis) /\ (apply_edit e s).(isAnalyzing) = s.(isAnalyzing).
Proof.
  destruct e; simpl; [done|done|..];
    match goal with |- context [let '(_, _) := ?p in _] => by destruct p end.
Qed.

(** No control of the wizard touches the analysing flag. *)
Lemma ui_handle_isAnalyzing ev s s' : ui_handle ev s = Some s' -> s'.(isAnalyzing) = s.(isAnalyzing).
Proof.
  unfold ui_handle. destruct (Json.truthy_opt _); [done|].
  destruct ev; case_match; intros; simplify_eq; try done.
  - apply apply_edit_flags.
  - unfold handleNext. by case_match.
  - unfold handlePrevious. by case_match.
Qed.

(** The requirement of each step as the spec states it: step 1 a checked
    box and two non-empty strings, step 4 two non-empty arrays and a
    non-empty string, and so on. *)
Definition step_requirements (j : nat) (fd : FormData) : Prop :=
  match j with
  | 1 => fd.(has_decided) = true /\ fd.(habits_to_cut) <> "" /\ fd.(new_version_description) <> ""
  | 2 => fd.(motivation_fuel) <> "" /\ fd.(fuel_description) <> "" /\ fd.(daily_fuel_reminder) <> ""
  | 3 => fd.(dream_day) <> "" /\ fd.(dream_week) <> "" /\ fd.(ideal_living) <> ""
  | 4 => fd.(daily_focus) <> [] /\ fd.(things_to_cut) <> [] /\ fd.(environment_changes) <> ""
  | 5 => fd.(progress_tracking_method) <> "" /\ fd.(daily_wins) <> []
         /\ fd.(daily_planning_routine) <> "" /\ fd.(action_commitment) <> ""
  | _ => False
  end%nat.

Lemma length_pos_nonnil {A} (l : list A) : (0 <? length l)%nat = true <-> l <> [].
Proof. destruct l; simpl; split; [discriminate|by intros []|discriminate|done]. Qed.

Lemma isStepValid_requirements j fd : isStepValid j fd = true <-> step_requirements j fd.
Proof.
  destruct j as [|[|[|[|[|[|j]]]]]]; simpl; rewrite ?andb_true_iff,
    ?JsString.truthy_spec, ?length_pos_nonnil; try tauto; split; (discriminate || intros []).
Qed.

(** Under the invariant, an enabled submit button means a complete
    answer set. *)
Lemma inv_submit_valid s :
  wizard_inv s -> submit_enabled s = true ->
  forall j, (1 <= j <= totalSteps)%nat -> step_requirements j s.(formData).
Proof.
  intros (Hb & Hp & _) Hs j Hj. apply isStepValid_requirements.
  unfold submit_enabled, totalSteps in *.
  apply andb_true_iff in Hs as [Hs _]. apply andb_true_iff in Hs as [Hlt Hv].
  apply negb_true_iff, Nat.ltb_ge in Hlt.
  destruct (decide (j = currentStep s)) as [->|?]; [done|]. apply Hp. lia.
Qed.

(** ** Properties of the wizard *)

(** C2. In every reachable state, the submit button is enabled only when
    all five steps of the answer set meet their requirements. *)
Theorem submit_enabled_all_steps_valid s :
  reachable s -> submit_enabled s = true ->
  forall j, (1 <= j <= totalSteps)%nat -> step_requirements j s.(formData).
Proof. intros Hr. apply inv_submit_valid, reachable_inv, Hr. Qed.

(** C32. In every reachable state, every step before the current one meets
    its requirements: a step can be left forward only when valid, and its
    fields can be edited only while it is the current step. *)
Theorem reachable_prior_steps_valid s :
  reachable s -> forall j, (1 <= j < s.(currentStep))%nat -> step_requirements j s.(formData).
Proof.
  intros Hr j Hj. apply isStepValid_requirements.
  by apply (reachable_inv s Hr).
Qed.

(** The current step always stays between 1 and [totalSteps] = 5. *)
Theorem reachable_step_bounds s :
  reachable s -> (1 <= s.(currentStep) <= totalSteps)%nat.
Proof. intros Hr. apply (reachable_inv s Hr). Qed.

(** C33. In every reachable state, [dream_expenses] is the total of the
    current [monthly_costs] items. *)
Theorem reachable_costs_consistent s :
  reachable s -> s.(formData).(dream_expenses) = total_costs s.(formData).(monthly_costs).
Proof. intros Hr. apply (reachable_inv s Hr). Qed.

(** In every reachable state, the items of [daily_focus],
    [things_to_cut] and [daily_wins] are all trimmed and non-empty. *)
Theorem reachable_lists_clean s :
  reachable s -> lists_clean s.(formData).
Proof. intros Hr. apply (reachable_inv s Hr). Qed.

(** Below the last step, Next is enabled exactly when the current
    step meets its requirements. *)
Theorem next_enabled_iff s :
  (s.(currentStep) < totalSteps)%nat ->
  next_enabled s = true <-> step_requirements s.(currentStep) s.(formData).
Proof.
  intros H. unfold next_enabled. apply Nat.ltb_lt in H. rewrite H. simpl.
  apply isStepValid_requirements.
Qed.

(** ** A complete session, used by the witnesses *)

Definition demo_events : list UiEvent := [
  Edit (E1 (S1_has_decided true)); Edit (E1 (S1_habits_to_cut "late nights"));
  Edit (E1 (S1_new_version_description "early riser")); ClickNext;
  Edit (E2 (S2_motivation_fuel Pleasure)); Edit (E2 (S2_fuel_description "freedom"));
  Edit (E2 (S2_daily_fuel_reminder "journal")); ClickNext;
  Edit (E3 (S3_dream_day "beach")); Edit (E3 (S3_dream_week "four days"));
  Edit (E3 (S3_ideal_living "house")); Edit (E3 (S3_newCostItem "Mortgage"));
  Edit (E3 (S3_newCostAmount "2000")); Edit (E3 S3_addCostItem);
  Edit (E3 (S3_current_expenses "6000")); ClickNext;
  Edit (E4 (S4_newFocusItem " deep work ")); Edit (E4 S4_addFocusItem);
  Edit (E4 (S4_newCutItem "scrolling")); Edit (E4 S4_addCutItem);
  Edit (E4 (S4_environment_changes "quiet desk")); ClickNext;
  Edit (E5 (S5_progress_tracking_method "checklist")); Edit (E5 (S5_newWinItem "workout"));
  Edit (E5 S5_addWinItem); Edit (E5 (S5_daily_planning_routine "evening review"));
  Edit (E5 (S5_action_commitment "act first"))
].

Definition demo_state : AppState :=
  match run demo_events app_initial with Some s => s | None => app_initial end.

Lemma demo_state_reachable : reachable demo_state.
Proof.
  apply (run_reachable demo_events app_initial); [constructor|].
  unfold demo_state. destruct (run demo_events app_initial) eqn:E; [done|].
  vm_compute in E. discriminate.
Qed.

Example submit_enabled_all_steps_valid_witness :
  reachable demo_state /\ submit_enabled demo_state = true
  /\ step_requirements 1 demo_state.(formData).
Proof.
  split; [apply demo_state_reachable|]. split; [vm_compute; reflexivity|].
  apply (submit_enabled_all_steps_valid demo_state demo_state_reachable
           ltac:(vm_compute; reflexivity) 1).
  unfold totalSteps. lia.
Defined.

Example reachable_prior_steps_valid_witness :
  reachable demo_state /\ (1 <= 4 < demo_state.(currentStep))%nat
  /\ step_requirements 4 demo_state.(formData).
Proof.
  assert (H : demo_state.(currentStep) = 5%nat) by (vm_compute; reflexivity).
  split; [apply demo_state_reachable|]. split; [rewrite H; lia|].
  apply (reachable_prior_steps_valid demo_state demo_state_reachable 4). rewrite H; lia.
Defined.

Example reachable_step_bounds_witness :
  reachable demo_state /\ (1 <= demo_state.(currentStep) <= totalSteps)%nat.
Proof.
  split; [apply demo_state_reachable|].
  apply (reachable_step_bounds demo_state demo_state_reachable).
Defined.

Example reachable_costs_consistent_witness :
  reachable demo_state
  /\ demo_state.(formData).(dream_expenses) = total_costs demo_state.(formData).(monthly_costs).
Proof.
  split; [apply demo_state_reachable|].
  apply (reachable_costs_consistent demo_state demo_state_reachable).
Defined.

Example reachable_lists_clean_witness :
  reachable demo_state /\ lists_clean demo_state.(formData).
Proof.
  split; [apply demo_state_reachable|].
  apply (reachable_lists_clean demo_state demo_state_reachable).
Defined.

Example next_enabled_iff_witness :
  (app_initial.(currentStep) < totalSteps)%nat /\ next_enabled app_initial = false
  /\ ~ step_requirements app_initial.(currentStep) app_initial.(formData).
Proof.
  split; [unfold totalSteps; simpl; lia|]. split; [reflexivity|].
  intros H. apply (next_enabled_iff app_initial) in H; [discriminate|].
  unfold totalSteps; simpl; lia.
Defined.

End Wizard.
