(* ===== verification/JsonExtract.v ===== *)
(** * The JSON block extraction of the relay

    [analysisText.match(/\{[\s\S]*\}/)] (analyze-plan/index.ts line 148)
    returns the first match of the pattern, or [null].  [regex_match]
    follows the ECMAScript matcher for this pattern: the engine tries the
    start positions from left to right; at a [{] the greedy
    [[\s\S]*] first takes every remaining character and gives them back
    one at a time until the following [\}] matches.

    [first_last] is the description the spec gives of the result: the
    text from the first [{] to the last [}], when that [}] comes after the
    [{].  [regex_match_first_last] proves the two equal. *)

From Stdlib Require Import Ascii.
From stdpp Require Import strings.
From S2P Require Import Prelude JsString.

Local Open Scope list_scope.

Module JsonExtract.

Definition is_open (c : ascii) : bool := Ascii.eqb c "{"%char.
Definition is_close (c : ascii) : bool := Ascii.eqb c "}"%char.

(** ** The backtracking matcher *)

(** [\}] at position [k]. *)
Definition close_at (rest : list ascii) (k : nat) : bool :=
  match rest !! k with Some c => is_close c | None => false end.

(** After the [{]: try [k], [k-1], ..., [0] characters for [[\s\S]*]
    and return the first count after which [\}] matches. *)
Fixpoint greedy_close (rest : list ascii) (k : nat) : option nat :=
  if close_at rest k then Some k
  else match k with
       | 0 => None
       | S k' => greedy_close rest k'
       end.

(** The length of the match starting at the head of [l], if any. *)
Definition match_at (l : list ascii) : option nat :=
  match l with
  | c :: rest =>
      if is_open c then
        match greedy_close rest (length rest) with
        | Some k => Some (k + 2)
        | None => None
        end
      else None
  | [] => None
  end.

(** The engine's scan: start positions [i], [i+1], ... *)
Fixpoint scan (l : list ascii) (i : nat) : option (nat * nat) :=
  match match_at l with
  | Some n => Some (i, n)
  | None => match l with [] => None | _ :: r => scan r (S i) end
  end.

(** [text.match(/\{[\s\S]*\}/)]: the matched text, [None] for [null]. *)
Definition regex_match (text : string) : option string :=
  let l := String.list_ascii_of_string text in
  match scan l 0 with
  | Some (i, n) => Some (String.string_of_list_ascii (take n (drop i l)))
  | None => None
  end.

(** ** First [{] to last [}] *)

Fixpoint first_index (p : ascii -> bool) (l : list ascii) : option nat :=
  match l with
  | [] => None
  | c :: r => if p c then Some 0 else S <$> first_index p r
  end.

Fixpoint last_index (p : ascii -> bool) (l : list ascii) : option nat :=
  match l with
  | [] => None
  | c :: r =>
      match last_index p r with
      | Some j => Some (S j)
      | None => if p c then Some 0 else None
      end
  end.

Definition first_last (text : string) : option string :=
  let l := String.list_ascii_of_string text in
  match first_index is_open l, last_index is_close l with
  | Some i, Some j => if (i <? j)%nat then Some (String.string_of_list_ascii (take (S (j - i)) (drop i l)))
                      else None
  | _, _ => None
  end.

(** ** The matcher is "first [{] to last [}]" *)

Lemma last_index_snoc p xs x :
  last_index p (xs ++ [x]) = if p x then Some (length xs) else last_index p xs.
Proof.
  induction xs as [|y r IH]; simpl; [by destruct (p x)|].
  rewrite IH. destruct (p x), (last_index p r); done.
Qed.

(** Greedy backtracking from [k] finds the last [}] among the first
    [k+1] characters. *)
Lemma greedy_close_last rest k :
  greedy_close rest k = last_index is_close (take (S k) rest).
Proof.
  induction k as [|k IH]; simpl greedy_close; unfold close_at.
  - destruct rest as [|c r]; simpl; [done|]. by destruct (is_close c).
  - destruct (rest !! S k) as [c|] eqn:E.
    + rewrite (take_S_r _ _ c E), last_index_snoc, <- IH.
      rewrite length_take_le by (apply lookup_lt_Some in E; lia). done.
    + apply lookup_ge_None in E. rewrite IH, !take_ge by lia. done.
Qed.

Lemma match_at_open rest :
  match_at ("{"%char :: rest) = (fun k => k + 2) <$> last_index is_close rest.
Proof.
  simpl. rewrite greedy_close_last, take_ge by lia.
  by destruct (last_index is_close rest).
Qed.

(** The index pair of the first [{] and the length up to the last [}]. *)
Definition first_last_pair (l : list ascii) : option (nat * nat) :=
  match first_index is_open l, last_index is_close l with
  | Some i, Some j => if (i <? j)%nat then Some (i, S (j - i)) else None
  | _, _ => None
  end.

Lemma open_not_close c : is_open c = true -> is_close c = false.
Proof. unfold is_open, is_close. intros H. apply Ascii.eqb_eq in H as ->. done. Qed.

Lemma scan_first_last_pair l i0 :
  scan l i0 = (fun '(i, n) => (i0 + i, n)) <$> first_last_pair l.
Proof.
  revert i0. induction l as [|c r IH]; intros i0; [done|].
  change (scan (c :: r) i0) with
    (match match_at (c :: r) with Some n => Some (i0, n) | None => scan r (S i0) end).
  unfold first_last_pair. simpl first_index. simpl last_index.
  destruct (is_open c) eqn:Ho.
  - replace c with "{"%char by (by apply Ascii.eqb_eq in Ho).
    rewrite match_at_open. simpl.
    destruct (last_index is_close r) as [b|] eqn:Eb; simpl.
    + f_equal. f_equal; lia.
    + rewrite IH. unfold first_last_pair. rewrite Eb.
      by destruct (first_index is_open r).
  - assert (match_at (c :: r) = None) as -> by (simpl; by rewrite Ho).
    rewrite IH. unfold first_last_pair.
    destruct (first_index is_open r) as [a|]; simpl; [|by destruct (last_index is_close r), (is_close c)].
    destruct (last_index is_close r) as [j|]; simpl.
    + destruct (Nat.ltb_spec a j), (Nat.ltb_spec (S a) (S j)); simpl; try lia; [|done].
      do 2 f_equal; lia.
    + by destruct (is_close c).
Qed.

Lemma first_index_app_none p xs ys :
  existsb p xs = false -> first_index p (xs ++ ys) = (fun i => length xs + i) <$> first_index p ys.
Proof.
  induction xs as [|x r IH]; simpl; [by destruct (first_index p ys)|].
  rewrite orb_false_iff. intros [-> H]. rewrite IH by done.
  by destruct (first_index p ys).
Qed.

Lemma last_index_app_none p xs ys :
  existsb p ys = false -> last_index p (xs ++ ys) = last_index p xs.
Proof.
  intros H. induction xs as [|x r IH]; simpl.
  - induction ys as [|y r' IH']; simpl in *; [done|].
    apply orb_false_iff in H as [-> H]. by rewrite IH'.
  - by rewrite IH.
Qed.

(** C9. The JavaScript match of [/\{[\s\S]*\}/] (leftmost start,
    greedy star with backtracking) is exactly the text from the first
    [{] to the last [}], and [null] when no [}] follows the first [{]. *)
Theorem regex_match_first_last text : regex_match text = first_last text.
Proof.
  unfold regex_match, first_last. rewrite scan_first_last_pair.
  unfold first_last_pair.
  destruct (first_index is_open (String.list_ascii_of_string text)) as [i|],
    (last_index is_close (String.list_ascii_of_string text)) as [j|]; simpl; try done.
  by destruct (i <? j)%nat.
Qed.

Lemma first_last_pair_block P M Sfx :
  existsb is_open P = false -> existsb is_close Sfx = false ->
  first_last_pair (P ++ "{"%char :: M ++ "}"%char :: Sfx) = Some (length P, length M + 2).
Proof.
  intros Hp Hs. unfold first_last_pair.
  rewrite first_index_app_none by done. simpl.
  replace (P ++ "{"%char :: M ++ "}"%char :: Sfx)
    with ((P ++ "{"%char :: M ++ ["}"%char]) ++ Sfx) by (rewrite <- app_assoc; simpl; by rewrite <- app_assoc).
  rewrite last_index_app_none by done.
  rewrite app_comm_cons, app_assoc, last_index_snoc. simpl.
  rewrite length_app. simpl.
  destruct (Nat.ltb_spec (length P + 0) (length P + S (length M))); [|lia].
  do 2 f_equal; lia.
Qed.

Lemma string_of_block mid :
  String.string_of_list_ascii ("{"%char :: String.list_ascii_of_string mid ++ ["}"%char])
  = "{" +:+ mid +:+ "}".
Proof.
  rewrite <- (String.string_of_list_ascii_of_string ("{" +:+ mid +:+ "}")).
  f_equal. rewrite !JsString.list_ascii_of_string_app. reflexivity.
Qed.

(** A reply made of prose without [{], one block [{...}] (which may
    contain any braces) and prose without [}] yields exactly that block. *)
Lemma regex_match_block prefix mid suffix :
  existsb is_open (String.list_ascii_of_string prefix) = false ->
  existsb is_close (String.list_ascii_of_string suffix) = false ->
  regex_match (prefix +:+ "{" +:+ mid +:+ "}" +:+ suffix) = Some ("{" +:+ mid +:+ "}").
Proof.
  intros Hp Hs. unfold regex_match.
  rewrite !JsString.list_ascii_of_string_app. simpl.
  rewrite scan_first_last_pair, first_last_pair_block by done. simpl.
  rewrite drop_app_length.
  set (M := String.list_ascii_of_string mid). set (Sfx := String.list_ascii_of_string suffix).
  replace ("{"%char :: M ++ "}"%char :: Sfx) with (("{"%char :: M ++ ["}"%char]) ++ Sfx)
    by (simpl; by rewrite <- app_assoc).
  rewrite take_app_length' by (simpl; rewrite length_app; simpl; lia).
  apply (f_equal Some), string_of_block.
Qed.

(** ** Witnesses *)

Example regex_match_block_witness :
  existsb is_open (String.list_ascii_of_string "Here is your plan: ") = false
  /\ existsb is_close (String.list_ascii_of_string " Good luck.") = false
  /\ regex_match ("Here is your plan: " +:+ "{" +:+ "a: {b: 1}" +:+ "}" +:+ " Good luck.")
     = Some ("{" +:+ "a: {b: 1}" +:+ "}").
Proof.
  split; [reflexivity|]. split; [reflexivity|].
  apply regex_match_block; reflexivity.
Defined.

(** Two blocks in one reply: the match runs from the first [{] to the
    last [}] and takes the prose between them. *)
Example regex_match_two_blocks :
  regex_match "see {a:1} and {b:2} ok" = Some "{a:1} and {b:2}".
Proof. reflexivity. Qed.

End JsonExtract.
