(* ===== verification/Relay.v ===== *)
(** * The enrichment relay ([supabase/functions/analyze-plan/index.ts])

    The edge function answers a preflight [OPTIONS] with the CORS headers
    (lines 33-39) and otherwise runs one [try] block (lines 41-167):
    parse the body, check the key, build the prompt (lines 54-113), call
    the text-generation API once (lines 115-132), forward an upstream
    error (lines 134-143), read [data.content[0].text] (lines 145-146),
    extract the first [{...}] block (line 148), answer 500 when there is
    none (lines 149-157), parse it and answer 200 (lines 159-167).  Any
    exception lands in the [catch] of lines 168-176 and becomes a 500
    with the exception's message.

    [handler] returns the response together with the list of outbound
    requests it made, so that the number and content of the calls to the
    external service are part of what the theorems state.  The external
    service is the argument [upstream]; [JSON.parse], number formatting
    and exception messages come from the [JsRuntime] interface. *)

From Stdlib Require Import ZArith Ascii QArith Qcanon.
From stdpp Require Import strings.
From S2P Require Import Prelude JsString JsNumber Json JsonExtract.

Open Scope string_scope.

Module Relay.
Import JsNumber Json JsonExtract.

(** [corsHeaders] (lines 3-7). *)
Definition corsHeaders : list (string * string) := [
  ("Access-Control-Allow-Origin", "*");
  ("Access-Control-Allow-Methods", "POST, OPTIONS");
  ("Access-Control-Allow-Headers", "Content-Type, Authorization, X-Client-Info, Apikey")
].

Definition jsonHeaders : list (string * string) :=
  (corsHeaders ++ [("Content-Type", "application/json")])%list.

(** [interface PlanData] (lines 9-31): the type the handler declares for
    the [planData] it reads.  TypeScript erases it, so nothing checks it
    at run time; [plan_data_typed] states it of a JSON value. *)
Inductive JsonType : Type := TBoolean | TString | TNumber | TStringArray | TNumberRecord.

Definition PlanData : list (string * JsonType) := [
  ("has_decided", TBoolean); ("habits_to_cut", TString); ("new_version_description", TString);
  ("motivation_fuel", TString); ("fuel_description", TString); ("daily_fuel_reminder", TString);
  ("dream_day", TString); ("dream_week", TString); ("ideal_living", TString);
  ("monthly_costs", TNumberRecord); ("current_expenses", TNumber); ("dream_expenses", TNumber);
  ("financial_gap", TNumber); ("daily_focus", TStringArray); ("things_to_cut", TStringArray);
  ("environment_changes", TString); ("progress_tracking_method", TString); ("daily_wins", TStringArray);
  ("daily_planning_routine", TString); ("action_commitment", TString); ("additional_thoughts", TString)
].

Definition is_json_string (v : Json) : bool := match v with JString _ => true | _ => false end.
Definition is_json_number (v : Json) : bool := match v with JNumber _ => true | _ => false end.

Definition has_type (t : JsonType) (v : option Json) : bool :=
  match t, v with
  | TBoolean, Some (JBool _) | TString, Some (JString _) | TNumber, Some (JNumber _) => true
  | TStringArray, Some (JArray xs) => forallb is_json_string xs
  | TNumberRecord, Some (JObject ps) => forallb (fun kv => is_json_number kv.2) ps
  | _, _ => false
  end.

Definition plan_data_typed (pd : Json) : bool :=
  forallb (fun kt => has_type kt.2 (get kt.1 pd)) PlanData.

Record Request : Type := mkRequest { req_method : string; req_body : string }.

Record Response : Type := mkResponse {
  res_status : Z;
  res_headers : list (string * string);
  res_body : option Json
}.

(** The request the relay sends to the text-generation service. *)
Record Outbound : Type := mkOutbound {
  out_url : string;
  out_headers : list (string * string);
  out_body : Json
}.

(** What [fetch] gives back: a rejection or a response with its status
    and body text. *)
Inductive FetchResult : Type :=
| FetchRejected (e : Exn)
| FetchResolved (status : Z) (text : string).

(** [response.ok] *)
Definition response_ok (status : Z) : bool := (200 <=? status)%Z && (status <=? 299)%Z.

(** [new Response(JSON.stringify({ error: msg }), { status, headers })] *)
Definition error_response (status : Z) (msg : string) : Response :=
  mkResponse status jsonHeaders (Some (JObject [("error", JString msg)])).

Definition dq : string := String (ascii_of_nat 34) EmptyString.
Definition quoted (s : string) : string := dq +:+ s +:+ dq.
Definition nl : string := String (ascii_of_nat 10) EmptyString.

Fixpoint lines (ls : list string) : string :=
  match ls with
  | [] => ""
  | [l] => l
  | l :: rest => l +:+ nl +:+ lines rest
  end.

Section Handler.
Context `{JsRuntime}.

(** [String(v)] of a JSON value, as a template literal does it; an array
    is joined with [","] and its [null] items become [""]. *)
Fixpoint to_js_string (v : Json) : string :=
  match v with
  | JNull => "null"
  | JBool b => if b then "true" else "false"
  | JNumber n => number_to_string n
  | JString s => s
  | JArray items =>
      JsString.join "," (map (fun x => match x with JNull => "" | _ => to_js_string x end) items)
  | JObject _ => "[object Object]"
  end.

(** [${v}] where [v] may be [undefined]. *)
Definition interp (v : option Json) : string :=
  match v with None => "undefined" | Some x => to_js_string x end.

(** [${v?.join(', ')}]: [undefined] for a nullish [v], a [TypeError] for
    a value without [join]. *)
Definition join_opt (v : option Json) : Exn + string :=
  match v with
  | None | Some JNull => inr "undefined"
  | Some (JArray items) =>
      inr (JsString.join ", " (map (fun x => match x with JNull => "" | _ => to_js_string x end) items))
  | Some _ => inl (ExnNotFunction "join")
  end.

(** The prompt of lines 54-113 for the answer set [p]. *)
Definition prompt_text (p : Json) (focus cut wins : string) : string :=
  let f k := interp (get k p) in
  lines [
  "You are an expert life coach and strategist analyzing a comprehensive life plan based on Sabri Suby's "
    +:+ quoted "Ambitious But Lazy"
    +:+ " framework. Your task is to provide a detailed, personalized action plan.";
  "";
  "Here is the user's complete plan:";
  "";
  "## 1. DECISION MAKING";
  "- Has decided: " +:+ (if truthy_opt (get "has_decided" p) then "Yes" else "No");
  "- Habits to cut off: " +:+ f "habits_to_cut";
  "- New version description: " +:+ f "new_version_description";
  "";
  "## 2. MOTIVATION FUEL";
  "- Fuel type: " +:+ f "motivation_fuel";
  "- Fuel description: " +:+ f "fuel_description";
  "- Daily reminder method: " +:+ f "daily_fuel_reminder";
  "";
  "## 3. DREAM LIFE SUMMARY";
  "- Dream day: " +:+ f "dream_day";
  "- Dream week: " +:+ f "dream_week";
  "- Ideal living: " +:+ f "ideal_living";
  "- Current expenses: $" +:+ f "current_expenses" +:+ "/month";
  "- Dream expenses: $" +:+ f "dream_expenses" +:+ "/month";
  "- Financial gap: $" +:+ f "financial_gap" +:+ "/month";
  "";
  "## 4. FOCUS & ENVIRONMENT";
  "- Daily focus areas: " +:+ focus;
  "- Things to cut out: " +:+ cut;
  "- Environment changes: " +:+ f "environment_changes";
  "";
  "## 5. MOMENTUM BUILDING";
  "- Progress tracking: " +:+ f "progress_tracking_method";
  "- Daily wins to celebrate: " +:+ wins;
  "- Daily planning routine: " +:+ f "daily_planning_routine";
  "- Action commitment: " +:+ f "action_commitment";
  "";
  "## ADDITIONAL THOUGHTS";
  f "additional_thoughts";
  "";
  "Based on this comprehensive information, provide a detailed analysis in the following JSON format:";
  "";
  "{";
  "  " +:+ quoted "win_ticker" +:+ ": [" +:+ quoted "array of 5-7 quick daily wins to track" +:+ "],";
  "  " +:+ quoted "dream_life_summary" +:+ ": "
    +:+ quoted "A compelling 2-3 paragraph synthesis of their dream life vision" +:+ ",";
  "  " +:+ quoted "focus_areas" +:+ ": ["
    +:+ quoted "array of 3-5 main areas they must focus on with specific actions" +:+ "],";
  "  " +:+ quoted "cut_out_items" +:+ ": ["
    +:+ quoted "array of 3-5 specific things they must eliminate (decidere - to cut off)" +:+ "],";
  "  " +:+ quoted "action_steps" +:+ ": {";
  "    " +:+ quoted "week_1" +:+ ": [" +:+ quoted "specific actions for week 1" +:+ "],";
  "    " +:+ quoted "month_1" +:+ ": [" +:+ quoted "specific milestones for month 1" +:+ "],";
  "    " +:+ quoted "month_3" +:+ ": [" +:+ quoted "specific milestones for month 3" +:+ "],";
  "    " +:+ quoted "month_6" +:+ ": [" +:+ quoted "specific milestones for month 6" +:+ "]";
  "  },";
  "  " +:+ quoted "momentum_strategy" +:+ ": "
    +:+ quoted "Detailed paragraph on how to build and maintain momentum" +:+ ",";
  "  " +:+ quoted "environment_blueprint" +:+ ": "
    +:+ quoted "Detailed paragraph on how to engineer their environment for success" +:+ ",";
  "  " +:+ quoted "decision_analysis" +:+ ": "
    +:+ quoted "Analysis of their commitment level and what cutting off the old self really means" +:+ ",";
  "  " +:+ quoted "fuel_strategy" +:+ ": " +:+ quoted "How to leverage their pain/pleasure fuel daily" +:+ ",";
  "  " +:+ quoted "financial_roadmap" +:+ ": "
    +:+ quoted ("Specific strategy to close the $" +:+ f "financial_gap" +:+ "/month gap") +:+ ",";
  "  " +:+ quoted "key_insights" +:+ ": ["
    +:+ quoted "array of 3-5 powerful insights based on their specific situation" +:+ "],";
  "  " +:+ quoted "potential_obstacles" +:+ ": ["
    +:+ quoted "array of 3-4 likely obstacles and how to overcome them" +:+ "],";
  "  " +:+ quoted "accountability_system" +:+ ": "
    +:+ quoted "Recommended accountability and tracking system";
  "}";
  "";
  "Be specific, actionable, and motivating. Reference their exact goals and situation."
  ].

(** Evaluating the template: reading [planData.has_decided] throws when
    [planData] is [undefined] or [null]; the three [?.join(', ')] are
    evaluated in order. *)
Definition build_prompt (planData : option Json) : Exn + string :=
  match planData with
  | None | Some JNull => inl (ExnReadProp planData "has_decided")
  | Some p =>
      match join_opt (get "daily_focus" p) with
      | inl e => inl e
      | inr focus =>
          match join_opt (get "things_to_cut" p) with
          | inl e => inl e
          | inr cut =>
              match join_opt (get "daily_wins" p) with
              | inl e => inl e
              | inr wins => inr (prompt_text p focus cut wins)
              end
          end
      end
  end.

(** The [fetch] of lines 115-132. *)
Definition outbound_request (apiKey : string) (prompt : string) : Outbound :=
  mkOutbound "https://api.anthropic.com/v1/messages"
    [("Content-Type", "application/json"); ("x-api-key", apiKey);
     ("anthropic-version", "2023-06-01")]
    (JObject [("model", JString "claude-3-7-sonnet-20250219");
              ("max_tokens", JNumber (JNum (Q2Qc (4096 # 1))));
              ("messages", JArray [JObject [("role", JString "user"); ("content", JString prompt)]])]).

(** [x[0]]: an array's first item, a string's first character, an
    object's property ["0"]. *)
Definition elem0 (v : Json) : option Json :=
  match v with
  | JArray items => head items
  | JString (String c _) => Some (JString (String c EmptyString))
  | JObject _ => get "0" v
  | _ => None
  end.

(** [obj.key], throwing on [undefined] and [null]. *)
Definition read_prop (v : option Json) (key : string) : Exn + option Json :=
  match v with
  | None | Some JNull => inl (ExnReadProp v key)
  | Some x => inr (get key x)
  end.

(** [data.content[0].text] (line 146). *)
Definition content_text (data : Json) : Exn + option Json :=
  match read_prop (Some data) "content" with
  | inl e => inl e
  | inr content =>
      match content with
      | None | Some JNull => inl (ExnReadProp content "0")
      | Some c => read_prop (elem0 c) "text"
      end
  end.

(** The reply once the upstream answered with a success status:
    lines 145-167. *)
Definition handle_reply (text : string) : Exn + Response :=
  match json_parse text with
  | None => inl (ExnParse text)
  | Some data =>
      match content_text data with
      | inl e => inl e
      | inr (Some (JString analysisText)) =>
          match regex_match analysisText with
          | None => inr (error_response 500 "Could not parse AI response")
          | Some m =>
              match json_parse m with
              | None => inl (ExnParse m)
              | Some analysis => inr (mkResponse 200 jsonHeaders (Some (JObject [("analysis", analysis)])))
              end
          end
      | inr t =>
          match t with
          | None | Some JNull => inl (ExnReadProp t "match")
          | Some _ => inl (ExnNotFunction "match")
          end
      end
  end.

(** The [try] block of lines 41-167, with the outbound requests made. *)
Definition try_block (upstream : Outbound -> FetchResult) (req : Request)
    : (Exn + Response) * list Outbound :=
  match json_parse req.(req_body) with
  | None => (inl (ExnParse req.(req_body)), [])
  | Some JNull => (inl ExnDestructure, [])
  | Some body =>
      let planData := get "planData" body in
      let anthropicApiKey := get "anthropicApiKey" body in
      if negb (truthy_opt anthropicApiKey) then
        (inr (error_response 400 "Anthropic API key is required"), [])
      else
        match build_prompt planData with
        | inl e => (inl e, [])
        | inr prompt =>
            let out := outbound_request (interp anthropicApiKey) prompt in
            match upstream out with
            | FetchRejected e => (inl e, [out])
            | FetchResolved st text =>
                if negb (response_ok st) then
                  (inr (error_response st ("Claude API error: " +:+ text)), [out])
                else (handle_reply text, [out])
            end
        end
  end.

(** The whole handler of [Deno.serve] (lines 33-176). *)
Definition handler (upstream : Outbound -> FetchResult) (req : Request) : Response * list Outbound :=
  if String.eqb req.(req_method) "OPTIONS" then (mkResponse 200 corsHeaders None, [])
  else
    match try_block upstream req with
    | (inl e, outs) => (error_response 500 (exn_message e), outs)
    | (inr r, outs) => (r, outs)
    end.

End Handler.

(** ** Lemmas *)

Section Lemmas.
Context `{JsRuntime}.

(** The path ups to the single call: a JSON body that is not [null], a
    truthy key and a prompt that evaluates.  The handler then makes
    exactly that call and its answer decides the rest. *)
Lemma try_block_upstream ups req body prompt :
  json_parse req.(req_body) = Some body -> body <> JNull ->
  truthy_opt (get "anthropicApiKey" body) = true ->
  build_prompt (get "planData" body) = inr prompt ->
  try_block ups req =
    (match ups (outbound_request (interp (get "anthropicApiKey" body)) prompt) with
     | FetchRejected e => inl e
     | FetchResolved st text =>
         if negb (response_ok st) then inr (error_response st ("Claude API error: " +:+ text))
         else handle_reply text
     end, [outbound_request (interp (get "anthropicApiKey" body)) prompt]).
Proof.
  intros Hp Hn Ht Hb. unfold try_block. rewrite Hp.
  destruct body; [congruence|..].
  all: cbv beta iota zeta; rewrite ?Ht, Hb; cbv beta iota zeta delta [negb].
  all: by repeat case_match.
Qed.

Lemma handler_not_options ups req :
  String.eqb req.(req_method) "OPTIONS" = false ->
  handler ups req = match try_block ups req with
                   | (inl e, outs) => (error_response 500 (exn_message e), outs)
                   | (inr r, outs) => (r, outs)
                   end.
Proof. intros Hm. unfold handler. by rewrite Hm. Qed.

Lemma handle_reply_block text data prefix mid suffix a :
  json_parse text = Some data ->
  content_text data = inr (Some (JString (prefix +:+ "{" +:+ mid +:+ "}" +:+ suffix))) ->
  existsb is_open (String.list_ascii_of_string prefix) = false ->
  existsb is_close (String.list_ascii_of_string suffix) = false ->
  json_parse ("{" +:+ mid +:+ "}") = Some a ->
  handle_reply text = inr (mkResponse 200 jsonHeaders (Some (JObject [("analysis", a)]))).
Proof.
  intros Hp Hc Hpre Hsuf Ha. unfold handle_reply. rewrite Hp, Hc.
  by rewrite regex_match_block, Ha.
Qed.

Lemma handle_reply_status text r :
  handle_reply text = inr r -> r.(res_status) = 200%Z \/ r.(res_status) = 500%Z.
Proof. unfold handle_reply. intros E. repeat case_match; simplify_eq; auto. Qed.

(** Past the preflight, the relay answers either 200 with the analysis or
    a non-success status with an error message. *)
Lemma handler_response_shape ups req :
  String.eqb req.(req_method) "OPTIONS" = false ->
  (exists a, (handler ups req).1 = mkResponse 200 jsonHeaders (Some (JObject [("analysis", a)])))
  \/ (exists st msg, (handler ups req).1 = error_response st msg /\ response_ok st = false).
Proof.
  intros Hm. rewrite handler_not_options by done. unfold try_block, handle_reply.
  repeat case_match; simplify_eq/=;
    first [left; by eexists | right; eexists _, _; split; [reflexivity|by try apply negb_true_iff]].
Qed.

(** ** Properties of the relay *)

(** Preflight: an [OPTIONS] request gets status 200 with the CORS
    headers and no body, and no call is made. *)
Theorem relay_options ups body :
  handler ups (mkRequest "OPTIONS" body) = (mkResponse 200 corsHeaders None, []).
Proof. reflexivity. Qed.

(** C3. A request whose key is missing or falsy gets 400 with
    ["Anthropic API key is required"], and the external service is
    never called. *)
Theorem relay_missing_key ups req body :
  String.eqb req.(req_method) "OPTIONS" = false ->
  json_parse req.(req_body) = Some body -> body <> JNull ->
  truthy_opt (get "anthropicApiKey" body) = false ->
  handler ups req
  = (mkResponse 400 jsonHeaders (Some (JObject [("error", JString "Anthropic API key is required")])), []).
Proof.
  intros Hm Hp Hn Hk. rewrite handler_not_options by done. unfold try_block. rewrite Hp.
  destruct body; [congruence|..]; cbv beta iota zeta; by rewrite Hk.
Qed.

(** A body that is not JSON gets 500 with the parser's message, and
    no call is made. *)
Theorem relay_invalid_body ups req :
  String.eqb req.(req_method) "OPTIONS" = false ->
  json_parse req.(req_body) = None ->
  handler ups req = (mkResponse 500 jsonHeaders (Some (JObject [("error", JString (exn_message (ExnParse req.(req_body))))])), []).
Proof. intros Hm Hp. rewrite handler_not_options by done. unfold try_block. by rewrite Hp. Qed.

(** C1. When the reply's text is prose without [{], one [{...}] block and
    prose without [}], the relay answers 200 with that block's parsed
    value under [analysis], after exactly one call that carries the key. *)
Theorem relay_single_block ups req body prompt st text data prefix mid suffix a :
  String.eqb req.(req_method) "OPTIONS" = false ->
  json_parse req.(req_body) = Some body -> body <> JNull ->
  truthy_opt (get "anthropicApiKey" body) = true ->
  build_prompt (get "planData" body) = inr prompt ->
  ups (outbound_request (interp (get "anthropicApiKey" body)) prompt) = FetchResolved st text ->
  response_ok st = true ->
  json_parse text = Some data ->
  content_text data = inr (Some (JString (prefix +:+ "{" +:+ mid +:+ "}" +:+ suffix))) ->
  existsb is_open (String.list_ascii_of_string prefix) = false ->
  existsb is_close (String.list_ascii_of_string suffix) = false ->
  json_parse ("{" +:+ mid +:+ "}") = Some a ->
  handler ups req
  = (mkResponse 200 jsonHeaders (Some (JObject [("analysis", a)])),
     [outbound_request (interp (get "anthropicApiKey" body)) prompt]).
Proof.
  intros Hm Hp Hn Hk Hb Hu Hok Hd Hc Hpre Hsuf Ha.
  rewrite handler_not_options, (try_block_upstream ups req body prompt) by done.
  rewrite Hu, Hok. simpl. by rewrite (handle_reply_block text data prefix mid suffix a).
Qed.

(** C7. An upstream answer with a non-success status is returned with
    that same status and the error ["Claude API error: " ++ body]. *)
Theorem relay_upstream_error ups req body prompt st text :
  String.eqb req.(req_method) "OPTIONS" = false ->
  json_parse req.(req_body) = Some body -> body <> JNull ->
  truthy_opt (get "anthropicApiKey" body) = true ->
  build_prompt (get "planData" body) = inr prompt ->
  ups (outbound_request (interp (get "anthropicApiKey" body)) prompt) = FetchResolved st text ->
  response_ok st = false ->
  handler ups req
  = (mkResponse st jsonHeaders (Some (JObject [("error", JString ("Claude API error: " +:+ text))])),
     [outbound_request (interp (get "anthropicApiKey" body)) prompt]).
Proof.
  intros Hm Hp Hn Hk Hb Hu Hok.
  rewrite handler_not_options, (try_block_upstream ups req body prompt) by done.
  by rewrite Hu, Hok.
Qed.

(** C8. When the reply's text has no [{] followed by a [}], the relay
    answers 500 with ["Could not parse AI response"]. *)
Theorem relay_no_block ups req body prompt st text data s :
  String.eqb req.(req_method) "OPTIONS" = false ->
  json_parse req.(req_body) = Some body -> body <> JNull ->
  truthy_opt (get "anthropicApiKey" body) = true ->
  build_prompt (get "planData" body) = inr prompt ->
  ups (outbound_request (interp (get "anthropicApiKey" body)) prompt) = FetchResolved st text ->
  response_ok st = true ->
  json_parse text = Some data -> content_text data = inr (Some (JString s)) ->
  regex_match s = None ->
  handler ups req
  = (mkResponse 500 jsonHeaders (Some (JObject [("error", JString "Could not parse AI response")])),
     [outbound_request (interp (get "anthropicApiKey" body)) prompt]).
Proof.
  intros Hm Hp Hn Hk Hb Hu Hok Hd Hc Hr.
  rewrite handler_not_options, (try_block_upstream ups req body prompt) by done.
  rewrite Hu, Hok. simpl. unfold handle_reply. by rewrite Hd, Hc, Hr.
Qed.

(** C12. Whatever the request and the service's behaviour, the relay makes
    at most one outbound call, always to the messages endpoint. *)
Theorem relay_at_most_one_call ups req :
  (length (handler ups req).2 <= 1)%nat
  /\ Forall (fun o => o.(out_url) = "https://api.anthropic.com/v1/messages") (handler ups req).2.
Proof.
  unfold handler, try_block.
  repeat case_match; simplify_eq; simpl; split; try lia; repeat constructor.
Qed.

(** C25. Every response has status 200, 400 or 500, or is the non-success
    status the service returned to the one call that was made. *)
Theorem relay_status_taxonomy ups req :
  let '(r, outs) := handler ups req in
  r.(res_status) = 200%Z \/ r.(res_status) = 400%Z \/ r.(res_status) = 500%Z
  \/ exists o text, o ∈ outs /\ ups o = FetchResolved r.(res_status) text
                    /\ response_ok r.(res_status) = false.
Proof.
  unfold handler, try_block.
  repeat case_match; simplify_eq; simpl; auto;
    try match goal with H : handle_reply _ = inr _ |- _ =>
          destruct (handle_reply_status _ _ H); auto end.
  right; right; right. eexists _, _. split; [by left|]. split; [eassumption|].
  by apply negb_true_iff.
Qed.

End Lemmas.

(** ** Witnesses

    A runtime whose [JSON.parse] knows the three texts of one session:
    the request body, the service's reply and the block inside it. *)

Definition demo_body : string := "BODY".
Definition demo_reply : string := "REPLY".
Definition demo_plan : Json :=
  JObject [("daily_focus", JArray [JString "run"]); ("dream_day", JString "beach")].
Definition demo_body_json : Json :=
  JObject [("planData", demo_plan); ("anthropicApiKey", JString "sk-ant-test")].
Definition demo_reply_json : Json :=
  JObject [("content", JArray [JObject [("text", JString "Plan: {} Done")]])].

#[local] Instance demo_runtime : JsRuntime := {|
  json_parse s :=
    if String.eqb s demo_body then Some demo_body_json
    else if String.eqb s demo_reply then Some demo_reply_json
    else if String.eqb s "{}" then Some (JObject [])
    else None;
  number_to_string _ := "0";
  exn_message _ := "error"
|}.

Definition demo_prompt : string :=
  match build_prompt (Some demo_plan) with inr p => p | inl _ => "" end.

Definition demo_ok (o : Outbound) : FetchResult := FetchResolved 200 demo_reply.
Definition demo_down (o : Outbound) : FetchResult := FetchResolved 529 "overloaded".
Definition demo_req : Request := mkRequest "POST" demo_body.

Example relay_single_block_witness :
  handler demo_ok demo_req
  = (mkResponse 200 jsonHeaders (Some (JObject [("analysis", JObject [])])),
     [outbound_request "sk-ant-test" demo_prompt]).
Proof.
  apply (relay_single_block demo_ok demo_req demo_body_json demo_prompt 200 demo_reply
           demo_reply_json "Plan: " "" " Done" (JObject [])); reflexivity || discriminate.
Defined.

Example relay_missing_key_witness :
  handler demo_ok (mkRequest "POST" "{}") = (mkResponse 400 jsonHeaders (Some (JObject [("error", JString "Anthropic API key is required")])), []).
Proof. apply (relay_missing_key demo_ok _ (JObject [])); reflexivity || discriminate. Defined.

Example relay_invalid_body_witness :
  handler demo_ok (mkRequest "POST" "not json")
  = (mkResponse 500 jsonHeaders (Some (JObject [("error", JString (exn_message (ExnParse "not json")))])), []).
Proof. apply relay_invalid_body; reflexivity. Defined.

Example relay_upstream_error_witness :
  handler demo_down demo_req
  = (mkResponse 529 jsonHeaders (Some (JObject [("error", JString ("Claude API error: " +:+ "overloaded"))])),
     [outbound_request "sk-ant-test" demo_prompt]).
Proof.
  apply (relay_upstream_error demo_down demo_req demo_body_json demo_prompt);
    reflexivity || discriminate.
Defined.

Definition demo_prose (o : Outbound) : FetchResult := FetchResolved 200 "PROSE".

#[local] Instance demo_runtime_prose : JsRuntime := {|
  json_parse s :=
    if String.eqb s demo_body then Some demo_body_json
    else if String.eqb s "PROSE" then
      Some (JObject [("content", JArray [JObject [("text", JString "no json here")]])])
    else None;
  number_to_string _ := "0";
  exn_message _ := "error"
|}.

Example relay_no_block_witness :
  @handler demo_runtime_prose demo_prose demo_req
  = (mkResponse 500 jsonHeaders (Some (JObject [("error", JString "Could not parse AI response")])),
     [outbound_request "sk-ant-test" demo_prompt]).
Proof.
  apply (@relay_no_block demo_runtime_prose demo_prose demo_req demo_body_json demo_prompt 200
           "PROSE" (JObject [("content", JArray [JObject [("text", JString "no json here")]])])
           "no json here"); reflexivity || discriminate.
Defined.

End Relay.
