(* ===== verification/Submit.v ===== *)
(** * The submission ([App.tsx] [handleSubmit], lines 110-181)

    [handleSubmit] checks the key, raises the analysing flag, and in one
    [try] block inserts the plan row (status ['analyzing']), calls the
    relay, inserts the analysis row linked to the plan, sets the plan's
    status to ['completed'] and shows the analysis; the [catch] shows the
    error and the [finally] lowers the flag.

    The database is [Store]: the two tables of [lib/supabase.ts]
    ([user_plans], [ai_analyses]) keyed by generated identifiers, and
    the log of the request bodies sent to the relay.  What the outside
    world answers to one submission (an error of each database call, the
    relay's reply) is the record [Outcomes].  The computation runs in the
    [Eff] monad of the prelude, whose exceptions keep the state: a row
    written before a failure stays written, as it does in the database.
    The awaits are taken in sequence; user events between them are not
    modelled here. *)

From Stdlib Require Import ZArith QArith Qcanon.
From stdpp Require Import gmap strings.
From S2P Require Import Prelude JsString JsNumber FormData CostEditor ListEditor Json Relay Wizard.

Open Scope string_scope.

Module Submit.
Import JsNumber FormData Json Relay Wizard.

(** [UserPlan.status] (supabase.ts line 13). *)
Inductive PlanStatus : Type := Draft | Analyzing | Completed.

(** A row of [user_plans]: the answer set, the gap and the status. *)
Record PlanRow : Type := mkPlanRow {
  plan_form : FormData;
  plan_gap : JsNum;
  plan_status : PlanStatus
}.

(** A row of [ai_analyses] (supabase.ts lines 37-49), as inserted at
    App.tsx lines 156-166. *)
Record AnalysisRow : Type := mkAnalysisRow {
  an_plan_id : nat;
  an_content : option Json;
  an_win_ticker : option Json;
  an_dream_life_summary : option Json;
  an_focus_areas : option Json;
  an_cut_out_items : option Json;
  an_action_steps : option Json;
  an_momentum_strategy : option Json;
  an_environment_blueprint : option Json
}.

Record Store : Type := mkStore {
  user_plans : gmap nat PlanRow;
  ai_analyses : gmap nat AnalysisRow;
  next_id : nat;
  relay_log : list Json
}.

Definition empty_store : Store := mkStore ∅ ∅ 0 [].

(** What [fetch] of the relay gives the client. *)
Inductive RelayOutcome : Type :=
| RelayRejected (msg : string)
| RelayReplied (status : Z) (text : string).

(** The answers of the outside world to one submission. *)
Record Outcomes : Type := mkOutcomes {
  o_insert_plan : option string;       (* planError *)
  o_relay : RelayOutcome;
  o_insert_analysis : option string;   (* analysisError *)
  o_update : option string             (* error of the status update *)
}.

(** [JSON.stringify]'s view of a number, a list and the cost map. *)
Definition strings_json (l : list string) : Json := JArray (map JString l).

Definition costs_json (m : gmap string JsNum) : Json :=
  JObject ((fun kv => (kv.1, JNumber kv.2)) <$> map_to_list m).

(** [{ ...formData, financial_gap }] (line 142). *)
Definition plan_json (fd : FormData) (gap : JsNum) : Json :=
  JObject [
    ("has_decided", JBool fd.(has_decided));
    ("habits_to_cut", JString fd.(habits_to_cut));
    ("new_version_description", JString fd.(new_version_description));
    ("motivation_fuel", JString fd.(motivation_fuel));
    ("fuel_description", JString fd.(fuel_description));
    ("daily_fuel_reminder", JString fd.(daily_fuel_reminder));
    ("dream_day", JString fd.(dream_day));
    ("dream_week", JString fd.(dream_week));
    ("ideal_living", JString fd.(ideal_living));
    ("monthly_costs", costs_json fd.(monthly_costs));
    ("current_expenses", JNumber fd.(current_expenses));
    ("dream_expenses", JNumber fd.(dream_expenses));
    ("daily_focus", strings_json fd.(daily_focus));
    ("things_to_cut", strings_json fd.(things_to_cut));
    ("environment_changes", JString fd.(environment_changes));
    ("progress_tracking_method", JString fd.(progress_tracking_method));
    ("daily_wins", strings_json fd.(daily_wins));
    ("daily_planning_routine", JString fd.(daily_planning_routine));
    ("action_commitment", JString fd.(action_commitment));
    ("additional_thoughts", JString fd.(additional_thoughts));
    ("financial_gap", JNumber gap)
  ].

(** The body of the relay request (lines 141-144). *)
Definition relay_body (fd : FormData) (gap : JsNum) (key : string) : Json :=
  JObject [("planData", plan_json fd gap); ("anthropicApiKey", JString key)].

Definition missing_key_message : string :=
  "Please enter your Anthropic API key to generate your action plan.".

Definition default_error_message : string := "An error occurred while analyzing your plan".

Abbreviation World := (AppState * Store)%type.

(** ** State updates *)

Definition set_ui (f : AppState -> AppState) : Eff World string unit :=
  eff_modify (fun w => (f w.1, w.2)).

Definition set_store (f : Store -> Store) : Eff World string unit :=
  eff_modify (fun w => (w.1, f w.2)).

Definition with_analyzing (b : bool) (s : AppState) : AppState :=
  mkApp s.(currentStep) b s.(analysis) s.(error) s.(apiKey) s.(showApiKeyInput)
        s.(formData) s.(step3) s.(step4) s.(step5).

Definition with_error (msg : string) (s : AppState) : AppState :=
  mkApp s.(currentStep) s.(isAnalyzing) s.(analysis) msg s.(apiKey) s.(showApiKeyInput)
        s.(formData) s.(step3) s.(step4) s.(step5).

Definition with_analysis (a : option Json) (s : AppState) : AppState :=
  mkApp s.(currentStep) s.(isAnalyzing) a s.(error) s.(apiKey) s.(showApiKeyInput)
        s.(formData) s.(step3) s.(step4) s.(step5).

Definition with_key_prompt (msg : string) (s : AppState) : AppState :=
  mkApp s.(currentStep) s.(isAnalyzing) s.(analysis) msg s.(apiKey) true
        s.(formData) s.(step3) s.(step4) s.(step5).

(** [supabase.from(..).insert(row).select().single()]: a new identifier. *)
Definition insert_plan (row : PlanRow) (st : Store) : Store :=
  mkStore (<[st.(next_id) := row]> st.(user_plans)) st.(ai_analyses) (S st.(next_id)) st.(relay_log).

Definition insert_analysis (row : AnalysisRow) (st : Store) : Store :=
  mkStore st.(user_plans) (<[st.(next_id) := row]> st.(ai_analyses)) (S st.(next_id)) st.(relay_log).

(** [update({ status: 'completed' }).eq('id', id)]. *)
Definition complete_plan (id : nat) (st : Store) : Store :=
  mkStore (alter (fun r => mkPlanRow r.(plan_form) r.(plan_gap) Completed) id st.(user_plans))
          st.(ai_analyses) st.(next_id) st.(relay_log).

Definition log_relay (body : Json) (st : Store) : Store :=
  mkStore st.(user_plans) st.(ai_analyses) st.(next_id) (st.(relay_log) ++ [body])%list.

Section Submit.
Context `{JsRuntime}.

Definition throw_exn {A} (e : Exn) : Eff World string A := eff_throw (exn_message e).

Definition lift_exn {A} (r : Exn + A) : Eff World string A :=
  match r with inl e => throw_exn e | inr a => eff_ret a end.

(** Lines 147-152: the relay's reply as [aiAnalysis], or an exception. *)
Definition read_relay_reply (o : RelayOutcome) : Eff World string (option Json) :=
  match o with
  | RelayRejected msg => eff_throw msg
  | RelayReplied st text =>
      match json_parse text with
      | None => throw_exn (ExnParse text)
      | Some body =>
          if negb (response_ok st) then
            (* throw new Error(errorData.error || 'Failed to analyze plan') *)
            do e <- lift_exn (read_prop (Some body) "error");
            eff_throw (if truthy_opt e then interp e else "Failed to analyze plan")
          else
            (* const { analysis: aiAnalysis } = await response.json() *)
            match body with
            | JNull => throw_exn ExnDestructure
            | _ => eff_ret (get "analysis" body)
            end
      end
  end.

(** The row of lines 156-166; reading [aiAnalysis.win_ticker] throws
    when [aiAnalysis] is [undefined] or [null]. *)
Definition analysis_row (id : nat) (a : option Json) : Exn + AnalysisRow :=
  match a with
  | None | Some JNull => inl (ExnReadProp a "win_ticker")
  | Some x =>
      inr (mkAnalysisRow id a (get "win_ticker" x) (get "dream_life_summary" x)
             (get "focus_areas" x) (get "cut_out_items" x) (get "action_steps" x)
             (get "momentum_strategy" x) (get "environment_blueprint" x))
  end.

(** The [try] block of lines 120-175. *)
Definition submit_body (o : Outcomes) (fd : FormData) (key : string) : Eff World string unit :=
  let financial_gap := financial_gap fd in
  do w <- eff_get;
  let id := w.2.(next_id) in
  do _ <- match o.(o_insert_plan) with
          | Some msg => eff_throw msg
          | None => set_store (insert_plan (mkPlanRow fd financial_gap Analyzing))
          end;
  do _ <- set_store (log_relay (relay_body fd financial_gap key));
  do aiAnalysis <- read_relay_reply o.(o_relay);
  do row <- lift_exn (analysis_row id aiAnalysis);
  do _ <- match o.(o_insert_analysis) with
          | Some msg => eff_throw msg
          | None => set_store (insert_analysis row)
          end;
  (* the update's error is not read *)
  do _ <- match o.(o_update) with
          | Some _ => eff_ret tt
          | None => set_store (complete_plan id)
          end;
  set_ui (with_analysis aiAnalysis).

(** [err.message || 'An error occurred while analyzing your plan'] (line 177). *)
Definition banner (msg : string) : string :=
  if JsString.truthy msg then msg else default_error_message.

(** [handleSubmit] (lines 110-181). *)
Definition handleSubmit (o : Outcomes) : Eff World string unit :=
  do w <- eff_get;
  let s := w.1 in
  if negb (JsString.truthy s.(apiKey)) then
    set_ui (with_key_prompt missing_key_message)
  else
    do _ <- set_ui (with_analyzing true);
    do _ <- set_ui (with_error "");
    do _ <- eff_catch (submit_body o s.(formData) s.(apiKey))
             (fun msg => set_ui (with_error (banner msg)));
    set_ui (with_analyzing false).

(** One click on the submit button, when it is enabled. *)
Definition submit (o : Outcomes) (w : World) : option World :=
  if submit_enabled w.1 && negb (truthy_opt w.1.(analysis))
  then Some (snd (handleSubmit o w)) else None.

End Submit.


(** ** How one submission runs *)

Section Run.
Context `{JsRuntime}.

(** The relay's reply does not depend on the state. *)
Definition reply_result (o : RelayOutcome) : string + option Json :=
  (read_relay_reply o (app_initial, empty_store)).1.

Lemma lift_exn_run {A} (r : Exn + A) w :
  lift_exn r w = (match r with inl e => inl (exn_message e) | inr a => inr a end, w).
Proof. by destruct r. Qed.

Lemma read_relay_reply_state o w : read_relay_reply o w = (reply_result o, w).
Proof.
  unfold reply_result, read_relay_reply, throw_exn, eff_throw, eff_ret.
  destruct o as [msg|st text]; [done|].
  destruct (json_parse text) as [body|]; [|done].
  destruct (negb (response_ok st)).
  - unfold eff_bind. rewrite !lift_exn_run. by destruct (read_prop _ _).
  - by destruct body.
Qed.


(** The plan row and the store after the plan insert and the relay call. *)
Definition saved_store (fd : FormData) (key : string) (st : Store) : Store :=
  log_relay (relay_body fd (financial_gap fd) key)
            (insert_plan (mkPlanRow fd (financial_gap fd) Analyzing) st).

(** The [try] block, case by case. *)
Lemma submit_body_run o fd key s st :
  submit_body o fd key (s, st) =
  match o.(o_insert_plan) with
  | Some msg => (inl msg, (s, st))
  | None =>
      let st1 := saved_store fd key st in
      match reply_result o.(o_relay) with
      | inl msg => (inl msg, (s, st1))
      | inr a =>
          match analysis_row st.(next_id) a with
          | inl e => (inl (exn_message e), (s, st1))
          | inr row =>
              match o.(o_insert_analysis) with
              | Some msg => (inl msg, (s, st1))
              | None =>
                  let st2 := insert_analysis row st1 in
                  (inr tt, (with_analysis a s,
                            match o.(o_update) with
                            | Some _ => st2
                            | None => complete_plan st.(next_id) st2
                            end))
              end
          end
      end
  end.
Proof.
  unfold submit_body. destruct (o_insert_plan o) as [msg|]; [reflexivity|].
  unfold eff_bind at 1 2 3. cbn -[read_relay_reply log_relay insert_plan].
  unfold eff_bind at 1. rewrite read_relay_reply_state.
  destruct (reply_result (o_relay o)) as [msg|a]; [reflexivity|].
  unfold eff_bind at 1. rewrite lift_exn_run.
  destruct (analysis_row _ a) as [e|row]; [reflexivity|].
  destruct (o_insert_analysis o), (o_update o); reflexivity.
Qed.

(** [handleSubmit] as a function of the state it starts from. *)
Lemma handleSubmit_run o s st :
  handleSubmit o (s, st) =
  if negb (JsString.truthy s.(apiKey)) then (inr tt, (with_key_prompt missing_key_message s, st))
  else
    let s1 := with_error "" (with_analyzing true s) in
    match submit_body o s.(formData) s.(apiKey) (s1, st) with
    | (inl msg, (s2, st2)) => (inr tt, (with_analyzing false (with_error (banner msg) s2), st2))
    | (inr _, (s2, st2)) => (inr tt, (with_analyzing false s2, st2))
    end.
Proof.
  unfold handleSubmit, eff_bind, eff_get. simpl.
  destruct (JsString.truthy (apiKey s)); [|reflexivity]. simpl.
  unfold eff_catch. by destruct (submit_body _ _ _ _) as [[m|[]] [s2 st2]].
Qed.

End Run.


(** ** The contract of the spec (sections 4.1 and 7)

    The three writes happen in order; a failure stops the remaining ones,
    leaves the earlier ones in place and shows a message; a success shows
    no message. *)
Inductive contract (fd : FormData) (key : string) (st : Store) : Store -> string -> Prop :=
| contract_abort_save err :
    err <> "" -> contract fd key st st err
| contract_abort_after_save err :
    err <> "" -> contract fd key st (saved_store fd key st) err
| contract_abort_after_analysis row err :
    row.(an_plan_id) = st.(next_id) -> err <> "" ->
    contract fd key st (insert_analysis row (saved_store fd key st)) err
| contract_done row :
    row.(an_plan_id) = st.(next_id) ->
    contract fd key st (complete_plan st.(next_id) (insert_analysis row (saved_store fd key st))) "".

Section Props.
Context `{JsRuntime}.

Lemma reply_result_ok status text body :
  response_ok status = true -> json_parse text = Some body -> body <> JNull ->
  reply_result (RelayReplied status text) = inr (get "analysis" body).
Proof.
  intros Hok Hp Hn. unfold reply_result, read_relay_reply.
  rewrite Hp, Hok. by destruct body.
Qed.

Lemma banner_nonempty msg : banner msg <> "".
Proof. unfold banner. by destruct (JsString.truthy msg) eqn:E; [intros ->|]. Qed.

Lemma analysis_row_plan_id n a row : analysis_row n a = inr row -> row.(an_plan_id) = n.
Proof. destruct a as [[]|]; simpl; intros E; by simplify_eq. Qed.



Lemma saved_store_plan fd key st :
  (saved_store fd key st).(user_plans) !! st.(next_id) = Some (mkPlanRow fd (financial_gap fd) Analyzing).
Proof. unfold saved_store. cbn [user_plans log_relay insert_plan]. apply lookup_insert_eq. Qed.

Lemma complete_plan_lookup n st :
  (complete_plan n st).(user_plans) !! n
  = (fun r => mkPlanRow r.(plan_form) r.(plan_gap) Completed) <$> st.(user_plans) !! n.
Proof. unfold complete_plan. cbn [user_plans]. apply lookup_alter_eq. Qed.

(** The world after a submission that fails once the plan is saved. *)
Lemma handleSubmit_after_save_failure o s st msg :
  JsString.truthy s.(apiKey) = true -> o.(o_insert_plan) = None ->
  reply_result o.(o_relay) = inl msg ->
  snd (handleSubmit o (s, st))
  = (with_analyzing false (with_error (banner msg) (with_error "" (with_analyzing true s))),
     saved_store s.(formData) s.(apiKey) st).
Proof. intros Hk Hi Hr. rewrite handleSubmit_run, Hk. simpl. by rewrite submit_body_run, Hi, Hr. Qed.

(** The world after a submission whose calls all succeed, the status
    update included or not. *)
Lemma handleSubmit_success o s st a row :
  JsString.truthy s.(apiKey) = true -> o.(o_insert_plan) = None ->
  reply_result o.(o_relay) = inr a -> analysis_row st.(next_id) a = inr row ->
  o.(o_insert_analysis) = None ->
  snd (handleSubmit o (s, st))
  = (with_analyzing false (with_analysis a (with_error "" (with_analyzing true s))),
     let st2 := insert_analysis row (saved_store s.(formData) s.(apiKey) st) in
     match o.(o_update) with Some _ => st2 | None => complete_plan st.(next_id) st2 end).
Proof.
  intros Hk Hi Hr Hrow Ha. rewrite handleSubmit_run, Hk. simpl.
  by rewrite submit_body_run, Hi, Hr, Hrow, Ha.
Qed.


Lemma contract_done_differs fd key st row row' :
  insert_analysis row (saved_store fd key st)
  <> complete_plan st.(next_id) (insert_analysis row' (saved_store fd key st)).
Proof.
  intros E. apply (f_equal (fun st' => st'.(user_plans) !! st.(next_id))) in E.
  rewrite complete_plan_lookup in E. cbn [insert_analysis user_plans] in E.
  rewrite saved_store_plan in E. discriminate.
Qed.

(** A run of the contract that shows no message is a completed one. *)
Lemma contract_no_error fd key st st' :
  contract fd key st st' "" ->
  exists row, row.(an_plan_id) = st.(next_id) /\
    st' = complete_plan st.(next_id) (insert_analysis row (saved_store fd key st)).
Proof. inversion 1; [congruence..|eauto]. Qed.

Lemma analysis_row_some n a :
  a <> JNull ->
  analysis_row n (Some a)
  = inr (mkAnalysisRow n (Some a) (get "win_ticker" a) (get "dream_life_summary" a)
           (get "focus_areas" a) (get "cut_out_items" a) (get "action_steps" a)
           (get "momentum_strategy" a) (get "environment_blueprint" a)).
Proof. by destruct a. Qed.

(** Whatever the outcomes, the store after a submission is one of the
    four prefixes of the write sequence. *)
Lemma handleSubmit_store_cases o s st :
  let st' := (snd (handleSubmit o (s, st))).2 in
  let saved := saved_store s.(formData) s.(apiKey) st in
  st' = st \/ st' = saved \/
  exists row, row.(an_plan_id) = st.(next_id) /\
    (st' = insert_analysis row saved \/ st' = complete_plan st.(next_id) (insert_analysis row saved)).
Proof.
  cbn zeta. rewrite handleSubmit_run. destruct (JsString.truthy (apiKey s)); [|by left].
  cbn [negb]. rewrite submit_body_run.
  destruct (o_insert_plan o); [by left|]. cbn zeta.
  destruct (reply_result _) as [msg|a]; [by right; left|].
  destruct (analysis_row _ a) as [e|row] eqn:Hrow; [by right; left|].
  apply analysis_row_plan_id in Hrow.
  destruct (o_insert_analysis o); [by right; left|].
  right; right. exists row. split; [done|]. destruct (o_update o); auto.
Qed.

(** A submission leaves the step, the answers and the editors' drafts
    as they were. *)
Lemma handleSubmit_ui_frame o s st :
  let s' := (snd (handleSubmit o (s, st))).1 in
  s'.(currentStep) = s.(currentStep) /\ s'.(formData) = s.(formData) /\
  s'.(step3) = s.(step3) /\ s'.(step4) = s.(step4) /\ s'.(step5) = s.(step5).
Proof.
  cbn zeta. rewrite handleSubmit_run. destruct (JsString.truthy (apiKey s)); [|by split_and!].
  cbn [negb]. rewrite submit_body_run.
  destruct (o_insert_plan o); [by split_and!|]. cbn zeta.
  destruct (reply_result _); [by split_and!|].
  destruct (analysis_row _ _); [by split_and!|].
  destruct (o_insert_analysis o); by split_and!.
Qed.

End Props.

Section Claims.
Context `{JsRuntime}.

(** C6. Submitting without a key sets the key prompt and its fixed
    message, and changes nothing else: no row is written and the relay is
    not called. *)
Theorem submit_missing_key o s st :
  JsString.truthy s.(apiKey) = false ->
  let '(s', st') := snd (handleSubmit o (s, st)) in
  st' = st /\ s'.(showApiKeyInput) = true /\ s'.(error) = missing_key_message /\
  s'.(isAnalyzing) = s.(isAnalyzing) /\ s'.(analysis) = s.(analysis) /\
  s'.(currentStep) = s.(currentStep) /\ s'.(formData) = s.(formData).
Proof. intros Hk. rewrite handleSubmit_run, Hk. done. Qed.

(** C4. When the status update reports no error, a submission with a
    key implements the contract of the spec: the writes (plan row, relay
    call, analysis row linked to the plan, completed status) are done in
    order, a failure stops the remaining ones without undoing the earlier
    ones and shows a non-empty message, and a success shows none. *)
Theorem submit_refines_contract o s st :
  JsString.truthy s.(apiKey) = true -> o.(o_update) = None ->
  contract s.(formData) s.(apiKey) st
    (snd (handleSubmit o (s, st))).2 (snd (handleSubmit o (s, st))).1.(error).
Proof.
  intros Hk Hu. rewrite handleSubmit_run, Hk. simpl. rewrite submit_body_run.
  destruct (o_insert_plan o); [by constructor; apply banner_nonempty|]. cbn zeta.
  destruct (reply_result _) as [msg|a]; [by constructor; apply banner_nonempty|].
  destruct (analysis_row _ a) as [e|row] eqn:Hrow; [by constructor; apply banner_nonempty|].
  destruct (o_insert_analysis o); [by constructor; apply banner_nonempty|].
  rewrite Hu. apply contract_done. by eapply analysis_row_plan_id.
Qed.


(** C10. A submission whose calls all succeed shows the analysis with no
    error and the flag lowered, stores the plan row with its gap and
    status ['completed'], stores the analysis row (linked to the plan,
    its sections copied from the analysis) under the next identifier, and
    calls the relay once with [{ planData: {...formData, financial_gap},
    anthropicApiKey }]. *)
Theorem submit_success o s st status text body a :
  JsString.truthy s.(apiKey) = true -> o.(o_insert_plan) = None ->
  o.(o_relay) = RelayReplied status text -> response_ok status = true ->
  json_parse text = Some body -> body <> JNull -> get "analysis" body = Some a -> a <> JNull ->
  o.(o_insert_analysis) = None -> o.(o_update) = None ->
  let '(s', st') := snd (handleSubmit o (s, st)) in
  s'.(analysis) = Some a /\ s'.(error) = "" /\ s'.(isAnalyzing) = false /\
  st'.(user_plans) !! st.(next_id)
    = Some (mkPlanRow s.(formData) (financial_gap s.(formData)) Completed) /\
  st'.(ai_analyses) !! S st.(next_id)
    = Some (mkAnalysisRow st.(next_id) (Some a) (get "win_ticker" a) (get "dream_life_summary" a)
              (get "focus_areas" a) (get "cut_out_items" a) (get "action_steps" a)
              (get "momentum_strategy" a) (get "environment_blueprint" a)) /\
  st'.(relay_log) = (st.(relay_log) ++ [relay_body s.(formData) (financial_gap s.(formData)) s.(apiKey)])%list.
Proof.
  intros Hk Hi Ho Hok Hp Hb Ha Han Hia Hu.
  assert (Hr : reply_result o.(o_relay) = inr (Some a))
    by (by rewrite Ho, (reply_result_ok _ _ body), Ha).
  rewrite (handleSubmit_success o s st _ _ Hk Hi Hr (analysis_row_some _ _ Han) Hia), Hu.
  split_and!; try reflexivity.
  - rewrite complete_plan_lookup. cbn [insert_analysis user_plans]. by rewrite saved_store_plan.
  - cbn -[saved_store]. apply lookup_insert_eq.
Qed.

(** C23. No rollback: when the plan row is saved and the relay call then
    fails, the plan row stays with status ['analyzing'], no analysis row
    is written, the banner shows the failure and the flag is lowered. *)
Theorem submit_failure_no_rollback o s st msg :
  JsString.truthy s.(apiKey) = true -> o.(o_insert_plan) = None ->
  reply_result o.(o_relay) = inl msg ->
  let '(s', st') := snd (handleSubmit o (s, st)) in
  s'.(error) = banner msg /\ s'.(error) <> "" /\ s'.(analysis) = s.(analysis) /\
  s'.(isAnalyzing) = false /\
  st'.(user_plans) !! st.(next_id)
    = Some (mkPlanRow s.(formData) (financial_gap s.(formData)) Analyzing) /\
  st'.(ai_analyses) = st.(ai_analyses).
Proof.
  intros Hk Hi Hr. rewrite (handleSubmit_after_save_failure o s st msg) by done.
  split_and!; try reflexivity; [apply banner_nonempty|apply saved_store_plan].
Qed.

(** C35. A retry re-runs the whole sequence: two submissions that fail
    after the plan is saved leave two plan rows with status ['analyzing'],
    under two identifiers. *)
Theorem retry_leaves_stale_drafts o1 o2 s st msg1 msg2 :
  JsString.truthy s.(apiKey) = true ->
  o1.(o_insert_plan) = None -> reply_result o1.(o_relay) = inl msg1 ->
  o2.(o_insert_plan) = None -> reply_result o2.(o_relay) = inl msg2 ->
  let w2 := snd (handleSubmit o2 (snd (handleSubmit o1 (s, st)))) in
  w2.2.(user_plans) !! st.(next_id)
    = Some (mkPlanRow s.(formData) (financial_gap s.(formData)) Analyzing) /\
  w2.2.(user_plans) !! S st.(next_id)
    = Some (mkPlanRow s.(formData) (financial_gap s.(formData)) Analyzing).
Proof.
  intros Hk Hi1 Hr1 Hi2 Hr2. cbn zeta.
  rewrite (handleSubmit_after_save_failure o1 s st msg1) by done.
  rewrite (handleSubmit_after_save_failure o2 _ _ msg2) by done.
  cbn [snd with_analyzing with_error formData apiKey]. split.
  - cbn [saved_store log_relay insert_plan user_plans next_id].
    rewrite lookup_insert_ne by lia. apply lookup_insert_eq.

  - apply saved_store_plan.
Qed.

(** C24. The error of the status update is not read: when every other
    call succeeds and the update fails, the analysis is shown with no
    error while the plan row stays ['analyzing'], an outcome the spec's
    contract excludes. *)
Theorem status_update_error_ignored o s st status text body a msg :
  JsString.truthy s.(apiKey) = true -> o.(o_insert_plan) = None ->
  o.(o_relay) = RelayReplied status text -> response_ok status = true ->
  json_parse text = Some body -> body <> JNull -> get "analysis" body = Some a -> a <> JNull ->
  o.(o_insert_analysis) = None -> o.(o_update) = Some msg ->
  let '(s', st') := snd (handleSubmit o (s, st)) in
  s'.(analysis) = Some a /\ s'.(error) = "" /\
  st'.(user_plans) !! st.(next_id)
    = Some (mkPlanRow s.(formData) (financial_gap s.(formData)) Analyzing) /\
  ~ contract s.(formData) s.(apiKey) st st' s'.(error).
Proof.
  intros Hk Hi Ho Hok Hp Hb Ha Han Hia Hu.
  assert (Hr : reply_result o.(o_relay) = inr (Some a))
    by (by rewrite Ho, (reply_result_ok _ _ body), Ha).
  rewrite (handleSubmit_success o s st _ _ Hk Hi Hr (analysis_row_some _ _ Han) Hia), Hu.
  split_and!; try reflexivity; [apply saved_store_plan|].
  cbn [error with_analyzing with_analysis with_error].
  intros Hc. apply contract_no_error in Hc as [row' [_ Hc]]. by eapply contract_done_differs.
Qed.


(** C36. One submission calls the relay at most once: exactly once when
    a key is present and the plan row is saved, otherwise never. *)
Theorem submit_relay_calls o s st :
  (snd (handleSubmit o (s, st))).2.(relay_log)
  = (st.(relay_log) ++
     if JsString.truthy s.(apiKey) then
       match o.(o_insert_plan) with
       | None => [relay_body s.(formData) (financial_gap s.(formData)) s.(apiKey)]
       | Some _ => []
       end
     else [])%list.
Proof.
  rewrite handleSubmit_run. destruct (JsString.truthy (apiKey s)); [|by rewrite app_nil_r].
  cbn [negb]. rewrite submit_body_run.
  destruct (o_insert_plan o); [by rewrite app_nil_r|]. cbn zeta.
  repeat case_match; simplify_eq; reflexivity.
Qed.

(** C37. The [finally] lowers the flag: a submit button that was enabled
    is enabled again after the submission, whatever its outcome, so a
    failed submission can be retried. *)
Theorem submit_enabled_after o s st :
  submit_enabled s = true -> submit_enabled (snd (handleSubmit o (s, st))).1 = true.
Proof.
  intros He. rewrite handleSubmit_run.
  destruct (JsString.truthy (apiKey s)); [|exact He].
  cbn [negb]. rewrite submit_body_run.
  unfold submit_enabled in *. apply andb_true_iff in He as [He _].
  repeat case_match; simplify_eq;
    cbn [fst snd currentStep formData isAnalyzing with_analyzing with_error with_analysis];
    by rewrite He.
Qed.

End Claims.

(** ** Witnesses *)

(** The answers of the demonstration session, with a key typed in. *)
Definition keyed_state : AppState :=
  match run [ClickEnterKey; TypeApiKey "sk-ant-test"] demo_state with
  | Some s => s | None => demo_state
  end.

Definition demo_analysis : Json := JObject [("win_ticker", JString "Ship it")].

#[local] Instance submit_runtime : JsRuntime := {|
  json_parse t :=
    if String.eqb t "OK" then Some (JObject [("analysis", demo_analysis)])
    else if String.eqb t "DENIED" then Some (JObject [("error", JString "invalid x-api-key")])
    else None;
  number_to_string _ := "0";
  exn_message _ := "TypeError"
|}.

Definition ok_outcomes : Outcomes := mkOutcomes None (RelayReplied 200 "OK") None None.
Definition net_fail : Outcomes := mkOutcomes None (RelayRejected "Failed to fetch") None None.
Definition denied : Outcomes := mkOutcomes None (RelayReplied 401 "DENIED") None None.
Definition update_fail : Outcomes :=
  mkOutcomes None (RelayReplied 200 "OK") None (Some "permission denied").

Example submit_missing_key_witness :
  let '(s', st') := snd (handleSubmit ok_outcomes (demo_state, empty_store)) in
  st' = empty_store /\ s'.(showApiKeyInput) = true /\ s'.(error) = missing_key_message /\
  s'.(isAnalyzing) = demo_state.(isAnalyzing) /\ s'.(analysis) = demo_state.(analysis) /\
  s'.(currentStep) = demo_state.(currentStep) /\ s'.(formData) = demo_state.(formData).
Proof. apply submit_missing_key. vm_compute. reflexivity. Defined.

Example submit_refines_contract_witness :
  contract keyed_state.(formData) keyed_state.(apiKey) empty_store
    (snd (handleSubmit denied (keyed_state, empty_store))).2
    (snd (handleSubmit denied (keyed_state, empty_store))).1.(error).
Proof. apply submit_refines_contract; [vm_compute; reflexivity | reflexivity]. Defined.

Example submit_success_witness :
  let '(s', st') := snd (handleSubmit ok_outcomes (keyed_state, empty_store)) in
  s'.(analysis) = Some demo_analysis /\ s'.(error) = "" /\ s'.(isAnalyzing) = false /\
  st'.(user_plans) !! 0 = Some (mkPlanRow keyed_state.(formData) (financial_gap keyed_state.(formData)) Completed) /\
  st'.(ai_analyses) !! 1
    = Some (mkAnalysisRow 0 (Some demo_analysis) (Some (JString "Ship it")) None None None None None None) /\
  st'.(relay_log) = [relay_body keyed_state.(formData) (financial_gap keyed_state.(formData)) keyed_state.(apiKey)].
Proof.
  apply (submit_success ok_outcomes keyed_state empty_store 200 "OK"
           (JObject [("analysis", demo_analysis)]) demo_analysis);
    (vm_compute; reflexivity) || discriminate.
Defined.

Example submit_failure_no_rollback_witness :
  let '(s', st') := snd (handleSubmit denied (keyed_state, empty_store)) in
  s'.(error) = banner "invalid x-api-key" /\ s'.(error) <> "" /\ s'.(analysis) = keyed_state.(analysis) /\
  s'.(isAnalyzing) = false /\
  st'.(user_plans) !! 0 = Some (mkPlanRow keyed_state.(formData) (financial_gap keyed_state.(formData)) Analyzing) /\
  st'.(ai_analyses) = empty_store.(ai_analyses).
Proof. apply submit_failure_no_rollback; vm_compute; reflexivity. Defined.

Example retry_leaves_stale_drafts_witness :
  let w2 := snd (handleSubmit denied (snd (handleSubmit net_fail (keyed_state, empty_store)))) in
  w2.2.(user_plans) !! 0 = Some (mkPlanRow keyed_state.(formData) (financial_gap keyed_state.(formData)) Analyzing) /\
  w2.2.(user_plans) !! 1 = Some (mkPlanRow keyed_state.(formData) (financial_gap keyed_state.(formData)) Analyzing).
Proof. apply (retry_leaves_stale_drafts net_fail denied keyed_state empty_store "Failed to fetch" "invalid x-api-key"); vm_compute; reflexivity. Defined.

Example status_update_error_ignored_witness :
  let '(s', st') := snd (handleSubmit update_fail (keyed_state, empty_store)) in
  s'.(analysis) = Some demo_analysis /\ s'.(error) = "" /\
  st'.(user_plans) !! 0 = Some (mkPlanRow keyed_state.(formData) (financial_gap keyed_state.(formData)) Analyzing) /\
  ~ contract keyed_state.(formData) keyed_state.(apiKey) empty_store st' s'.(error).
Proof.
  apply (status_update_error_ignored update_fail keyed_state empty_store 200 "OK"
           (JObject [("analysis", demo_analysis)]) demo_analysis "permission denied");
    (vm_compute; reflexivity) || discriminate.
Defined.

Example submit_enabled_after_witness :
  submit_enabled (snd (handleSubmit net_fail (keyed_state, empty_store))).1 = true.
Proof. apply submit_enabled_after. vm_compute. reflexivity. Defined.


End Submit.
