(* ===== verification/ActionPlan.v ===== *)
(** * The results page ([src/src/components/ActionPlan.tsx])

    [App.tsx] renders [<ActionPlan analysis={analysis} />] once the
    analysis is set (lines 183-185).  The component is one JSX expression;
    rendering it has two phases:
    - the expression is evaluated in source order; a [{analysis.x}] only
      reads a property, while [analysis.x.map(...)] and
      [analysis.action_steps.x.map(...)] throw a [TypeError] when the value
      is [undefined], [null], or not an array;
    - React then renders the children: a string or a number becomes
      text, [null], [undefined] and booleans render nothing, an array
      renders its elements, and a plain object makes React throw
      ("Objects are not valid as a React child").

    [layout] lists the sixteen sections of the page in source order;
    [render] returns the exception of the first phase, the failure of the
    second, or the page as the list of its section titles with their
    texts.  Neither error is caught: the application has no error
    boundary, so the page is lost. *)

From stdpp Require Import strings.
From S2P Require Import Prelude JsString JsNumber Json Relay.

Open Scope string_scope.

Module ActionPlan.
Import Json Relay.

(** How a section reads the analysis. *)
Inductive Field : Type :=
| Prose (title key : string)    (* <p>{analysis.key}</p> *)
| Items (title key : string)    (* {analysis.key.map((x, i) => <li>{x}</li>)} *)
| Steps (title key : string).   (* {analysis.action_steps.key.map(...)} *)

Definition field_title (f : Field) : string :=
  match f with Prose t _ | Items t _ | Steps t _ => t end.

(** The sections of the page, in source order (lines 36-206). *)
Definition layout : list Field := [
  Prose "Dream Life Summary" "dream_life_summary";
  Items "Focus Areas" "focus_areas";
  Items "Cut Out (Decidere)" "cut_out_items";
  Items "Win Ticker - Daily Tracking" "win_ticker";
  Steps "Week 1" "week_1";
  Steps "Month 1" "month_1";
  Steps "Month 3" "month_3";
  Steps "Month 6" "month_6";
  Prose "Momentum Strategy" "momentum_strategy";
  Prose "Environment Blueprint" "environment_blueprint";
  Prose "Financial Roadmap" "financial_roadmap";
  Items "Key Insights" "key_insights";
  Items "Potential Obstacles & Solutions" "potential_obstacles";
  Prose "Decision Analysis" "decision_analysis";
  Prose "Fuel Strategy" "fuel_strategy";
  Prose "Accountability System" "accountability_system"
].

(** A section once its expression is evaluated. *)
Inductive Block : Type :=
| BProse (title : string) (v : option Json)
| BItems (title : string) (items : list Json).

(** [v.map(cb)]: the elements the callback receives. *)
Definition map_items (v : option Json) : Exn + list Json :=
  match v with
  | None | Some JNull => inl (ExnReadProp v "map")
  | Some (JArray xs) => inr xs
  | Some _ => inl (ExnNotFunction "map")
  end.

Definition eval_field (a : Json) (f : Field) : Exn + Block :=
  match f with
  | Prose t k => inr (BProse t (get k a))
  | Items t k =>
      match map_items (get k a) with inl e => inl e | inr xs => inr (BItems t xs) end
  | Steps t k =>
      match read_prop (get "action_steps" a) k with
      | inl e => inl e
      | inr v => match map_items v with inl e => inl e | inr xs => inr (BItems t xs) end
      end
  end.

(** The first phase: the first exception in source order wins. *)
Fixpoint eval_all (a : Json) (fs : list Field) : Exn + list Block :=
  match fs with
  | [] => inr []
  | f :: rest =>
      match eval_field a f with
      | inl e => inl e
      | inr b => match eval_all a rest with inl e => inl e | inr bs => inr (b :: bs) end
      end
  end.

(** ** What the page needs and what it shows *)

Definition is_array (v : option Json) : bool :=
  match v with Some (JArray _) => true | _ => false end.

(** The value a section reads: [analysis.key], or
    [analysis.action_steps?.key] for the timeline. *)
Definition field_value (a : Json) (f : Field) : option Json :=
  match f with
  | Prose _ k | Items _ k => get k a
  | Steps _ k => get "action_steps" a ≫= get k
  end.

(** The first phase gets past a section: the list sections need an
    array, the timeline needs a non-null [action_steps]. *)
Definition list_field_ok (a : Json) (f : Field) : bool :=
  match f with
  | Prose _ _ => true
  | Items _ k => is_array (get k a)
  | Steps _ k =>
      match get "action_steps" a with
      | None | Some JNull => false
      | Some st => is_array (get k st)
      end
  end.

Definition is_string (x : Json) : bool := match x with JString _ => true | _ => false end.

(** The shape the prompt asks for: prose sections are strings (or
    missing), list sections are arrays of strings, [action_steps] is an
    object of four arrays of strings. *)
Definition field_shaped (a : Json) (f : Field) : bool :=
  match f with
  | Prose _ k => match get k a with None | Some JNull | Some (JString _) => true | _ => false end
  | Items _ k => match get k a with Some (JArray xs) => forallb is_string xs | _ => false end
  | Steps _ k =>
      match get "action_steps" a with
      | Some (JObject ps) =>
          match get k (JObject ps) with Some (JArray xs) => forallb is_string xs | _ => false end
      | _ => false
      end
  end.

Definition well_shaped (a : Json) : bool := forallb (field_shaped a) layout.

(** [type ActionPlanProps] (lines 3-24): the type the page declares for
    [analysis].  TypeScript erases it, and the relay forwards whatever the
    service returned, so nothing checks it at run time. *)
Definition ActionPlanProps : list (string * JsonType) := [
  ("win_ticker", TStringArray); ("dream_life_summary", TString); ("focus_areas", TStringArray);
  ("cut_out_items", TStringArray); ("momentum_strategy", TString); ("environment_blueprint", TString);
  ("decision_analysis", TString); ("fuel_strategy", TString); ("financial_roadmap", TString);
  ("key_insights", TStringArray); ("potential_obstacles", TStringArray); ("accountability_system", TString)
].

(** [action_steps: { week_1: string[]; month_1: string[]; month_3: string[]; month_6: string[] }] *)
Definition action_steps_fields : list string := ["week_1"; "month_1"; "month_3"; "month_6"].

Definition props_typed (a : Json) : bool :=
  forallb (fun kt => has_type kt.2 (get kt.1 a)) ActionPlanProps &&
  match get "action_steps" a with
  | Some (JObject ps) => forallb (fun k => has_type TStringArray (get k (JObject ps))) action_steps_fields
  | _ => false
  end.

Definition text_of (x : Json) : list string := match x with JString s => [s] | _ => [] end.

(** The texts of a section of a well-shaped analysis. *)
Definition shown (a : Json) (f : Field) : string * list string :=
  (field_title f,
   match field_value a f with
   | Some (JString s) => [s]
   | Some (JArray xs) => concat (map text_of xs)
   | _ => []
   end).

Section Render.
Context `{JsRuntime}.

(** React's rendering of a child; [None] for a plain object. *)
Fixpoint render_json (j : Json) : option (list string) :=
  match j with
  | JNull | JBool _ => Some []
  | JNumber n => Some [number_to_string n]
  | JString s => Some [s]
  | JArray xs =>
      (fix go (xs : list Json) : option (list string) :=
         match xs with
         | [] => Some []
         | x :: r =>
             match render_json x, go r with
             | Some l1, Some l2 => Some (l1 ++ l2)%list
             | _, _ => None
             end
         end) xs
  | JObject _ => None
  end.

Definition render_child (v : option Json) : option (list string) :=
  match v with None => Some [] | Some j => render_json j end.

Definition render_block (b : Block) : option (string * list string) :=
  match b with
  | BProse t v => (fun l => (t, l)) <$> render_child v
  | BItems t xs => (fun ls => (t, concat ls)) <$> mapM render_json xs
  end.

Inductive Rendered : Type :=
| Thrown (e : Exn)          (* TypeError while evaluating the JSX *)
| InvalidChild              (* React: objects are not valid as a child *)
| Page (sections : list (string * list string)).

Definition render (a : Json) : Rendered :=
  match eval_all a layout with
  | inl e => Thrown e
  | inr bs => match mapM render_block bs with Some p => Page p | None => InvalidChild end
  end.

End Render.

(** ** Lemmas *)

Lemma eval_field_ok a f :
  (exists b, eval_field a f = inr b) <-> list_field_ok a f = true.
Proof.
  destruct f as [t k|t k|t k]; simpl; [split; eauto|..].
  - unfold map_items, is_array.
    split; [intros [b Hb]|intros Hb]; repeat case_match; simplify_eq; eauto.
  - unfold read_prop, map_items, is_array.
    split; [intros [b Hb]|intros Hb]; repeat case_match; simplify_eq; eauto.
Qed.

Lemma eval_all_ok a fs :
  (exists bs, eval_all a fs = inr bs) <-> forallb (list_field_ok a) fs = true.
Proof.
  induction fs as [|f fs IH]; simpl; [split; eauto|].
  rewrite andb_true_iff, <- eval_field_ok, <- IH.
  split.
  - intros [bs Hbs]. repeat case_match; simplify_eq; eauto.
  - intros [[b Hb] [bs Hbs]]. rewrite Hb, Hbs. eauto.
Qed.

Lemma eval_all_elem a fs bs f :
  eval_all a fs = inr bs -> f ∈ fs -> exists b, eval_field a f = inr b /\ b ∈ bs.
Proof.
  revert bs. induction fs as [|f' fs IH]; intros bs E Hf; [by apply elem_of_nil in Hf|].
  simpl in E. destruct (eval_field a f') as [|b] eqn:Ef; [done|].
  destruct (eval_all a fs) as [|bs'] eqn:Es; simplify_eq.
  apply elem_of_cons in Hf as [->|Hf].
  - exists b. split; [done|]. apply elem_of_cons; auto.
  - destruct (IH bs' eq_refl Hf) as (b' & ? & ?). exists b'. split; [done|].
    apply elem_of_cons; auto.
Qed.

Section RenderLemmas.
Context `{JsRuntime}.

Lemma render_strings xs :
  forallb is_string xs = true -> mapM render_json xs = Some (map text_of xs).
Proof.
  induction xs as [|x xs IH]; simpl; [done|].
  rewrite andb_true_iff. intros [Hx Hxs]. destruct x; try discriminate.
  simpl. by rewrite IH.
Qed.

Lemma field_render a f :
  field_shaped a f = true ->
  exists b, eval_field a f = inr b /\ render_block b = Some (shown a f).
Proof.
  unfold field_shaped, shown, field_value. destruct f as [t k|t k|t k]; cbn [eval_field field_title].
  - intros Hs. eexists; split; [done|]. cbn [render_block render_child]. by repeat case_match.
  - destruct (get k a) as [[]|]; try discriminate. intros Hs.
    eexists; split; [done|]. cbn [render_block]. by rewrite render_strings.
  - destruct (get "action_steps" a) as [[| | | | |ps]|]; try discriminate.
    cbn [read_prop mbind option_bind].
    destruct (get k (JObject ps)) as [[]|]; try discriminate. intros Hs.
    eexists; split; [done|]. cbn [render_block]. by rewrite render_strings.
Qed.

Lemma render_all a fs :
  forallb (field_shaped a) fs = true ->
  exists bs, eval_all a fs = inr bs /\ mapM render_block bs = Some (map (shown a) fs).
Proof.
  induction fs as [|f fs IH]; simpl; [eauto|].
  rewrite andb_true_iff. intros [Hf Hfs].
  destruct (field_render a f Hf) as (b & -> & Hb).
  destruct (IH Hfs) as (bs & -> & Hbs). exists (b :: bs). split; [done|].
  simpl. by rewrite Hb, Hbs.
Qed.

End RenderLemmas.

(** ** Properties of the page *)

Section Claims.
Context `{JsRuntime}.

(** C28. The page throws while it is built exactly when one of the seven
    list sections is not an array (or [action_steps] is missing or
    [null]); a missing prose section never does. *)
Theorem render_throws_iff a :
  (exists e, render a = Thrown e) <-> forallb (list_field_ok a) layout = false.
Proof.
  unfold render. rewrite <- not_true_iff_false, <- eval_all_ok.
  destruct (eval_all a layout) as [e|bs]; split.
  - intros _ [bs Hbs]. discriminate.
  - eauto.
  - intros [e He]. by case_match.
  - intros Hn. exfalso. eauto.
Qed.

(** C30. An analysis without [focus_areas] (the first list section) makes
    the page throw [TypeError: Cannot read properties of undefined
    (reading 'map')], whatever its other sections hold; the spec expects
    empty sections. *)
Theorem render_missing_focus_areas a :
  get "focus_areas" a = None -> render a = Thrown (ExnReadProp None "map").
Proof. intros Hf. unfold render, layout. cbn [eval_all eval_field]. by rewrite Hf. Qed.

Lemma has_type_string v : has_type TString v = true -> exists t, v = Some (JString t).
Proof. destruct v as [[]|]; cbn; try done. eauto. Qed.

Lemma has_type_strings v :
  has_type TStringArray v = true -> exists xs, v = Some (JArray xs) /\ forallb is_string xs = true.
Proof. destruct v as [[]|]; cbn; try done. eauto. Qed.

(** A value of the declared type has the shape the page renders. *)
Lemma props_typed_well_shaped a : props_typed a = true -> well_shaped a = true.
Proof.
  unfold props_typed, well_shaped. cbn [ActionPlanProps action_steps_fields forallb fst snd layout field_shaped].
  intros Ht. destruct (get "action_steps" a) as [[| | | | |ps]|]; rewrite ?andb_false_r in Ht; try done.
  repeat match goal with Hx : _ && _ = true |- _ => apply andb_prop in Hx as [? ?] end.
  repeat match goal with
         | Hk : has_type TString (get ?k ?x) = true |- _ =>
             apply has_type_string in Hk as (? & Hk); rewrite Hk
         | Hk : has_type TStringArray (get ?k ?x) = true |- _ =>
             apply has_type_strings in Hk as (? & Hk & ?); rewrite Hk
         end.
  by repeat (apply andb_true_intro; split).
Qed.

(** An analysis of the shape the prompt asks for renders every
    section, in source order, with exactly its strings; a missing or
    [null] prose section renders empty. *)
Theorem render_well_shaped a :
  well_shaped a = true -> render a = Page (map (shown a) layout).
Proof.
  intros Hw. destruct (render_all a layout Hw) as (bs & Hbs & Hr).
  unfold render. by rewrite Hbs, Hr.
Qed.

(** C29. An analysis of the type the page declares, [ActionPlanProps]
    (all twelve fields and the four timelines of [action_steps], strings
    and arrays of strings), renders every section in source order with
    exactly its strings. *)
Theorem render_props_typed a :
  props_typed a = true -> render a = Page (map (shown a) layout).
Proof. intros Ht. by apply render_well_shaped, props_typed_well_shaped. Qed.

(** When every list section is an array but the financial roadmap
    is an object, React refuses the object as a child and the page is
    lost. *)
Theorem render_object_roadmap a ps :
  forallb (list_field_ok a) layout = true -> get "financial_roadmap" a = Some (JObject ps) ->
  render a = InvalidChild.
Proof.
  intros Hok Hr. apply eval_all_ok in Hok as [bs Hbs].
  destruct (eval_all_elem a layout bs (Prose "Financial Roadmap" "financial_roadmap") Hbs)
    as (b & Hb & Hin); [by repeat constructor|].
  simpl in Hb. rewrite Hr in Hb. simplify_eq.
  unfold render. rewrite Hbs. replace (mapM render_block bs) with (@None (list (string * list string))); [done|].
  symmetry. apply mapM_None, Exists_exists. eexists; split; [exact Hin|]. done.
Qed.

End Claims.

(** ** Witnesses *)

Definition sample_props : list (string * Json) := [
  ("win_ticker", JArray [JString "Workout"; JString "Inbox zero"]);
  ("dream_life_summary", JString "A house by the sea.");
  ("focus_areas", JArray [JString "Deep work"]);
  ("cut_out_items", JArray [JString "Scrolling"]);
  ("action_steps", JObject [("week_1", JArray [JString "Write the plan"]); ("month_1", JArray []);
                            ("month_3", JArray []); ("month_6", JArray [JString "Move"])]);
  ("key_insights", JArray []);
  ("potential_obstacles", JArray [JString "Old habits"])
].

Definition sample_analysis : Json := JObject sample_props.

(** The sample with the prose sections too: a value of [ActionPlanProps]. *)
Definition typed_analysis : Json :=
  JObject (sample_props ++ [("momentum_strategy", JString "Small wins"); ("environment_blueprint", JString "Desk");
                            ("decision_analysis", JString "Yes"); ("fuel_strategy", JString "Freedom");
                            ("financial_roadmap", JString "Save"); ("accountability_system", JString "Friend")])%list.

#[local] Instance page_runtime : JsRuntime := {|
  json_parse _ := None;
  number_to_string _ := "0";
  exn_message _ := "TypeError"
|}.

Example render_missing_focus_areas_witness :
  render (JObject [("dream_life_summary", JString "A house by the sea.")])
  = Thrown (ExnReadProp None "map").
Proof. apply render_missing_focus_areas. reflexivity. Defined.

Example render_well_shaped_witness :
  render sample_analysis = Page (map (shown sample_analysis) layout).
Proof. apply render_well_shaped. vm_compute. reflexivity. Defined.

Example render_props_typed_witness :
  props_typed typed_analysis = true /\ render typed_analysis = Page (map (shown typed_analysis) layout).
Proof. split; [vm_compute; reflexivity|]. apply render_props_typed. vm_compute. reflexivity. Defined.

Example render_object_roadmap_witness :
  render (JObject (("financial_roadmap", JObject [("year_1", JString "save")]) :: sample_props))
  = InvalidChild.
Proof. apply (render_object_roadmap _ [("year_1", JString "save")]); vm_compute; reflexivity. Defined.

(** The sample page: the prose sections the sample leaves out are empty. *)
Example sample_page :
  render sample_analysis = Page [
    ("Dream Life Summary", ["A house by the sea."]); ("Focus Areas", ["Deep work"]);
    ("Cut Out (Decidere)", ["Scrolling"]); ("Win Ticker - Daily Tracking", ["Workout"; "Inbox zero"]);
    ("Week 1", ["Write the plan"]); ("Month 1", []); ("Month 3", []); ("Month 6", ["Move"]);
    ("Momentum Strategy", []); ("Environment Blueprint", []); ("Financial Roadmap", []);
    ("Key Insights", []); ("Potential Obstacles & Solutions", ["Old habits"]);
    ("Decision Analysis", []); ("Fuel Strategy", []); ("Accountability System", [])].
Proof. vm_compute. reflexivity. Qed.

End ActionPlan.
