(* ===== verification/Session.v ===== *)
(** * A whole session: the wizard, the submissions and the stored rows

    [App.tsx] handles two kinds of events: the wizard's controls
    ([Wizard.ui_handle], which leave the database alone) and the submit
    button ([Submit.submit]).  [step] joins them on the pair of the UI
    state and the [Store]; [session_reachable] is the set of pairs a
    session can reach from the initial state and an empty database.

    [store_inv] states what the database holds in every reachable state:
    identifiers from [next_id] on are free, every analysis row links to a
    stored plan and no plan has two analyses, a completed plan has its
    analysis, every stored plan is a complete answer set with its gap, and
    the relay was called once per stored plan.  The invariants of the
    wizard ([wizard_inv]) also hold on the whole session. *)

From stdpp Require Import gmap strings.
From S2P Require Import Prelude JsString JsNumber FormData CostEditor ListEditor Json Relay Wizard Submit.

Open Scope string_scope.

Module Session.
Import FormData Json Wizard Submit.

(** The five steps' requirements, as [isStepValid] checks them. *)
Definition complete_form (fd : FormData) : Prop :=
  forall j, (1 <= j <= totalSteps)%nat -> step_requirements j fd.

Record store_inv (st : Store) : Prop := {
  inv_fresh : forall k, (st.(next_id) <= k)%nat ->
    st.(user_plans) !! k = None /\ st.(ai_analyses) !! k = None;
  inv_linked : forall k r, st.(ai_analyses) !! k = Some r -> is_Some (st.(user_plans) !! r.(an_plan_id));
  inv_one_one : forall k1 k2 r1 r2, st.(ai_analyses) !! k1 = Some r1 -> st.(ai_analyses) !! k2 = Some r2 ->
    r1.(an_plan_id) = r2.(an_plan_id) -> k1 = k2;
  inv_completed : forall k p, st.(user_plans) !! k = Some p -> p.(plan_status) = Completed ->
    exists k' r, st.(ai_analyses) !! k' = Some r /\ r.(an_plan_id) = k;
  inv_plans : forall k p, st.(user_plans) !! k = Some p ->
    complete_form p.(plan_form) /\ p.(plan_gap) = financial_gap p.(plan_form);
  inv_log : length st.(relay_log) = size st.(user_plans)
}.

Section Step.
Context `{JsRuntime}.

Inductive Event : Type :=
| UI (ev : UiEvent)
| SubmitClick (o : Outcomes).

(** One event of the application. *)
Definition step (ev : Event) (w : World) : option World :=
  match ev with
  | UI e => (fun s' => (s', w.2)) <$> ui_handle e w.1
  | SubmitClick o => submit o w
  end.

Inductive session_reachable : World -> Prop :=
| session_init : session_reachable (app_initial, empty_store)
| session_step ev w w' : session_reachable w -> step ev w = Some w' -> session_reachable w'.

Fixpoint run_events (evs : list Event) (w : World) : option World :=
  match evs with
  | [] => Some w
  | ev :: rest => match step ev w with Some w' => run_events rest w' | None => None end
  end.

End Step.

(** ** The store operations and the invariant *)

Lemma size_alter {A} (f : A -> A) (m : gmap nat A) i : size (alter f i m) = size m.
Proof.
  destruct (m !! i) as [x|] eqn:E.
  - assert (alter f i m = <[i := f x]> m) as ->.
    { apply map_eq. intros j. rewrite lookup_alter. destruct (decide (i = j)) as [<-|].
      + by rewrite E, lookup_insert_eq.
      + by rewrite lookup_insert_ne. }
    by apply map_size_insert_Some.
  - f_equal. apply map_eq. intros j. rewrite lookup_alter.
    destruct (decide (i = j)) as [<-|]; by rewrite ?E.
Qed.

Lemma empty_store_inv : store_inv empty_store.
Proof. constructor; cbn [user_plans ai_analyses relay_log]; intros; by simplify_map_eq. Qed.

Lemma saved_store_inv fd key st :
  store_inv st -> complete_form fd -> store_inv (saved_store fd key st).
Proof.
  intros [Hf Hl Ho Hc Hp Hlog] Hfd. unfold saved_store, log_relay, insert_plan.
  constructor; cbn [user_plans ai_analyses next_id relay_log].
  - intros k Hk. rewrite lookup_insert_ne by lia. apply Hf. lia.
  - intros k r Hr. apply lookup_insert_is_Some'. right. by eapply Hl.
  - exact Ho.
  - intros k p Hk Hs. apply lookup_insert_Some in Hk as [[<- <-]|[_ Hk]]; [done|eauto].
  - intros k p Hk. apply lookup_insert_Some in Hk as [[<- <-]|[_ Hk]]; eauto.
  - rewrite length_app, map_size_insert_None by (apply Hf; lia). simpl. lia.
Qed.

Lemma insert_analysis_inv row st :
  store_inv st -> is_Some (st.(user_plans) !! row.(an_plan_id)) ->
  (forall k r, st.(ai_analyses) !! k = Some r -> r.(an_plan_id) <> row.(an_plan_id)) ->
  store_inv (insert_analysis row st).
Proof.
  intros [Hf Hl Ho Hc Hp Hlog] Hrow Hnew. unfold insert_analysis.
  constructor; cbn [user_plans ai_analyses next_id relay_log]; try done.
  - intros k Hk. rewrite lookup_insert_ne by lia. apply Hf. lia.
  - intros k r Hk. apply lookup_insert_Some in Hk as [[<- <-]|[_ Hk]]; eauto.
  - intros k1 k2 r1 r2 H1 H2 E.
    apply lookup_insert_Some in H1 as [[<- <-]|[? H1]];
      apply lookup_insert_Some in H2 as [[<- <-]|[? H2]]; try done; eauto.
    + by destruct (Hnew _ _ H2).
    + by destruct (Hnew _ _ H1).
  - intros k p Hk Hs. destruct (Hc k p Hk Hs) as (k' & r & Hr & <-).
    exists k', r. split; [|done]. rewrite lookup_insert_ne; [done|].
    intros <-. destruct (Hf (next_id st)) as [_ Hn]; [lia|congruence].
Qed.

Lemma complete_plan_inv n st :
  store_inv st -> (exists k r, st.(ai_analyses) !! k = Some r /\ r.(an_plan_id) = n) ->
  store_inv (complete_plan n st).
Proof.
  intros [Hf Hl Ho Hc Hp Hlog] Han. unfold complete_plan.
  constructor; cbn [user_plans ai_analyses next_id relay_log]; try done.
  - intros k Hk. rewrite lookup_alter_None. by apply Hf.
  - intros k r Hr. rewrite lookup_alter_is_Some. by eapply Hl.
  - intros k p Hk Hs. apply lookup_alter_Some in Hk as [[<- _]|[_ Hk]]; eauto.
  - intros k p Hk. apply lookup_alter_Some in Hk as [[<- (p' & Hk & ->)]|[_ Hk]]; [|eauto].
    exact (Hp _ _ Hk).
  - by rewrite size_alter.
Qed.

Lemma analysis_after_save_inv fd key st row :
  store_inv st -> complete_form fd -> row.(an_plan_id) = st.(next_id) ->
  store_inv (insert_analysis row (saved_store fd key st)).
Proof.
  intros Hi Hc Hrow. apply insert_analysis_inv; [by apply saved_store_inv| |].
  - rewrite Hrow, saved_store_plan. eauto.
  - cbn [saved_store log_relay insert_plan ai_analyses]. intros k r Hk E.
    destruct (inv_linked st Hi k r Hk) as [p Hp]. rewrite E, Hrow in Hp.
    destruct (inv_fresh st Hi (next_id st)) as [Hn _]; [lia|congruence].
Qed.

Section Preservation.
Context `{JsRuntime}.

Lemma handleSubmit_store_inv o s st :
  store_inv st -> complete_form s.(formData) -> store_inv (snd (handleSubmit o (s, st))).2.
Proof.
  intros Hi Hc.
  destruct (handleSubmit_store_cases o s st) as [->|[->|(row & Hrow & [->| ->])]].
  - done.
  - by apply saved_store_inv.
  - by apply analysis_after_save_inv.
  - apply complete_plan_inv; [by apply analysis_after_save_inv|].
    exists (S (next_id st)), row. split; [|done].
    cbn [insert_analysis saved_store log_relay insert_plan ai_analyses next_id].
    apply lookup_insert_eq.
Qed.

Lemma wizard_inv_frame s s' :
  s'.(currentStep) = s.(currentStep) -> s'.(formData) = s.(formData) ->
  wizard_inv s -> wizard_inv s'.
Proof. unfold wizard_inv, prior_steps_valid. intros -> ->. done. Qed.

Definition session_inv (w : World) : Prop := wizard_inv w.1 /\ store_inv w.2.

Lemma step_preserves ev w w' : session_inv w -> step ev w = Some w' -> session_inv w'.
Proof.
  destruct w as [s st]. intros [Hw Hs] Hstep. destruct ev as [e|o]; simpl in Hw, Hs, Hstep.
  - destruct (ui_handle e s) as [s'|] eqn:E; simpl in Hstep; simplify_eq. split; [|exact Hs].
    by eapply ui_handle_preserves.
  - unfold submit in Hstep. simpl in Hstep.
    destruct (submit_enabled s) eqn:En; [|discriminate]. simpl in Hstep.
    destruct (negb _); simplify_eq. split.
    + destruct (handleSubmit_ui_frame o s st) as (Hc & Hf & _).
      by apply (wizard_inv_frame s).
    + apply handleSubmit_store_inv; [done|]. intros j. by apply inv_submit_valid.
Qed.

Lemma session_reachable_inv w : session_reachable w -> session_inv w.
Proof.
  induction 1 as [|ev w w' _ IH Hstep].
  - split; [apply initial_inv|apply empty_store_inv].
  - by eapply step_preserves.
Qed.

Lemma run_events_reachable evs w w' :
  session_reachable w -> run_events evs w = Some w' -> session_reachable w'.
Proof.
  revert w. induction evs as [|ev evs IH]; simpl; intros w Hw E; [by simplify_eq|].
  destruct (step ev w) as [w1|] eqn:Es; [|discriminate]. eapply IH; [|done].
  by eapply session_step.
Qed.

End Preservation.

(** ** Properties of a session *)

Section Claims.
Context `{JsRuntime}.

(** C26. Every plan row stored during a session holds a complete answer
    set (all five steps meet their requirements) and the gap of that
    answer set. *)
Theorem session_plans_complete w k p :
  session_reachable w -> w.2.(user_plans) !! k = Some p ->
  complete_form p.(plan_form) /\ p.(plan_gap) = financial_gap p.(plan_form).
Proof. intros Hr Hk. destruct (session_reachable_inv w Hr) as [_ Hi]. by eapply inv_plans. Qed.

(** C27. Every stored analysis row links to a stored plan, and no plan
    has two analysis rows. *)
Theorem session_analysis_linked w k r :
  session_reachable w -> w.2.(ai_analyses) !! k = Some r ->
  is_Some (w.2.(user_plans) !! r.(an_plan_id)) /\
  forall k' r', w.2.(ai_analyses) !! k' = Some r' -> r'.(an_plan_id) = r.(an_plan_id) -> k' = k.
Proof.
  intros Hr Hk. destruct (session_reachable_inv w Hr) as [_ Hi]. split; [by eapply inv_linked|].
  intros k' r' Hk' E. by eapply inv_one_one.
Qed.

(** C31. A plan stored as ['completed'] has its analysis stored. *)
Theorem session_completed_has_analysis w k p :
  session_reachable w -> w.2.(user_plans) !! k = Some p -> p.(plan_status) = Completed ->
  exists k' r, w.2.(ai_analyses) !! k' = Some r /\ r.(an_plan_id) = k.
Proof. intros Hr. destruct (session_reachable_inv w Hr) as [_ Hi]. by apply inv_completed. Qed.

(** Over a whole session the relay has been called exactly once per
    stored plan row. *)
Theorem session_relay_calls w :
  session_reachable w -> length w.2.(relay_log) = size w.2.(user_plans).
Proof. intros Hr. destruct (session_reachable_inv w Hr) as [_ Hi]. apply (inv_log _ Hi). Qed.

(** The wizard's invariants (step bounds, valid earlier steps,
    consistent costs, clean lists) hold on every state of a session,
    submissions included. *)
Theorem session_wizard_inv w : session_reachable w -> wizard_inv w.1.
Proof. intros Hr. apply (session_reachable_inv w Hr). Qed.

(** Once an analysis is shown, no event is handled any more: the
    wizard and its submit button are gone. *)
Theorem session_results_final w ev :
  truthy_opt w.1.(analysis) = true -> step ev w = None.
Proof.
  intros Ha. destruct ev as [e|o]; simpl.
  - unfold ui_handle. by rewrite Ha.
  - unfold submit. by rewrite Ha, andb_false_r.
Qed.

End Claims.

(** ** A session with a failed and a successful submission *)

#[local] Instance session_runtime : JsRuntime := {|
  json_parse t :=
    if String.eqb t "OK" then Some (JObject [("analysis", demo_analysis)])
    else if String.eqb t "DENIED" then Some (JObject [("error", JString "invalid x-api-key")])
    else None;
  number_to_string _ := "0";
  exn_message _ := "TypeError"
|}.

Definition demo_session : list Event :=
  map UI demo_events ++
  [UI ClickEnterKey; UI (TypeApiKey "sk-ant-test"); SubmitClick denied; SubmitClick ok_outcomes].

Definition demo_world : World :=
  match run_events demo_session (app_initial, empty_store) with
  | Some w => w | None => (app_initial, empty_store)
  end.

Lemma demo_world_reachable : session_reachable demo_world.
Proof.
  unfold demo_world. destruct (run_events demo_session _) eqn:E.
  - by eapply run_events_reachable; [constructor|].
  - vm_compute in E. discriminate.
Qed.

Definition demo_row : PlanRow :=
  mkPlanRow demo_state.(formData) (financial_gap demo_state.(formData)) Completed.

Example session_plans_complete_witness :
  complete_form demo_row.(plan_form) /\ demo_row.(plan_gap) = financial_gap demo_row.(plan_form).
Proof. apply (session_plans_complete demo_world 1 demo_row demo_world_reachable). vm_compute. reflexivity. Defined.

Example session_analysis_linked_witness :
  is_Some (demo_world.2.(user_plans) !! 1) /\
  forall k' r', demo_world.2.(ai_analyses) !! k' = Some r' -> r'.(an_plan_id) = 1 -> k' = 2.
Proof.
  apply (session_analysis_linked demo_world 2
           (mkAnalysisRow 1 (Some demo_analysis) (Some (JString "Ship it")) None None None None None None)
           demo_world_reachable).
  vm_compute. reflexivity.
Defined.

Example session_completed_has_analysis_witness :
  exists k' r, demo_world.2.(ai_analyses) !! k' = Some r /\ r.(an_plan_id) = 1.
Proof.
  apply (session_completed_has_analysis demo_world 1 demo_row demo_world_reachable);
    vm_compute; reflexivity.
Defined.

Example session_relay_calls_witness : length demo_world.2.(relay_log) = 2.
Proof.
  rewrite (session_relay_calls demo_world demo_world_reachable). vm_compute. reflexivity.
Defined.

Example session_wizard_inv_witness : wizard_inv demo_world.1.
Proof. apply (session_wizard_inv demo_world demo_world_reachable). Defined.

Example session_results_final_witness : step (UI ClickPrevious) demo_world = None.
Proof. apply session_results_final. vm_compute. reflexivity. Defined.

End Session.
