(* ===== verification/Async.v ===== *)
(** * Submissions in flight: [handleSubmit] with its awaits

    [handleSubmit] (App.tsx lines 110-181) is an [async] function: its
    synchronous part (the key check, [setIsAnalyzing(true)],
    [setError('')] and the call of the plan insert) runs in the click,
    and each of its five awaits (the plan insert, [fetch], [response.json()],
    the analysis insert and the status update) hands control back to the
    page, where the user may press Previous, edit the answers or type a
    new key before the call resolves.  The continuation runs with the
    answer set and the key of its closure, captured at the click, and sets
    the page's state as it is when the await resolves.

    The submissions in flight are a list of [Pending] records (the
    closure and the await it is stopped at, with the locals of the try
    block); an event is a UI event, a click on the submit button, or the
    resolution of the await of one submission with an [Answer] of the
    database or of the network.  [Submit.handleSubmit] is this function
    with no event between the awaits ([async_refines_handleSubmit]). *)

From Stdlib Require Import ZArith QArith Qcanon Wellfounded.
From stdpp Require Import gmap strings.
From S2P Require Import Prelude JsString JsNumber FormData CostEditor ListEditor Json Relay Wizard Submit Session.

Module Async.
Import JsNumber FormData Json Relay Wizard Submit.

(** The await a submission is stopped at, with the locals it holds:
    [planData.id], the response, [aiAnalysis] and the analysis row. *)
Inductive Stage : Type :=
| AwaitPlan
| AwaitFetch (id : nat)
| AwaitJson (id : nat) (status : Z) (text : string)
| AwaitAnalysis (id : nat) (a : option Json) (row : AnalysisRow)
| AwaitUpdate (id : nat) (a : option Json).

(** A submission in flight: [formData] and [apiKey] of its closure. *)
Record Pending : Type := mkPending {
  p_form : FormData;
  p_key : string;
  p_stage : Stage
}.

Record AWorld : Type := mkAWorld {
  a_ui : AppState;
  a_store : Store;
  a_pending : list Pending
}.

(** What an awaited call resolves with: the error of a database call,
    the outcome of [fetch], or the body of the response (read from its
    text, so it carries nothing). *)
Inductive Answer : Type :=
| AnsDb (err : option string)
| AnsFetch (o : RelayOutcome)
| AnsJson.

Inductive AEvent : Type :=
| AUI (ev : UiEvent)
| AClick
| AResolve (i : nat) (ans : Answer).

(** How a submission goes on after an await: to the next await, or to
    the end of the function with its last state updates. *)
Inductive Resume : Type :=
| Await (st : Store) (stage : Stage)
| Done (st : Store) (f : AppState -> AppState).

Section Steps.
Context `{JsRuntime}.

(** The [catch] (line 177) and the [finally] (line 179). *)
Definition fail (st : Store) (msg : string) : Resume :=
  Done st (fun s => with_analyzing false (with_error (banner msg) s)).

(** The synchronous part of [handleSubmit]: lines 111-121 and the call
    of the plan insert (lines 123-131). *)
Definition click (w : AWorld) : AWorld :=
  let s := w.(a_ui) in
  if negb (JsString.truthy s.(apiKey))
  then mkAWorld (with_key_prompt missing_key_message s) w.(a_store) w.(a_pending)
  else mkAWorld (with_error "" (with_analyzing true s)) w.(a_store)
                (w.(a_pending) ++ [mkPending s.(formData) s.(apiKey) AwaitPlan]).

(** The code between two awaits, run when the awaited call resolves
    (lines 123-175); [None] when the answer is not one of the call. *)
Definition resume (p : Pending) (ans : Answer) (st : Store) : option Resume :=
  match p.(p_stage), ans with
  | AwaitPlan, AnsDb (Some msg) => Some (fail st msg)
  | AwaitPlan, AnsDb None =>
      (* the row is inserted; then fetch is called with the request *)
      let gap := financial_gap p.(p_form) in
      Some (Await (log_relay (relay_body p.(p_form) gap p.(p_key))
                             (insert_plan (mkPlanRow p.(p_form) gap Analyzing) st))
                  (AwaitFetch st.(next_id)))
  | AwaitFetch _, AnsFetch (RelayRejected msg) => Some (fail st msg)
  | AwaitFetch id, AnsFetch (RelayReplied status text) => Some (Await st (AwaitJson id status text))
  | AwaitJson id status text, AnsJson =>
      match reply_result (RelayReplied status text) with
      | inl msg => Some (fail st msg)
      | inr a =>
          match analysis_row id a with
          | inl e => Some (fail st (exn_message e))
          | inr row => Some (Await st (AwaitAnalysis id a row))
          end
      end
  | AwaitAnalysis _ _ _, AnsDb (Some msg) => Some (fail st msg)
  | AwaitAnalysis id a row, AnsDb None => Some (Await (insert_analysis row st) (AwaitUpdate id a))
  | AwaitUpdate id a, AnsDb r =>
      (* the update's error is not read; setAnalysis, then the finally *)
      Some (Done (match r with Some _ => st | None => complete_plan id st end)
                 (fun s => with_analyzing false (with_analysis a s)))
  | _, _ => None
  end.

(** One event of the page with its submissions in flight. *)
Definition astep (ev : AEvent) (w : AWorld) : option AWorld :=
  match ev with
  | AUI e => (fun s' => mkAWorld s' w.(a_store) w.(a_pending)) <$> ui_handle e w.(a_ui)
  | AClick =>
      if submit_enabled w.(a_ui) && negb (truthy_opt w.(a_ui).(analysis)) then Some (click w) else None
  | AResolve i ans =>
      p ← w.(a_pending) !! i;
      r ← resume p ans w.(a_store);
      Some match r with
           | Await st stage => mkAWorld w.(a_ui) st (<[i := mkPending p.(p_form) p.(p_key) stage]> w.(a_pending))
           | Done st f => mkAWorld (f w.(a_ui)) st (delete i w.(a_pending))
           end
  end.

Fixpoint arun (evs : list AEvent) (w : AWorld) : option AWorld :=
  match evs with
  | [] => Some w
  | ev :: rest => match astep ev w with Some w' => arun rest w' | None => None end
  end.

Definition async_initial : AWorld := mkAWorld app_initial empty_store [].

Inductive async_reachable : AWorld -> Prop :=
| async_init : async_reachable async_initial
| async_step ev w w' : async_reachable w -> astep ev w = Some w' -> async_reachable w'.

End Steps.

(** ** Submissions in flight *)

Section Inflight.
Context `{JsRuntime}.

(** No submission is in flight and the flag is down, or exactly one is
    and the flag is up. *)
Definition inflight_inv (w : AWorld) : Prop :=
  (w.(a_pending) = [] /\ w.(a_ui).(isAnalyzing) = false) \/
  (exists p, w.(a_pending) = [p] /\ w.(a_ui).(isAnalyzing) = true).

(** Every way out of [handleSubmit] goes through the [finally]. *)
Lemma resume_done_flag p ans st st' f :
  resume p ans st = Some (Done st' f) -> forall s, (f s).(isAnalyzing) = false.
Proof. unfold resume, fail. intros Hr s. repeat case_match; simplify_eq; reflexivity. Qed.

Lemma astep_ui e w w' :
  astep (AUI e) w = Some w' ->
  exists s', ui_handle e w.(a_ui) = Some s' /\ w' = mkAWorld s' w.(a_store) w.(a_pending).
Proof. cbn [astep]. destruct (ui_handle e _); cbn; intros; simplify_eq; eauto. Qed.

Lemma astep_resolve i ans w w' :
  astep (AResolve i ans) w = Some w' ->
  exists p r, w.(a_pending) !! i = Some p /\ resume p ans w.(a_store) = Some r /\
    w' = match r with
         | Await st stage => mkAWorld w.(a_ui) st (<[i := mkPending p.(p_form) p.(p_key) stage]> w.(a_pending))
         | Done st f => mkAWorld (f w.(a_ui)) st (delete i w.(a_pending))
         end.
Proof.
  cbn [astep]. destruct (_ !! i) as [p|] eqn:Ep; [|done]. cbn.
  destruct (resume _ _ _) as [r|] eqn:Er; [|done]. cbn. intros [= <-]. eauto.
Qed.

Lemma submit_guard_idle s :
  submit_enabled s && negb (truthy_opt s.(analysis)) = true -> s.(isAnalyzing) = false.
Proof. unfold submit_enabled. destruct (isAnalyzing s); [by rewrite !andb_false_r|done]. Qed.

Lemma astep_inflight ev w w' : inflight_inv w -> astep ev w = Some w' -> inflight_inv w'.
Proof.
  intros Hinv Hs. destruct ev as [e| |i ans].
  - apply astep_ui in Hs as (s' & E & ->). unfold inflight_inv; cbn. by rewrite (ui_handle_isAnalyzing _ _ _ E).
  - cbn [astep] in Hs. destruct (_ && _) eqn:G; [|done]. injection Hs as <-.
    apply submit_guard_idle in G.
    destruct Hinv as [[Hp _]|(p & _ & Hi)]; [|congruence].
    unfold click, inflight_inv. destruct (JsString.truthy _); cbn; rewrite Hp; [right|left]; eauto.
  - apply astep_resolve in Hs as (p & r & Ep & Er & ->).
    destruct Hinv as [[Hp _]|(p0 & Hp & Hi)]; [by rewrite Hp in Ep|].
    rewrite Hp in Ep |- *. destruct i; [|done]. injection Ep as <-.
    destruct r as [st stage|st f]; unfold inflight_inv; cbn; [right; eauto|left].
    split; [done|]. by eapply resume_done_flag.
Qed.

(** The measure of a submission: the awaits it has still to pass. *)
Definition awaits_left (st : Stage) : nat :=
  match st with
  | AwaitPlan => 5
  | AwaitFetch _ => 4
  | AwaitJson _ _ _ => 3
  | AwaitAnalysis _ _ _ => 2
  | AwaitUpdate _ _ => 1
  end.

Definition work (ps : list Pending) : nat := sum_list (map (fun p => awaits_left p.(p_stage)) ps).

Lemma resume_await_left p ans st st' stage :
  resume p ans st = Some (Await st' stage) -> awaits_left stage < awaits_left p.(p_stage).
Proof. unfold resume, fail. intros Hr. repeat case_match; simplify_eq; cbn; lia. Qed.

Lemma work_split ps i p :
  ps !! i = Some p -> work ps = work (take i ps) + awaits_left p.(p_stage) + work (drop (S i) ps).
Proof.
  intros Ep. rewrite <- (take_drop_middle ps i p Ep) at 1.
  unfold work. rewrite map_app, sum_list_with_app. cbn. lia.
Qed.

Lemma resolve_work i ans w w' :
  astep (AResolve i ans) w = Some w' -> work w'.(a_pending) < work w.(a_pending).
Proof.
  intros Hs. apply astep_resolve in Hs as (p & r & Ep & Er & ->).
  rewrite (work_split _ _ _ Ep). pose proof (lookup_lt_Some _ _ _ Ep) as Hlt.
  destruct r as [st stage|st f]; cbn.
  - apply resume_await_left in Er.
    rewrite insert_take_drop by done. unfold work. rewrite map_app, sum_list_with_app. cbn.
    fold (work (take i w.(a_pending))) (work (drop (S i) w.(a_pending))). lia.
  - rewrite delete_take_drop. unfold work. rewrite map_app, sum_list_with_app.
    fold (work (take i w.(a_pending))) (work (drop (S i) w.(a_pending))).
    destruct (p_stage p); cbn; lia.
Qed.

Lemma arun_ui uis w w' :
  arun (map AUI uis) w = Some w' -> w'.(a_pending) = w.(a_pending) /\ w'.(a_store) = w.(a_store).
Proof.
  revert w. induction uis as [|e uis IH]; intros w; cbn [map arun]; [by intros [= ->]|].
  destruct (astep (AUI e) w) as [w1|] eqn:E; [|done]. intros Hr.
  apply astep_ui in E as (s' & _ & ->). by destruct (IH _ Hr) as [-> ->].
Qed.

End Inflight.

(** ** Resolving a submission with the answers of [Outcomes] *)

Section Drive.
Context `{JsRuntime}.

(** The answer [o] gives to the call a submission awaits. *)
Definition answer_of (o : Outcomes) (stage : Stage) : Answer :=
  match stage with
  | AwaitPlan => AnsDb o.(o_insert_plan)
  | AwaitFetch _ => AnsFetch o.(o_relay)
  | AwaitJson _ _ _ => AnsJson
  | AwaitAnalysis _ _ _ => AnsDb o.(o_insert_analysis)
  | AwaitUpdate _ _ => AnsDb o.(o_update)
  end.

(** Resolve the first submission in flight, at most [n] times. *)
Fixpoint drive (o : Outcomes) (n : nat) (w : AWorld) : option AWorld :=
  match n with
  | 0 => Some w
  | S n' =>
      match w.(a_pending) with
      | [] => Some w
      | p :: _ => astep (AResolve 0 (answer_of o p.(p_stage))) w ≫= drive o n'
      end
  end.

(** Progress: every await accepts the answer [o] gives it. *)
Lemma resume_answer_of o p st : exists r, resume p (answer_of o p.(p_stage)) st = Some r.
Proof.
  unfold resume, answer_of. destruct (p_stage p); repeat case_match; eauto.
Qed.

Lemma drive_idle o n w : w.(a_pending) = [] -> drive o n w = Some w.
Proof. intros Hp. destruct n; cbn; [done|]. by rewrite Hp. Qed.

Lemma drive_completes o n w p :
  w.(a_pending) = [p] -> awaits_left p.(p_stage) <= n ->
  exists w', drive o n w = Some w' /\ w'.(a_pending) = [] /\ w'.(a_ui).(isAnalyzing) = false.
Proof.
  revert w p. induction n as [|n IH]; intros w p Hp Hn; [destruct (p_stage p); cbn in Hn; lia|].
  cbn [drive]. rewrite Hp. destruct (resume_answer_of o p w.(a_store)) as [r Er].
  cbn [astep]. rewrite Hp. cbn [lookup list_lookup mbind option_bind]. rewrite Er. cbn [mbind option_bind].
  destruct r as [st stage|st f].
  - apply IH with (p := mkPending p.(p_form) p.(p_key) stage); [done|].
    apply resume_await_left in Er. cbn. lia.
  - rewrite drive_idle by done. eexists. split; [done|]. split; [done|]. by eapply resume_done_flag.
Qed.

End Drive.

(** ** Properties *)

Section Claims.
Context `{JsRuntime}.

Lemma async_reachable_inflight w : async_reachable w -> inflight_inv w.
Proof.
  induction 1 as [|ev w w' _ IH Hs]; [by left|]. by eapply astep_inflight.
Qed.

(** C11. At most one submission is in flight, and one is exactly while
    the analysing flag is up: the submit button, disabled while
    [isAnalyzing], cannot start a second one, whatever the user does
    between the awaits. *)
Theorem async_single_inflight w :
  async_reachable w ->
  length w.(a_pending) <= 1 /\ (w.(a_pending) <> [] <-> w.(a_ui).(isAnalyzing) = true).
Proof.
  intros Hr. destruct (async_reachable_inflight w Hr) as [[-> ->]|(p & -> & ->)]; cbn; [|done].
  split; [lia|]. split; congruence.
Qed.

(** C17. Termination of [handleSubmit]: the relation "some UI events,
    then one await resolves" is well founded, so no interleaving of the
    user's events resolves awaits forever; each submission passes at most
    five awaits. *)
Theorem submission_terminates :
  well_founded (fun w' w => exists uis i ans w1,
                  arun (map AUI uis) w = Some w1 /\ astep (AResolve i ans) w1 = Some w').
Proof.
  apply (wf_incl _ _ (ltof _ (fun w => work w.(a_pending)))); [|apply well_founded_ltof].
  intros w' w (uis & i & ans & w1 & Hr & Hs). unfold ltof.
  destruct (arun_ui _ _ _ Hr) as [<- _]. by eapply resolve_work.
Qed.

(** C5. Refinement: a click followed by the resolution of each await
    with the answers of [o], with no event in between, is the atomic
    submission [Submit.submit] of the session model, on every path (no
    key, each failure, success); five resolutions always suffice. *)
Theorem async_refines_handleSubmit o s st :
  (astep AClick (mkAWorld s st []) ≫= drive o 5) = (fun w => mkAWorld w.1 w.2 []) <$> submit o (s, st).
Proof.
  unfold submit. cbn [astep a_ui]. destruct (_ && _); [|done]. cbn [mbind option_bind fmap option_fmap option_map].
  unfold click. cbn [a_ui a_store a_pending]. rewrite handleSubmit_run.
  destruct (JsString.truthy (apiKey s)); cbn [negb]; [|reflexivity].
  rewrite submit_body_run. unfold saved_store.
  destruct (o_insert_plan o) eqn:Ei; [cbn; by rewrite Ei|].
  cbn. rewrite Ei. cbn.
  destruct (o_relay o) as [msg|status text]; cbn; [reflexivity|].
  destruct (reply_result (RelayReplied status text)) as [msg|a]; cbn; [reflexivity|].
  destruct (analysis_row (next_id st) a) as [e|row]; cbn; [reflexivity|].
  destruct (o_insert_analysis o); cbn; [reflexivity|].
  destruct (o_update o); reflexivity.
Qed.

(** C15. The plan row and the request are those of the click: whatever
    the user does while the plan insert is pending (Previous, edits of the
    answers, a new key), the row written has the answer set and the gap of
    the moment of the click, and the request sent to the relay carries
    that answer set and that key. *)
Theorem submission_uses_click_answers s st uis w1 w2 :
  JsString.truthy s.(apiKey) = true ->
  astep AClick (mkAWorld s st []) = Some w1 -> arun (map AUI uis) w1 = Some w2 ->
  exists w3, astep (AResolve 0 (AnsDb None)) w2 = Some w3 /\
    w3.(a_store).(user_plans) !! st.(next_id)
      = Some (mkPlanRow s.(formData) (financial_gap s.(formData)) Analyzing) /\
    w3.(a_store).(relay_log)
      = (st.(relay_log) ++ [relay_body s.(formData) (financial_gap s.(formData)) s.(apiKey)])%list.
Proof.
  intros Hk Hc Hr. cbn [astep a_ui] in Hc. destruct (_ && _); [|done]. injection Hc as <-.
  destruct (arun_ui _ _ _ Hr) as [Hp Hst]. unfold click in Hp, Hst. cbn [a_ui a_store a_pending] in Hp, Hst.
  rewrite Hk in Hp, Hst. cbn in Hp, Hst.
  cbn [astep]. rewrite Hp, Hst. eexists. split; [reflexivity|]. cbn. split; [apply lookup_insert_eq|done].
Qed.

(** C19. Liveness of a submission: from every reachable state, whatever
    the user did since the click, resolving the awaits with the answers
    of any [Outcomes] ends the submission within five resolutions: none
    is left in flight and the analysing flag is down, so the button works
    again. *)
Theorem submission_completes o w :
  async_reachable w ->
  exists w', drive o 5 w = Some w' /\ w'.(a_pending) = [] /\ w'.(a_ui).(isAnalyzing) = false.
Proof.
  intros Hr. destruct (async_reachable_inflight w Hr) as [[Hp Hi]|(p & Hp & _)].
  - exists w. by rewrite drive_idle.
  - apply (drive_completes o 5 w p Hp). destruct (p_stage p); cbn; lia.
Qed.

Lemma arun_reachable evs w w' : async_reachable w -> arun evs w = Some w' -> async_reachable w'.
Proof.
  revert w. induction evs as [|ev evs IH]; intros w Hw; cbn [arun]; [by intros [= <-]|].
  destruct (astep ev w) as [w1|] eqn:E; [|done]. intros Hr. eapply IH; [|exact Hr]. by econstructor.
Qed.

End Claims.

(** ** The database across interleavings *)

Section StoreInv.
Context `{JsRuntime}.
Import Session.

(** A plan row that is stored and that no analysis row links to yet. *)
Definition plan_open (st : Store) (id : nat) : Prop :=
  is_Some (st.(user_plans) !! id) /\ forall k r, st.(ai_analyses) !! k = Some r -> r.(an_plan_id) <> id.

(** What the store holds for a submission stopped at each await. *)
Definition stage_ok (st : Store) (stage : Stage) : Prop :=
  match stage with
  | AwaitPlan => True
  | AwaitFetch id | AwaitJson id _ _ => plan_open st id
  | AwaitAnalysis id _ row => plan_open st id /\ row.(an_plan_id) = id
  | AwaitUpdate id _ => exists k r, st.(ai_analyses) !! k = Some r /\ r.(an_plan_id) = id
  end.

Definition async_inv (w : AWorld) : Prop :=
  inflight_inv w /\ wizard_inv w.(a_ui) /\ store_inv w.(a_store) /\
  Forall (fun p => complete_form p.(p_form) /\ stage_ok w.(a_store) p.(p_stage)) w.(a_pending).

Lemma plan_open_saved fd key st : store_inv st -> plan_open (saved_store fd key st) st.(next_id).
Proof.
  intros Hi. split; [rewrite saved_store_plan; eauto|].
  cbn [saved_store log_relay insert_plan ai_analyses]. intros k r Hk E.
  destruct (inv_linked st Hi k r Hk) as [p Hp]. rewrite E in Hp.
  destruct (inv_fresh st Hi (next_id st)) as [Hn _]; [lia|congruence].
Qed.

(** Each piece of the try block keeps the database invariant and leaves
    the store ready for the next await. *)
Lemma resume_inv p ans st r :
  store_inv st -> complete_form p.(p_form) -> stage_ok st p.(p_stage) -> resume p ans st = Some r ->
  match r with Await st' stage => store_inv st' /\ stage_ok st' stage | Done st' _ => store_inv st' end.
Proof.
  intros Hi Hc Hs. unfold resume, fail.
  destruct (p_stage p) as [|id|id status text|id a row|id a]; cbn in Hs;
    destruct ans as [[msg|]|[msg|status' text']|]; intros Hr; simplify_eq; try done.
  - fold (saved_store (p_form p) (p_key p) st). split; [by apply saved_store_inv|by apply plan_open_saved].
  - destruct (reply_result _) as [msg|a]; [by simplify_eq|].
    destruct (analysis_row id a) as [e|row] eqn:Ea; simplify_eq; [done|].
    split; [done|]. split; [done|]. by eapply analysis_row_plan_id.
  - destruct Hs as [[Hp Hn] <-]. split.
    + by apply insert_analysis_inv.
    + exists st.(next_id), row. split; [apply lookup_insert_eq|done].
  - by apply complete_plan_inv.
Qed.

Lemma resume_done_frame p ans st st' f :
  resume p ans st = Some (Done st' f) ->
  forall s, (f s).(currentStep) = s.(currentStep) /\ (f s).(formData) = s.(formData).
Proof. unfold resume, fail. intros Hr s. repeat case_match; simplify_eq; done. Qed.

Lemma astep_async_inv ev w w' : async_inv w -> astep ev w = Some w' -> async_inv w'.
Proof.
  intros (Hf & Hw & Hs & Hp) Hstep. split; [by eapply astep_inflight|].
  destruct ev as [e| |i ans].
  - apply astep_ui in Hstep as (s' & E & ->). split_and!; [|done|done]. by eapply ui_handle_preserves.
  - cbn [astep] in Hstep. destruct (_ && _) eqn:G; [|done]. injection Hstep as <-.
    pose proof (submit_guard_idle _ G) as Hi. apply andb_prop in G as [En _].
    destruct Hf as [[Hnil _]|(p & _ & Hi')]; [|congruence].
    unfold click. destruct (JsString.truthy _); cbn; rewrite Hnil; cbn [app]; split_and!;
      try done; try by apply (wizard_inv_frame (a_ui w)).
    repeat constructor. intros j. by apply inv_submit_valid.
  - apply astep_resolve in Hstep as (p & r & Ep & Er & ->).
    destruct Hf as [[Hnil _]|(p0 & Hp0 & _)]; [by rewrite Hnil in Ep|].
    rewrite Hp0 in Ep, Hp |- *. destruct i; [|done]. injection Ep as <-.
    apply Forall_singleton in Hp as [Hc Hst]. pose proof (resume_inv _ _ _ _ Hs Hc Hst Er) as Hr.
    destruct r as [st stage|st f]; cbn.
    { destruct Hr as [Hs' Hst']. split_and!; [done|done|]. apply Forall_singleton. done. }
    split_and!; [|done|constructor]. destruct (resume_done_frame _ _ _ _ _ Er (a_ui w)) as [H1 H2].
    by apply (wizard_inv_frame (a_ui w)).
Qed.

Lemma async_reachable_inv w : async_reachable w -> async_inv w.
Proof.
  induction 1 as [|ev w w' _ IH Hs].
  - split_and!; [by left|apply initial_inv|apply empty_store_inv|constructor].
  - by eapply astep_async_inv.
Qed.

(** C22. The database invariant of the session model holds whatever the
    user does between the awaits: every stored plan is a complete answer
    set with its gap, every analysis row links to a stored plan and no
    plan has two, a completed plan has its analysis, identifiers are
    fresh, one request was sent per plan; the wizard's invariants hold
    on the page. *)
Theorem async_store_invariants w :
  async_reachable w -> store_inv w.(a_store) /\ wizard_inv w.(a_ui).
Proof. intros Hr. destruct (async_reachable_inv w Hr) as (_ & Hw & Hs & _). done. Qed.

End StoreInv.

End Async.

(** ** Witnesses *)

Module AsyncDemo.
Import FormData ListEditor Json Wizard Submit Session Async.

#[local] Instance async_runtime : JsRuntime := {|
  json_parse t := if String.eqb t "OK" then Some (JObject [("analysis", JObject [])]) else None;
  number_to_string _ := "0";
  exn_message _ := "TypeError"
|}.

(** After the click: back to step 4 and a new answer. *)
Definition demo_uis : list UiEvent :=
  [ClickPrevious; Edit (E4 (S4_environment_changes "open plan office"))].

Definition demo_w1 : AWorld :=
  match astep AClick (mkAWorld keyed_state empty_store []) with Some w => w | None => async_initial end.

Definition demo_w2 : AWorld :=
  match arun (map AUI demo_uis) demo_w1 with Some w => w | None => demo_w1 end.

Lemma demo_w2_reachable : async_reachable demo_w2.
Proof.
  apply (arun_reachable (map AUI (demo_events ++ [ClickEnterKey; TypeApiKey "sk-ant-test"]) ++
                           AClick :: map AUI demo_uis) async_initial); [constructor|].
  vm_compute. reflexivity.
Qed.

(** The page shows the edited answer while the pending submission holds
    the answers of the click. *)
Example async_single_inflight_witness :
  async_reachable demo_w2 /\
  length demo_w2.(a_pending) <= 1 /\ (demo_w2.(a_pending) <> [] <-> demo_w2.(a_ui).(isAnalyzing) = true).
Proof. split; [apply demo_w2_reachable|]. apply (async_single_inflight demo_w2 demo_w2_reachable). Defined.

Example submission_uses_click_answers_witness :
  demo_w2.(a_ui).(formData) <> keyed_state.(formData) /\
  exists w3, astep (AResolve 0 (AnsDb None)) demo_w2 = Some w3 /\
    w3.(a_store).(user_plans) !! 0
      = Some (mkPlanRow keyed_state.(formData) (financial_gap keyed_state.(formData)) Analyzing) /\
    w3.(a_store).(relay_log)
      = ([] ++ [relay_body keyed_state.(formData) (financial_gap keyed_state.(formData)) keyed_state.(apiKey)])%list.
Proof.
  split; [vm_compute; congruence|].
  apply (submission_uses_click_answers keyed_state empty_store demo_uis demo_w1 demo_w2);
    vm_compute; reflexivity.
Defined.

Example submission_completes_witness :
  async_reachable demo_w2 /\
  exists w', drive ok_outcomes 5 demo_w2 = Some w' /\ w'.(a_pending) = [] /\ w'.(a_ui).(isAnalyzing) = false.
Proof. split; [apply demo_w2_reachable|]. apply (submission_completes ok_outcomes demo_w2 demo_w2_reachable). Defined.

(** The edit made while the submission was pending is lost: the results
    page opens on the analysis of the answers of the click, and the
    stored plan is that answer set, not the one the page last showed. *)
Example stale_results_example :
  exists w', drive ok_outcomes 5 demo_w2 = Some w' /\ truthy_opt w'.(a_ui).(analysis) = true /\
    w'.(a_store).(user_plans) !! 0 = Some (mkPlanRow keyed_state.(formData)
                                            (financial_gap keyed_state.(formData)) Completed) /\
    w'.(a_ui).(formData) <> keyed_state.(formData).
Proof. eexists. split; [vm_compute; reflexivity|]. vm_compute. split_and!; [done|done|congruence]. Qed.

Example async_store_invariants_witness :
  async_reachable demo_w2 /\ store_inv demo_w2.(a_store) /\ wizard_inv demo_w2.(a_ui).
Proof. split; [apply demo_w2_reachable|]. apply (async_store_invariants demo_w2 demo_w2_reachable). Defined.

End AsyncDemo.
