(* ===== verification/Pipeline.v ===== *)
(** * The client and the relay over HTTP

    [handleSubmit] (src/App.tsx, lines 136-152) sends
    [JSON.stringify({ planData: { ...formData, financial_gap },
    anthropicApiKey })] to the edge function, and the edge function
    (supabase/functions/analyze-plan/index.ts) answers with
    [new Response(JSON.stringify(...))].  Here the two models meet through
    the codec of [JsonCodec]: the relay's [JSON.parse] is [parse_json], its
    [Number::toString] is [NumberFormat.number_to_string], and the text the
    client reads is [stringify] of the relay's response body.  The
    exception messages stay a parameter, [exn_text]. *)

From Stdlib Require Import ZArith QArith Qcanon.
From stdpp Require Import gmap strings.
From S2P Require Import Prelude JsString JsNumber NumberFormat FormData CostEditor Json JsonCodec JsonExtract Relay Wizard Submit.

Module Pipeline.
Import JsNumber FormData Json JsonCodec JsonExtract Relay Wizard Submit.

Section Wire.
Context (exn_text : Exn -> string).

(** The engine's services: the codec and the number printer. *)
#[local] Instance std_runtime : JsRuntime := {|
  json_parse := parse_json;
  number_to_string := NumberFormat.number_to_string;
  exn_message := exn_text
|}.

(** [fetch(`${supabaseUrl}/functions/v1/analyze-plan`, { method: 'POST',
    body: JSON.stringify({ planData: { ...formData, financial_gap },
    anthropicApiKey: apiKey }) })] *)
Definition relay_request (fd : FormData) (key : string) : Request :=
  mkRequest "POST" (stringify (relay_body fd (financial_gap fd) key)).

(** The text of [new Response(JSON.stringify(body), ...)]. *)
Definition response_text (r : Response) : string :=
  match r.(res_body) with Some b => stringify b | None => "" end.

(** What the client's [fetch] resolves to: the relay's status and text. *)
Definition relay_outcome (ups : Outbound -> FetchResult) (fd : FormData) (key : string) : RelayOutcome :=
  let r := (handler ups (relay_request fd key)).1 in
  RelayReplied r.(res_status) (response_text r).

(** The awaited results of one submission, with the relay in place of an
    arbitrary reply. *)
Definition wire (ups : Outbound -> FetchResult) (o : Outcomes) (fd : FormData) (key : string) : Outcomes :=
  mkOutcomes o.(o_insert_plan) (relay_outcome ups fd key) o.(o_insert_analysis) o.(o_update).

(** ** [normalize] changes nothing the prompt reads *)

Definition opt_decimals (o : option Json) : bool :=
  match o with Some v => decimals v | None => true end.

Lemma get_decimals k ps :
  forallb (fun kv => decimals kv.2) ps = true -> opt_decimals (get k (JObject ps)) = true.
Proof.
  induction ps as [|[k' v] ps IH]; [done|]. cbn [forallb fst snd]. intros [Hv Hps]%andb_prop.
  cbn [get List.find fst]. destruct (String.eqb k' k); [done|]. by apply IH.
Qed.

Lemma get_normalize k ps :
  get k (JObject (map (fun kv => (kv.1, normalize kv.2)) ps)) = option_map normalize (get k (JObject ps)).
Proof.
  induction ps as [|[k' v] ps IH]; [done|]. cbn [map get List.find fst snd].
  destruct (String.eqb k' k); [done|]. exact IH.
Qed.

Lemma normalize_plain ps :
  plain_keys ps = true -> normalize (JObject ps) = JObject (map (fun kv => (kv.1, normalize kv.2)) ps).
Proof.
  intros Hp. cbn [normalize]. f_equal. apply js_object_plain. by rewrite plain_keys_map.
Qed.

Lemma normalize_not_null v : exact v = true -> normalize v = JNull -> v = JNull.
Proof. intros Hd He. destruct v as [| |[| |]| | |]; cbn in *; congruence. Qed.

(** An array item as [join] shows it: [null] as the empty string. *)
Lemma items_normalize xs :
  (forall x, x ∈ xs -> exact x = true -> to_js_string (normalize x) = to_js_string x) ->
  forallb exact xs = true ->
  map (fun x => match x with JNull => "" | _ => to_js_string x end) (map normalize xs)
  = map (fun x => match x with JNull => "" | _ => to_js_string x end) xs.
Proof.
  intros IH Hd. rewrite map_map. apply map_ext_in. intros x Hx.
  rewrite forallb_forall in Hd. specialize (Hd x Hx). apply list_elem_of_In in Hx.
  destruct (normalize x) eqn:E; [by rewrite (normalize_not_null x Hd E)|..];
    rewrite <- E, IH by done; (destruct x; [discriminate E|..]; reflexivity).
Qed.

Lemma to_js_string_normalize v : exact v = true -> to_js_string (normalize v) = to_js_string v.
Proof.
  induction v as [| | [| |] | | xs IH | ps IH] using json_ind'; try done.
  cbn [exact normalize to_js_string]. intros Hd. apply (f_equal (JsString.join ",")).
  refine (items_normalize xs _ Hd). intros x Hx. rewrite Forall_forall in IH. by apply IH.
Qed.

Definition opt_exact (o : option Json) : bool :=
  match o with Some v => exact v | None => true end.

Lemma get_exact k ps :
  forallb (fun kv => exact kv.2) ps = true -> opt_exact (get k (JObject ps)) = true.
Proof.
  induction ps as [|[k' v] ps IH]; [done|]. cbn [forallb fst snd]. intros [Hv Hps]%andb_prop.
  cbn [get List.find fst]. destruct (String.eqb k' k); [done|]. by apply IH.
Qed.

Lemma interp_normalize o : opt_exact o = true -> interp (option_map normalize o) = interp o.
Proof. destruct o as [v|]; [apply to_js_string_normalize|done]. Qed.

Lemma join_opt_normalize o : opt_exact o = true -> join_opt (option_map normalize o) = join_opt o.
Proof.
  destruct o as [[| | [| |] | | xs | ps]|]; try done. cbn [opt_exact exact]. intros Hd.
  cbn [option_map normalize join_opt]. rewrite items_normalize; [done| |done].
  intros x _. apply to_js_string_normalize.
Qed.

Lemma truthy_opt_normalize o : opt_exact o = true -> truthy_opt (option_map normalize o) = truthy_opt o.
Proof. by destruct o as [[| | [| |] | | xs | ps]|]. Qed.

(** The relay builds the same prompt from the parsed copy of an object
    with plain keys and exact numbers as from the object itself. *)
Lemma build_prompt_normalize ps :
  plain_keys ps = true -> forallb (fun kv => exact kv.2) ps = true ->
  build_prompt (Some (normalize (JObject ps))) = build_prompt (Some (JObject ps)).
Proof.
  intros Hp He. rewrite normalize_plain by done. unfold build_prompt, prompt_text. cbv beta iota zeta.
  rewrite !get_normalize, !join_opt_normalize, !interp_normalize, truthy_opt_normalize
    by (by apply get_exact).
  reflexivity.
Qed.

(** ** The request *)

Lemma parse_json_stringify v : decimals v = true -> parse_json (stringify v) = Some (normalize v).
Proof.
  intros Hd. unfold parse_json, stringify. rewrite String.list_ascii_of_string_of_list_ascii.
  by rewrite p_value_print.
Qed.

Lemma relay_body_parse fd gap key :
  decimals (plan_json fd gap) = true ->
  parse_json (stringify (relay_body fd gap key))
  = Some (JObject [("planData", normalize (plan_json fd gap)); ("anthropicApiKey", JString key)]).
Proof.
  intros He. rewrite parse_json_stringify.
  - unfold relay_body. rewrite normalize_plain by reflexivity. reflexivity.
  - cbn [relay_body decimals forallb fst snd]. by rewrite He.
Qed.

(** A value without objects inside: arrays, strings, numbers, booleans. *)
Fixpoint flat (v : Json) : bool :=
  match v with
  | JObject _ => false
  | JArray xs => forallb flat xs
  | _ => true
  end.

Lemma normalize_flat v : exact v = true -> flat v = true -> normalize v = v.
Proof.
  induction v as [| | [| |] | | xs IH | ps IH] using json_ind'; try done.
  cbn [exact flat normalize]. intros He Hf. f_equal.
  induction xs as [|x xs IHxs]; [done|]. apply Forall_cons in IH as [Hx IH].
  cbn [forallb] in He, Hf. apply andb_prop in He as [He1 He2]. apply andb_prop in Hf as [Hf1 Hf2].
  cbn [map]. by rewrite Hx, IHxs.
Qed.

Lemma flat_strings l : flat (strings_json l) = true.
Proof. induction l as [|x l IH]; [done|]. exact IH. Qed.

(** Every property but one holds a flat value: [get] of the parsed copy
    is [get] of the original for every other key. *)
Lemma get_normalize_flat k k0 ps :
  Forall (fun kv => kv.1 = k0 \/ flat kv.2 = true) ps -> forallb (fun kv => exact kv.2) ps = true ->
  k <> k0 -> option_map normalize (get k (JObject ps)) = get k (JObject ps).
Proof.
  intros Hf He Hk. induction ps as [|[k' v] ps IH]; [done|].
  apply Forall_cons in Hf as [Hv Hf]. cbn [forallb fst snd] in He. apply andb_prop in He as [He1 He2].
  cbn [get List.find fst snd] in *. destruct (String.eqb_spec k' k) as [->|]; [|by apply IH].
  cbn [option_map]. destruct Hv as [Hv|Hv]; [done|]. by rewrite normalize_flat.
Qed.

Lemma plan_json_flat fd gap :
  exists ps, plan_json fd gap = JObject ps /\ plain_keys ps = true /\
    Forall (fun kv => kv.1 = "monthly_costs" \/ flat kv.2 = true) ps.
Proof.
  eexists. split; [reflexivity|]. split; [reflexivity|]. repeat apply List.Forall_cons; [..|apply List.Forall_nil]; cbn [fst snd];
    first [by left | right; by rewrite ?flat_strings].
Qed.

Lemma plan_prompt fd gap :
  exists prompt, build_prompt (Some (plan_json fd gap)) = inr prompt.
Proof. eexists. reflexivity. Qed.

(** The relay's [try] block on the client's request: one call, with the
    client's key and the prompt of the client's plan. *)
Lemma relay_request_try ups fd key prompt :
  JsString.truthy key = true -> exact (plan_json fd (financial_gap fd)) = true ->
  build_prompt (Some (plan_json fd (financial_gap fd))) = inr prompt ->
  try_block ups (relay_request fd key) =
    (match ups (outbound_request key prompt) with
     | FetchRejected e => inl e
     | FetchResolved st text =>
         if negb (response_ok st) then inr (error_response st ("Claude API error: " +:+ text))
         else handle_reply text
     end, [outbound_request key prompt]).
Proof.
  intros Hk He Hb.
  rewrite (try_block_upstream ups _ (JObject [("planData", normalize (plan_json fd (financial_gap fd)));
                                              ("anthropicApiKey", JString key)]) prompt);
    [done|by apply relay_body_parse, exact_decimals|done|exact Hk|].
  rewrite get_cons_eq. unfold plan_json. rewrite build_prompt_normalize; [exact Hb|done|exact He].
Qed.

(** ** What the client reads *)

Lemma reply_of_analysis st a :
  response_ok st = true -> decimals a = true ->
  reply_result (RelayReplied st (response_text (mkResponse st jsonHeaders (Some (JObject [("analysis", a)])))))
  = inr (Some (normalize a)).
Proof.
  intros Hok Hd. cbn [response_text res_body]. rewrite (reply_result_ok st _ (normalize (JObject [("analysis", a)])));
    [|done| |by rewrite normalize_plain].
  - by rewrite normalize_plain.
  - cbn [json_parse std_runtime]. apply parse_json_stringify. cbn. by rewrite Hd.
Qed.

Lemma reply_of_error st msg :
  response_ok st = false ->
  reply_result (RelayReplied st (response_text (error_response st msg)))
  = inl (if JsString.truthy msg then msg else "Failed to analyze plan").
Proof.
  intros Hok. unfold reply_result, read_relay_reply. cbn [response_text error_response res_body].
  cbn [json_parse std_runtime]. rewrite parse_json_stringify by reflexivity.
  rewrite normalize_plain by reflexivity. rewrite Hok. cbn. by destruct (JsString.truthy msg).
Qed.

(** ** Theorems *)

(** C14. Over HTTP, a submission with a key makes the relay call the
    service exactly once, with the client's key and the prompt built from
    the client's own form: [JSON.stringify] on one side and [JSON.parse] on
    the other lose nothing the prompt reads. *)
Theorem pipeline_prompt ups fd key :
  JsString.truthy key = true -> exact (plan_json fd (financial_gap fd)) = true ->
  exists prompt, build_prompt (Some (plan_json fd (financial_gap fd))) = inr prompt /\
                 (handler ups (relay_request fd key)).2 = [outbound_request key prompt].
Proof.
  intros Hk He. destruct (plan_prompt fd (financial_gap fd)) as [prompt Hb].
  exists prompt. split; [done|]. rewrite handler_not_options by reflexivity.
  rewrite (relay_request_try ups fd key prompt Hk He Hb). by repeat case_match.
Qed.

(** C13. When the service's reply holds one [{...}] block whose numbers
    an engine reads as finite doubles, the client's [aiAnalysis] is that
    block as [JSON.parse] read it, after its trip through the relay's
    [JSON.stringify] and the client's [response.json()].  (A literal such
    as [1e400] is read as Infinity and sent on as [null]: the range
    hypothesis excludes it, and within the range the engine's
    parse-print-parse trip gives back the same doubles.) *)
Theorem pipeline_analysis ups fd key prompt st text data prefix mid suffix a :
  JsString.truthy key = true -> exact (plan_json fd (financial_gap fd)) = true ->
  build_prompt (Some (plan_json fd (financial_gap fd))) = inr prompt ->
  ups (outbound_request key prompt) = FetchResolved st text -> response_ok st = true ->
  parse_json text = Some data ->
  content_text data = inr (Some (JString (prefix +:+ "{" +:+ mid +:+ "}" +:+ suffix))) ->
  existsb is_open (String.list_ascii_of_string prefix) = false ->
  existsb is_close (String.list_ascii_of_string suffix) = false ->
  parse_json ("{" +:+ mid +:+ "}") = Some a -> decimals a = true -> in_double_range a = true ->
  reply_result (relay_outcome ups fd key) = inr (Some (normalize a)).
Proof.
  intros Hk He Hb Hu Hok Hd Hc Hpre Hsuf Ha Hda _. unfold relay_outcome.
  rewrite handler_not_options by reflexivity. rewrite (relay_request_try ups fd key prompt Hk He Hb).
  rewrite Hu, Hok. cbn [negb]. rewrite (handle_reply_block text data prefix mid suffix a) by done.
  by apply reply_of_analysis.
Qed.

(** C18. Whatever the service does, the client reads the relay's answer
    as one of two things: the analysis the relay answered with, or the
    relay's error message verbatim ([Failed to analyze plan] when that
    message is empty), which [handleSubmit] throws. *)
Theorem pipeline_reply ups fd key :
  (exists a, (handler ups (relay_request fd key)).1 = mkResponse 200 jsonHeaders (Some (JObject [("analysis", a)]))
             /\ (decimals a = true -> reply_result (relay_outcome ups fd key) = inr (Some (normalize a))))
  \/ (exists st msg, (handler ups (relay_request fd key)).1 = error_response st msg
      /\ reply_result (relay_outcome ups fd key) = inl (if JsString.truthy msg then msg else "Failed to analyze plan")).
Proof.
  unfold relay_outcome.
  destruct (handler_response_shape ups (relay_request fd key) eq_refl) as [[a Ha]|(st & msg & Ha & Hok)];
    rewrite Ha; [left|right].
  - exists a. split; [done|]. by apply reply_of_analysis.
  - exists st, msg. split; [done|]. by apply reply_of_error.
Qed.

(** C20. The relay reads the client's request body back with the key and
    every answer of the form unchanged; only the cost object
    [monthly_costs] is rebuilt, in [JSON.parse]'s key order. *)
Theorem relay_reads_request fd key :
  exact (plan_json fd (financial_gap fd)) = true ->
  exists pd, parse_json (relay_request fd key).(req_body)
             = Some (JObject [("planData", pd); ("anthropicApiKey", JString key)])
    /\ (forall k, k <> "monthly_costs" -> get k pd = get k (plan_json fd (financial_gap fd)))
    /\ get "monthly_costs" pd = Some (normalize (costs_json fd.(monthly_costs))).
Proof.
  intros He. exists (normalize (plan_json fd (financial_gap fd))). unfold relay_request. cbn [req_body].
  split; [by apply relay_body_parse, exact_decimals|].
  destruct (plan_json_flat fd (financial_gap fd)) as (ps & Eps & Hp & Hf). rewrite Eps in He |- *.
  rewrite normalize_plain by done. split.
  - intros k Hk. rewrite get_normalize. by apply (get_normalize_flat k "monthly_costs").
  - rewrite get_normalize, <- Eps. reflexivity.
Qed.

(** ** [interface PlanData] on both sides of the wire *)

Lemma forallb_perm {A} (f : A -> bool) l l' : l ≡ₚ l' -> forallb f l = forallb f l'.
Proof.
  induction 1; cbn [forallb]; try congruence.
  match goal with |- ?a && (?b && _) = _ => by destruct a, b end.
Qed.

Lemma typed_number x : decimals (JNumber x) = true -> has_type TNumber (Some (normalize (JNumber x))) = exact (JNumber x).
Proof. destruct x as [q| |]; cbn; [by destruct (NumberFormat.decimal_repr q)|done|done]. Qed.

Lemma typed_strings l : has_type TStringArray (Some (normalize (strings_json l))) = true.
Proof. induction l as [|x l IH]; [done|]. exact IH. Qed.

Lemma exact_strings l : exact (strings_json l) = true.
Proof. induction l as [|x l IH]; [done|]. exact IH. Qed.

Lemma costs_entries_typed (l : list (string * JsNum)) :
  forallb (fun kv => decimals kv.2) ((fun kv => (kv.1, JNumber kv.2)) <$> l) = true ->
  forallb (fun kv => is_json_number kv.2) (map (fun kv => (kv.1, normalize kv.2)) ((fun kv => (kv.1, JNumber kv.2)) <$> l))
  = forallb (fun kv => exact kv.2) ((fun kv => (kv.1, JNumber kv.2)) <$> l).
Proof.
  induction l as [|[k x] l IH]; [done|]. cbn [fmap list_fmap map forallb fst snd].
  intros [Hx Hl]%andb_prop. rewrite IH by done. f_equal. by apply (typed_number x).
Qed.

Lemma fst_costs_entries (l : list (string * JsNum)) :
  map fst (map (fun kv => (kv.1, normalize kv.2)) ((fun kv => (kv.1, JNumber kv.2)) <$> l)) = l.*1.
Proof. induction l as [|[k x] l IH]; [done|]. cbn. by rewrite IH. Qed.

Lemma typed_costs m :
  decimals (costs_json m) = true -> has_type TNumberRecord (Some (normalize (costs_json m))) = exact (costs_json m).
Proof.
  unfold costs_json. cbn [normalize decimals exact has_type]. intros Hd.
  rewrite (forallb_perm _ _ _ (js_object_perm _ ltac:(rewrite fst_costs_entries; apply NoDup_fst_map_to_list))).
  by apply costs_entries_typed.
Qed.

Lemma typed_scalars b t :
  has_type TBoolean (Some (normalize (JBool b))) = true /\ has_type TString (Some (normalize (JString t))) = true.
Proof. done. Qed.

Lemma exact_scalars b t : exact (JBool b) = true /\ exact (JString t) = true.
Proof. done. Qed.

Lemma decimals_scalars l b t :
  decimals (JBool b) = true /\ decimals (JString t) = true /\ decimals (strings_json l) = true.
Proof. split_and!; [done|done|]. apply exact_decimals, exact_strings. Qed.

Lemma exact_obj ps : exact (JObject ps) = forallb (fun kv => exact kv.2) ps.
Proof. done. Qed.

Lemma decimals_obj ps : decimals (JObject ps) = forallb (fun kv => decimals kv.2) ps.
Proof. done. Qed.

(** The relay's [planData] has the declared type exactly when every
    number the client sent is finite. *)
Lemma plan_data_typed_normalize fd gap :
  decimals (plan_json fd gap) = true ->
  plan_data_typed (normalize (plan_json fd gap)) = exact (plan_json fd gap).
Proof.
  unfold plan_json. rewrite decimals_obj, exact_obj. cbn [forallb fst snd]. intros Hd.
  rewrite normalize_plain by reflexivity. unfold plan_data_typed. cbn [PlanData forallb fst snd].
  rewrite !get_normalize. cbn -[normalize exact decimals costs_json strings_json has_type].
  rewrite ?(fun b => proj1 (typed_scalars b "")), ?(fun t => proj2 (typed_scalars false t)), ?typed_strings,
    ?(fun b => proj1 (exact_scalars b "")), ?(fun t => proj2 (exact_scalars false t)), ?exact_strings,
    ?(fun b => proj1 (decimals_scalars [] b "")), ?(fun t => proj1 (proj2 (decimals_scalars [] false t))),
    ?(fun l => proj2 (proj2 (decimals_scalars l false ""))) in *.
  cbn [andb] in *. rewrite ?andb_true_r in *.
  apply andb_prop in Hd as [Hm Hd]. apply andb_prop in Hd as [Hc Hd]. apply andb_prop in Hd as [Hr Hg].
  by rewrite typed_costs, !typed_number.
Qed.

(** C21. The relay's [planData] has the type its [interface PlanData]
    declares (every field present, booleans, strings, string arrays,
    numbers and a record of numbers) exactly when every number of the
    client's answer set and gap is finite: [JSON.stringify] turns an
    infinite cost, expense or gap into [null]. *)
Theorem relay_plan_data_typed fd key :
  decimals (plan_json fd (financial_gap fd)) = true ->
  exists pd, parse_json (relay_request fd key).(req_body)
             = Some (JObject [("planData", pd); ("anthropicApiKey", JString key)])
    /\ plan_data_typed pd = exact (plan_json fd (financial_gap fd)).
Proof.
  intros Hd. exists (normalize (plan_json fd (financial_gap fd))). unfold relay_request. cbn [req_body].
  split; [by apply relay_body_parse|by apply plan_data_typed_normalize].
Qed.

End Wire.




End Pipeline.

(** ** Witnesses *)

Module PipelineDemo.
Import JsNumber FormData CostEditor Json JsonCodec JsonExtract Relay Submit Pipeline.

Definition demo_msg (e : Exn) : string := "error".

#[local] Instance demo_rt : JsRuntime := std_runtime demo_msg.

(** [{"content":[{"text":"Plan: {} done"}]}] *)
Definition demo_reply_text : string :=
  "{" +:+ dq +:+ "content" +:+ dq +:+ ":[{" +:+ dq +:+ "text" +:+ dq +:+ ":" +:+ dq
  +:+ "Plan: {} done" +:+ dq +:+ "}]}".

Definition demo_data : Json :=
  JObject [("content", JArray [JObject [("text", JString "Plan: {} done")]])].

Definition demo_ups (o : Outbound) : FetchResult := FetchResolved 200 demo_reply_text.

Example pipeline_prompt_witness :
  JsString.truthy "sk" = true /\ exact (plan_json initial_form_data (financial_gap initial_form_data)) = true /\
  exists prompt, build_prompt (Some (plan_json initial_form_data (financial_gap initial_form_data))) = inr prompt /\
    (handler demo_ups (relay_request initial_form_data "sk")).2 = [outbound_request "sk" prompt].
Proof.
  split; [reflexivity|]. split; [vm_compute; reflexivity|].
  apply (pipeline_prompt demo_msg); [reflexivity|vm_compute; reflexivity].
Defined.

Example pipeline_analysis_witness :
  reply_result (relay_outcome demo_msg demo_ups initial_form_data "sk") = inr (Some (normalize (JObject []))).
Proof.
  eapply (pipeline_analysis demo_msg demo_ups initial_form_data "sk" _ 200 demo_reply_text demo_data
            "Plan: " "" " done" (JObject []));
    [reflexivity|vm_compute; reflexivity|reflexivity|reflexivity|reflexivity|vm_compute; reflexivity
    |reflexivity|reflexivity|reflexivity|vm_compute; reflexivity|reflexivity|reflexivity].
Defined.

Example relay_reads_request_witness :
  exact (plan_json initial_form_data (financial_gap initial_form_data)) = true /\
  exists pd, parse_json (relay_request initial_form_data "sk").(req_body)
             = Some (JObject [("planData", pd); ("anthropicApiKey", JString "sk")])
    /\ (forall k, k <> "monthly_costs" -> get k pd = get k (plan_json initial_form_data (financial_gap initial_form_data)))
    /\ get "monthly_costs" pd = Some (normalize (costs_json initial_form_data.(monthly_costs))).
Proof. split; [vm_compute; reflexivity|]. apply relay_reads_request. vm_compute. reflexivity. Defined.

(** A cost typed as ["Infinity"] in step 3: [parseFloat] reads it. *)
Definition inf_form : FormData := (addCostItem (mkStep3Local "Yacht" "Infinity") initial_form_data).1.

Example relay_plan_data_typed_witness :
  decimals (plan_json inf_form (financial_gap inf_form)) = true /\
  exists pd, parse_json (relay_request inf_form "sk").(req_body)
             = Some (JObject [("planData", pd); ("anthropicApiKey", JString "sk")])
    /\ plan_data_typed pd = false.
Proof.
  split; [vm_compute; reflexivity|].
  destruct (relay_plan_data_typed inf_form "sk") as (pd & Hp & Ht); [vm_compute; reflexivity|].
  exists pd. split; [exact Hp|]. rewrite Ht. vm_compute. reflexivity.
Defined.

End PipelineDemo.
