(* ===== verification/Liveness.v ===== *)
(** * The results page stays reachable

    Whatever a session has done so far, the user can still get to the
    results page ([if (analysis) return <ActionPlan .../>], App.tsx line
    183): fill in the current step, press Next, and so on up to step 5,
    open the key input and type a key, then press the submit button.  The
    environment has to cooperate once: the database accepts the writes
    and the relay answers with an analysis object.  The runtime is the
    concrete one of [Pipeline], so that the relay's text is read by the
    real [JSON.parse]. *)

From Stdlib Require Import ZArith QArith Qcanon.
From stdpp Require Import gmap strings.
From S2P Require Import Prelude JsString JsNumber FormData CostEditor ListEditor TextSteps Json JsonCodec Relay Wizard Submit Session Pipeline.

Module Liveness.
Import FormData CostEditor ListEditor FormStep1 FormStep2 Json JsonCodec Wizard Submit Session Pipeline.

(** ** The events that complete a step *)

(** Events of the editor of step [j] after which the step is valid,
    whatever the answers were before. *)
Definition fill (j : nat) : list EditEvent :=
  match j with
  | 1 => [E1 (S1_has_decided true); E1 (S1_habits_to_cut "x"); E1 (S1_new_version_description "x")]
  | 2 => [E2 (S2_motivation_fuel Pain); E2 (S2_fuel_description "x"); E2 (S2_daily_fuel_reminder "x")]
  | 3 => [E3 (S3_dream_day "x"); E3 (S3_dream_week "x"); E3 (S3_ideal_living "x")]
  | 4 => [E4 (S4_newFocusItem "x"); E4 S4_addFocusItem; E4 (S4_newCutItem "x"); E4 S4_addCutItem;
          E4 (S4_environment_changes "x")]
  | _ => [E5 (S5_progress_tracking_method "x"); E5 (S5_newWinItem "x"); E5 S5_addWinItem;
          E5 (S5_daily_planning_routine "x"); E5 (S5_action_commitment "x")]
  end%nat.

(** Fill in step [j], press Next, and go on for [n] more steps. *)
Fixpoint finish (n j : nat) : list UiEvent :=
  map Edit (fill j) ++ match n with 0 => [] | S n' => ClickNext :: finish n' (S j) end.

(** Show the key input when it is hidden, then type a key. *)
Definition key_events (s : AppState) : list UiEvent :=
  (if s.(showApiKeyInput) then [] else [ClickEnterKey]) ++ [TypeApiKey "sk"].

(** ** Runs of the wizard *)

Lemma run_app evs1 evs2 s :
  run (evs1 ++ evs2) s = match run evs1 s with Some s' => run evs2 s' | None => None end.
Proof.
  revert s. induction evs1 as [|ev evs IH]; intros s; [done|]. cbn [app run].
  destruct (ui_handle ev s); [apply IH|done].
Qed.

(** What the wizard's events leave alone. *)
Definition same_status (s s' : AppState) : Prop :=
  s'.(analysis) = s.(analysis) /\ s'.(isAnalyzing) = s.(isAnalyzing).

Lemma ui_edit e s :
  truthy_opt s.(analysis) = false -> s.(currentStep) = edit_step e ->
  ui_handle (Edit e) s = Some (apply_edit e s).
Proof. intros Ha Hs. unfold ui_handle. rewrite Ha, Hs, Nat.eqb_refl. done. Qed.

Lemma apply_edit_status e s : same_status s (apply_edit e s).
Proof. apply apply_edit_flags. Qed.

Lemma apply_edit_key e s : (apply_edit e s).(showApiKeyInput) = s.(showApiKeyInput).
Proof.
  destruct e; simpl; [done|done|..];
    match goal with |- context [let '(_, _) := ?p in _] => by destruct p end.
Qed.

Lemma length_snoc_pos {A} (l : list A) x : (0 <? length (l ++ [x]))%nat = true.
Proof. apply Nat.ltb_lt. rewrite length_app. simpl. lia. Qed.

Lemma run_edits es s :
  truthy_opt s.(analysis) = false -> Forall (fun e => edit_step e = s.(currentStep)) es ->
  run (map Edit es) s = Some (foldl (fun s e => apply_edit e s) s es).
Proof.
  revert s. induction es as [|e es IH]; intros s Ha Hes; [done|]. apply Forall_cons in Hes as [He Hes].
  cbn [map run foldl]. rewrite ui_edit by done. apply IH.
  - by destruct (apply_edit_status e s) as [-> _].
  - by rewrite apply_edit_step.
Qed.

Lemma fill_steps j : (1 <= j <= totalSteps)%nat -> Forall (fun e => edit_step e = j) (fill j).
Proof.
  unfold totalSteps. intros Hj.
  assert (j = 1 \/ j = 2 \/ j = 3 \/ j = 4 \/ j = 5)%nat as Hj' by lia.
  destruct Hj' as [->|[->|[->|[->| ->]]]]; cbn [fill]; repeat constructor.
Qed.

(** The events of [fill j] are all handled and make step [j] valid. *)
Lemma run_fill s :
  truthy_opt s.(analysis) = false -> (1 <= s.(currentStep) <= totalSteps)%nat ->
  exists s', run (map Edit (fill s.(currentStep))) s = Some s' /\
    s'.(currentStep) = s.(currentStep) /\ isStepValid s'.(currentStep) s'.(formData) = true /\
    same_status s s' /\ s'.(showApiKeyInput) = s.(showApiKeyInput).
Proof.
  intros Ha Hc. rewrite run_edits by (done || by apply fill_steps).
  eexists. split; [reflexivity|]. unfold totalSteps in Hc.
  destruct s as [c an a er k sh fd l3 l4 l5]. destruct fd. cbn in Hc |- *.
  assert (c = 1 \/ c = 2 \/ c = 3 \/ c = 4 \/ c = 5)%nat as Hc' by lia.
  destruct Hc' as [->|[->|[->|[->| ->]]]]; simpl; unfold append_trimmed;
    rewrite ?handleChange_set; simpl; rewrite ?length_snoc_pos; by split_and!.
Qed.

Lemma run_finish n s :
  truthy_opt s.(analysis) = false -> (1 <= s.(currentStep))%nat -> (s.(currentStep) + n = totalSteps)%nat ->
  exists s', run (finish n s.(currentStep)) s = Some s' /\
    s'.(currentStep) = totalSteps /\ isStepValid totalSteps s'.(formData) = true /\
    same_status s s' /\ s'.(showApiKeyInput) = s.(showApiKeyInput).
Proof.
  revert s. induction n as [|n IH]; intros s Ha H1 Hn; cbn [finish]; rewrite run_app.
  - destruct (run_fill s Ha ltac:(unfold totalSteps in *; lia))
      as (s' & -> & Hc & Hv & Hst & Hk).
    exists s'. rewrite Nat.add_0_r in Hn. rewrite <- Hn, <- Hc. by split_and!.
  - destruct (run_fill s Ha ltac:(unfold totalSteps in *; lia)) as (s1 & -> & Hc & Hv & [Han Hi] & Hk).
    assert (Hlt : (s1.(currentStep) <? totalSteps)%nat = true) by (apply Nat.ltb_lt; rewrite Hc; lia).
    cbn [run]. unfold ui_handle at 1. rewrite Han, Ha. unfold next_enabled, handleNext. rewrite Hlt, Hv, Hc.
    destruct (IH (set_step (S s.(currentStep)) s1)) as (s' & Hr & Hc' & Hv' & [Ha' Hi'] & Hk');
      cbn; rewrite ?Han; [done|lia|lia|].
    exists s'. split_and!; try done; [split|]; cbn in *; congruence.
Qed.

(** Key input events on the last step: the input is shown and holds the
    typed key. *)
Lemma run_keys s :
  truthy_opt s.(analysis) = false -> s.(currentStep) = totalSteps ->
  run (key_events s) s = Some (set_key_input true "sk" s).
Proof.
  intros Ha Hc. unfold key_events. destruct (showApiKeyInput s) eqn:Hk; cbn [app run]; unfold ui_handle.
  - by rewrite Ha, Hk.
  - rewrite Ha, Hk, Hc, Nat.eqb_refl. cbn [negb andb run]. unfold ui_handle.
    cbn [analysis showApiKeyInput set_key_input]. by rewrite Ha.
Qed.

(** ** Runs of the session *)

(** The relay's answer when the model returns the empty object: the
    text of [JSON.stringify({ analysis })]. *)
Definition analysis_reply : string := stringify (JObject [("analysis", JObject [])]).

(** The world cooperates once: both writes succeed and the relay answers. *)
Definition ok_outcome : Outcomes := mkOutcomes None (RelayReplied 200 analysis_reply) None None.

Section Live.
Context `{JsRuntime}.

Lemma run_events_app evs1 evs2 w :
  run_events (evs1 ++ evs2) w = match run_events evs1 w with Some w' => run_events evs2 w' | None => None end.
Proof.
  revert w. induction evs1 as [|ev evs IH]; intros w; [done|]. cbn [app run_events].
  destruct (step ev w); [apply IH|done].
Qed.

Lemma run_events_ui uis s st :
  run_events (map UI uis) (s, st) = (fun s' => (s', st)) <$> run uis s.
Proof.
  revert s. induction uis as [|e uis IH]; intros s; [done|]. cbn [map run_events run]. unfold step.
  cbn [fst snd]. destruct (ui_handle e s); [apply IH|done].
Qed.


Lemma handleSubmit_not_analyzing o s st :
  s.(isAnalyzing) = false -> (snd (handleSubmit o (s, st))).1.(isAnalyzing) = false.
Proof.
  intros Hi. rewrite handleSubmit_run. destruct (JsString.truthy (apiKey s)); [|done].
  cbn [negb]. by destruct (submit_body _ _ _ _) as [[] []].
Qed.

(** No analysis is in flight between two events of the session. *)
Lemma reachable_not_analyzing w : session_reachable w -> w.1.(isAnalyzing) = false.
Proof.
  induction 1 as [|ev w w' _ IH Hs]; [done|]. unfold step in Hs. destruct ev as [e|o].
  - destruct (ui_handle e w.1) eqn:E; cbn in Hs; simplify_eq. cbn [fst]. by rewrite (ui_handle_isAnalyzing _ _ _ E).
  - unfold submit in Hs. case_match; simplify_eq. destruct w as [s st]. by apply handleSubmit_not_analyzing.
Qed.

End Live.

Section Results.
Context (exn_text : Exn -> string).
#[local] Instance live_rt : JsRuntime := std_runtime exn_text.

Lemma ok_reply : reply_result ok_outcome.(o_relay) = inr (Some (JObject [])).
Proof. apply (reply_result_ok _ _ (JObject [("analysis", JObject [])])); [done|reflexivity|done]. Qed.

(** The submit click on the last, valid step, with a key typed, shows
    the analysis. *)
Lemma submit_ok s st :
  truthy_opt s.(analysis) = false -> s.(isAnalyzing) = false ->
  s.(currentStep) = totalSteps -> isStepValid totalSteps s.(formData) = true ->
  exists w', step (SubmitClick ok_outcome) (set_key_input true "sk" s, st) = Some w' /\
    truthy_opt w'.1.(analysis) = true.
Proof.
  intros Ha Hi Hc Hv. unfold step, submit, submit_enabled. cbn [fst set_key_input currentStep formData isAnalyzing analysis].
  rewrite Hc, Hv, Hi, Ha. eexists. split; [reflexivity|].
  rewrite (handleSubmit_success ok_outcome (set_key_input true "sk" s) st _ _ eq_refl eq_refl ok_reply (analysis_row_some _ (JObject []) ltac:(done)) eq_refl).
  done.
Qed.

(** C16. Liveness of the results page: from every state a session can
    reach, either the results page is already shown, or the user can get
    there by filling in the remaining steps, pressing Next, typing a key
    and pressing the submit button once, the database and the relay
    answering with success. *)
Theorem results_page_reachable w :
  session_reachable w ->
  truthy_opt w.1.(analysis) = true \/
  exists uis w', run_events (map UI uis ++ [SubmitClick ok_outcome]) w = Some w' /\
                 truthy_opt w'.1.(analysis) = true.
Proof.
  intros Hr. destruct (truthy_opt w.1.(analysis)) eqn:Ha; [by left|right].
  destruct (session_reachable_inv w Hr) as [[Hb _] _]. pose proof (reachable_not_analyzing w Hr) as Hi.
  destruct w as [s st]. cbn [fst] in *.
  destruct (run_finish (totalSteps - s.(currentStep)) s Ha ltac:(lia) ltac:(lia))
    as (s1 & Hr1 & Hc1 & Hv1 & [Ha1 Hi1] & _).
  destruct (submit_ok s1 st) as (w' & Hw' & Hres); [by rewrite Ha1|by rewrite Hi1|done|done|].
  exists (finish (totalSteps - s.(currentStep)) s.(currentStep) ++ key_events s1)%list, w'. split; [|done].
  rewrite run_events_app, run_events_ui, run_app, Hr1, run_keys by (by rewrite ?Ha1).
  cbn [fmap option_fmap option_map run_events]. by rewrite Hw'.
Qed.

End Results.

End Liveness.

(** ** Witness *)

Module LivenessDemo.
Import Json Wizard Session Submit Liveness.

Definition demo_text (e : Exn) : string := "error".
#[local] Instance demo_rt : JsRuntime := live_rt demo_text.

(** From the first screen of a fresh session, the results page is
    reachable. *)
Lemma results_page_reachable_witness :
  session_reachable (app_initial, empty_store) /\
  (truthy_opt app_initial.(analysis) = true \/
   exists uis w', run_events (map UI uis ++ [SubmitClick ok_outcome]) (app_initial, empty_store) = Some w' /\
                  truthy_opt w'.1.(analysis) = true).
Proof. split; [constructor|]. apply (results_page_reachable demo_text (app_initial, empty_store)). constructor. Defined.

End LivenessDemo.
